(** * Hold quota service: a shallow embedding of [holdQuota.service.ts]

    The service keeps, per bus schedule, the counters [availableSeats],
    [heldSeats] and [bookedSeats] together with a JSON seat map, and a table
    of seat holds.  The quota calculation, the three hold operations and the
    expiry sweep of the TypeScript module are embedded below as functions on
    an explicit database state.

    Conventions of the embedding
    - Prisma [Int] columns and JS integers are [Z]; the quota percentage is a
      rational [Q], so [Math.floor] is the exact floor (the rounding of IEEE
      doubles is not modelled).
    - A [Date] is its number of milliseconds since the epoch, in [Z].
    - A table is a [gmap] from the row id to the row.  Relations loaded with
      [include] (schedule -> route -> partner) are nested records, since the
      service never writes them.
    - Code running inside [prisma.$transaction] lives in the monad [Tx]: state
      plus exceptions, where a [throw] keeps the writes made so far and it is
      [transaction] that discards them.
    - Logging is dropped.

    The booking service of [booking.service.ts], which calls the hold
    operations, is embedded after it: pricing, the three kinds of booking,
    payment confirmation, refunds and cancellation, on a database that adds
    the booking tables to the tables of the hold service. *)

From Stdlib Require Import ZArith QArith Qround Lia Lqa.
From stdpp Require Import gmap strings list fin_maps pretty.

Local Open Scope Z_scope.
#[local] Set Warnings "-clear-no-such-hyp".

(** ** Data model *)

Inductive Category := BUS | FLIGHT.

Module HoldStatus.
Inductive t := ACTIVE | RELEASED | CONVERTED.

#[global] Instance eq_dec : EqDecision t.
Proof. solve_decision. Defined.
End HoldStatus.

Module ScheduleStatus.
(** At run time a Prisma enum value is its name. *)
Definition ACTIVE : string := "ACTIVE".
End ScheduleStatus.

(** The reason argument of [releaseHold]. *)
Inductive ReleaseReason := EXPIRED | USER_CANCELLED | REASON_CONVERTED.

(** The value read from the column [partner.holdQuotaPercentage].  The Prisma
    schema that fixes the column type is not part of the sources: a [Float]
    column yields a JS number (zero is falsy), a [Decimal] column yields a
    Decimal object (always truthy), and a missing value is [null]. *)
Inductive PctValue :=
| PctNull
| PctNumber (q : Q)
| PctDecimal (q : Q).

(** JS truthiness, as used by [||]. *)
Definition truthy (v : PctValue) : bool :=
  match v with
  | PctNull => false
  | PctNumber q => negb (Qeq_bool q 0)
  | PctDecimal _ => true
  end.

(** [Number(v)] for a truthy value. *)
Definition toNumber (v : PctValue) : Q :=
  match v with
  | PctNull => 0%Q
  | PctNumber q => q
  | PctDecimal q => q
  end.

Module Partner.
Record t := mk {
  holdQuotaEnabled : bool;
  holdQuotaPercentage : PctValue;
  holdExpiryMinutes : option Z
}.
End Partner.

Module BusRoute.
Record t := mk {
  totalSeats : Z;
  partner : Partner.t
}.
End BusRoute.

Module BusSchedule.
Record t := mk {
  route : BusRoute.t;
  status : string;
  seatStatus : gmap string string;
  availableSeats : Z;
  heldSeats : Z;
  bookedSeats : Z
}.
End BusSchedule.

Module Flight.
Record t := mk { partner : Partner.t }.
End Flight.

Module FlightSchedule.
Record t := mk {
  flight : Flight.t;
  economySeats : Z;
  economyBooked : Z
}.
End FlightSchedule.

Module SeatHold.
Record t := mk {
  scheduleId : string;
  seatNumbers : list string;
  heldBy : string;
  holdExpiry : Z;
  status : HoldStatus.t;
  releasedAt : option Z
}.
End SeatHold.

(** The database. *)
Record Store := mkStore {
  busSchedule : gmap string BusSchedule.t;
  flightSchedule : gmap string FlightSchedule.t;
  seatHold : gmap string SeatHold.t
}.

Record HoldSeatsParams := mkParams {
  p_scheduleId : string;
  p_seatNumbers : list string;
  p_heldBy : string;
  p_category : Category;
  p_holdExpiryMinutes : option Z
}.

Record HoldResult := mkResult {
  success : bool;
  holdId : option string;
  r_seatNumbers : list string;
  r_holdExpiry : Z;
  message : string
}.

Record QuotaCheck := mkQuota {
  available : bool;
  maxAllowed : Z;
  currentHeld : Z
}.


(** ** Transactions *)

(** A computation inside a transaction: it may throw an [Error] (its message)
    and it threads the database. *)
Definition Tx (A : Type) : Type := Store → (string + A) * Store.

Definition ret {A} (a : A) : Tx A := λ st, (inr a, st).

Definition throw {A} (msg : string) : Tx A := λ st, (inl msg, st).

Definition bind {A B} (m : Tx A) (k : A → Tx B) : Tx B :=
  λ st, match m st with
        | (inl e, st') => (inl e, st')
        | (inr a, st') => k a st'
        end.

Notation "'let*' x ':=' m 'in' k" := (bind m (λ x, k))
  (at level 10, x name, m at level 100, k at level 200).
Notation "'do' m 'then' k" := (bind m (λ _, k))
  (at level 10, m at level 100, k at level 200).

(** [prisma.$transaction(body)]: commit on return, roll back on throw. *)
Definition transaction {A} (body : Tx A) (st : Store) : (string + A) * Store :=
  match body st with
  | (inl e, _) => (inl e, st)
  | (inr a, st') => (inr a, st')
  end.

(** *** Table accessors *)

Definition busSchedule_findUnique (id : string) : Tx (option BusSchedule.t) :=
  λ st, (inr (busSchedule st !! id), st).

(** [tx.busSchedule.update]; Prisma throws when the row is missing (the
    message is abridged). *)
Definition busSchedule_update (id : string) (f : BusSchedule.t → BusSchedule.t)
  : Tx unit :=
  λ st, match busSchedule st !! id with
        | None => (inl "Record to update not found.", st)
        | Some s =>
            (inr (), mkStore (<[id := f s]> (busSchedule st))
                             (flightSchedule st) (seatHold st))
        end.

Definition seatHold_findUnique (id : string) : Tx (option SeatHold.t) :=
  λ st, (inr (seatHold st !! id), st).

(** [tx.seatHold.create]: the database picks an id that is not in use. *)
Definition seatHold_create (h : SeatHold.t) : Tx string :=
  λ st, let id := fresh (dom (seatHold st)) in
        (inr id, mkStore (busSchedule st) (flightSchedule st)
                         (<[id := h]> (seatHold st))).

Definition seatHold_update (id : string) (f : SeatHold.t → SeatHold.t)
  : Tx unit :=
  λ st, match seatHold st !! id with
        | None => (inl "Record to update not found.", st)
        | Some h =>
            (inr (), mkStore (busSchedule st) (flightSchedule st)
                             (<[id := f h]> (seatHold st)))
        end.

(** *** Seat map loops *)

Definition AVAILABLE : string := "AVAILABLE".
Definition HELD : string := "HELD".
Definition BOOKED : string := "BOOKED".

(** [for (const seat of seatNumbers) if (seatStatus[seat] !== 'AVAILABLE') throw]:
    the first seat that is not available, if any. *)
Fixpoint firstUnavailable (seatStatus : gmap string string) (seats : list string)
  : option string :=
  match seats with
  | [] => None
  | seat :: rest =>
      if bool_decide (seatStatus !! seat = Some AVAILABLE)
      then firstUnavailable seatStatus rest
      else Some seat
  end.

(** [for (const seat of seatNumbers) newSeatStatus[seat] = v] *)
Fixpoint markSeats (v : string) (seats : list string) (m : gmap string string)
  : gmap string string :=
  match seats with
  | [] => m
  | seat :: rest => markSeats v rest (<[seat := v]> m)
  end.

(** [for (const seat of hold.seatNumbers)
       if (newSeatStatus[seat] === 'HELD') newSeatStatus[seat] = 'AVAILABLE'] *)
Fixpoint releaseSeats (seats : list string) (m : gmap string string)
  : gmap string string :=
  match seats with
  | [] => m
  | seat :: rest =>
      releaseSeats rest
        (if bool_decide (m !! seat = Some HELD) then <[seat := AVAILABLE]> m else m)
  end.

(** [seatNumbers.length] *)
Definition len (seats : list string) : Z := Z.of_nat (length seats).

(** ** The booking service ([booking.service.ts])

    The booking service is the caller of the hold operations.  Amounts are
    JS numbers and are rationals here, as the quota percentage is. *)

Definition CONVENIENCE_FEE_PERCENTAGE : Q := 2.
Definition GST_PERCENTAGE : Q := 5.

Module BookingCategory.
Inductive t := BUS | AIRLINE | HOTEL.

#[global] Instance eq_dec : EqDecision t.
Proof. solve_decision. Defined.
End BookingCategory.

Module BookingStatus.
Inductive t :=
| PENDING | ON_HOLD | CONFIRMED | CANCELLED | NO_SHOW
| COMPLETED | FAILED | REFUNDED | PARTIALLY_REFUNDED.

#[global] Instance eq_dec : EqDecision t.
Proof. solve_decision. Defined.
End BookingStatus.

Module PaymentStatus.
Inductive t :=
| PENDING | AUTHORIZED | CAPTURED | FAILED | REFUNDED | PARTIALLY_REFUNDED.
End PaymentStatus.

Module CabinClass.
Inductive t := ECONOMY | PREMIUM_ECONOMY | BUSINESS | FIRST.

(** The name of the enum value, which is its value at run time. *)
Definition name (c : t) : string :=
  match c with
  | ECONOMY => "ECONOMY"
  | PREMIUM_ECONOMY => "PREMIUM_ECONOMY"
  | BUSINESS => "BUSINESS"
  | FIRST => "FIRST"
  end.
End CabinClass.

Inductive GuestType := ADULT | CHILD.

(** [PassengerInfo] of the request; every field but the two names is
    optional. *)
Record PassengerInfo := mkPassenger {
  firstName : string;
  lastName : string;
  dateOfBirth : option Z;
  gender : option string;
  phone : option string;
  email : option string;
  seatNumber : option string;
  seatPreference : option string;
  mealPreference : option string;
  specialAssistance : option string;
  idType : option string;
  idNumber : option string;
  guestType : option GuestType
}.

Record AddOnItem := mkAddOn {
  ao_name : string;
  ao_price : Q;
  ao_quantity : Q
}.

(** The [{ price, quantity }] objects given to [calculatePricing]. *)
Record PricedItem := mkPriced {
  price : Q;
  quantity : Q
}.

Record PricingBreakdown := mkPricing {
  baseAmount : Q;
  taxAmount : Q;
  convenienceFee : Q;
  gstOnConvenience : Q;
  discountAmount : Q;
  addOnAmount : Q;
  totalAmount : Q
}.

Record CreateBookingRequest := mkRequest {
  rq_busScheduleId : option string;
  rq_flightScheduleId : option string;
  rq_cabinClass : option CabinClass.t;
  rq_roomInventoryId : option string;
  rq_checkInDate : option Z;
  rq_checkOutDate : option Z;
  rq_nights : option Q;
  rq_passengers : list PassengerInfo;
  rq_addOns : option (list AddOnItem);
  rq_couponCode : option string
}.

Record BookingResponse := mkResponse {
  rs_id : string;
  rs_bookingNumber : string;
  rs_category : BookingCategory.t;
  rs_status : BookingStatus.t;
  rs_paymentStatus : PaymentStatus.t;
  rs_baseAmount : Q;
  rs_taxAmount : Q;
  rs_convenienceFee : Q;
  rs_discountAmount : Q;
  rs_totalAmount : Q;
  rs_paidAmount : Q;
  rs_createdAt : Z
}.

Record CancellationResponse := mkRefund {
  eligibleRefundAmount : Q;
  cancellationCharges : Q;
  finalRefundAmount : Q;
  refundProcessingDays : Z
}.

(** *** Rows of the booking tables

    The columns of a booking are grouped by what writes them. *)

Module Booking.
Record Target := mkTarget {
  category : BookingCategory.t;
  busScheduleId : option string;
  flightScheduleId : option string;
  cabinClass : option CabinClass.t;
  roomInventoryId : option string;
  checkInDate : option Z;
  checkOutDate : option Z;
  nights : option Q
}.

Record Contact := mkContact {
  primaryPassengerName : string;
  primaryPassengerPhone : option string;
  primaryPassengerEmail : option string
}.

Record Amounts := mkAmounts {
  baseAmount : Q;
  taxAmount : Q;
  convenienceFee : Q;
  discountAmount : Q;
  addOnAmount : Q;
  totalAmount : Q;
  addOns : option (list AddOnItem)
}.

Record Payment := mkPayment {
  paidAmount : option Q;
  razorpayOrderId : option string;
  razorpayPaymentId : option string;
  razorpaySignature : option string;
  paymentMethod : option string;
  confirmedAt : option Z
}.

Record Cancellation := mkCancellation {
  cancelledAt : option Z;
  cancelledBy : option string;
  cancellationReason : option string;
  refundAmount : option Q
}.

Record t := mk {
  bookingNumber : string;
  userId : string;
  status : BookingStatus.t;
  paymentStatus : PaymentStatus.t;
  createdAt : Z;
  target : Target;
  contact : Contact;
  amounts : Amounts;
  payment : Payment;
  cancellation : Cancellation
}.
End Booking.

Module BookingPassenger.
Record t := mk {
  bookingId : string;
  data : PassengerInfo
}.
End BookingPassenger.

Module CancellationRequest.
Record t := mk {
  bookingId : string;
  type : string;
  requestedBy : string;
  reason : string;
  eligibleRefundAmount : Q;
  cancellationCharges : Q;
  finalRefundAmount : Q;
  status : string;
  approvedBy : string;
  approvedAt : Z;
  refundStatus : string
}.
End CancellationRequest.

Module FareRules.
Record t := mk {
  cancellationFreeWithinHours : option Z;
  cancellationChargePercentage : option Q;
  cancellationChargeFixed : option Q;
  refundProcessingDays : option Z
}.
End FareRules.

(** The columns of a [flightSchedule] row that the hold service does not
    read. *)
Module FlightExtra.
Record t := mk {
  status : string;
  economyFare : Q;
  premiumFare : Q;
  businessFare : Q;
  firstFare : Q;
  premiumSeats : Z;
  premiumBooked : Z;
  businessSeats : Z;
  businessBooked : Z;
  firstSeats : Z;
  firstBooked : Z;
  fareRules : option FareRules.t
}.
End FlightExtra.

Module RoomInventory.
Record t := mk {
  isAvailable : bool;
  availableRooms : Z;
  heldRooms : Z;
  bookedRooms : Z;
  price : Q
}.
End RoomInventory.

(** The whole database: the tables of the hold service, the columns of
    their rows that only the booking service reads (as functions of the row
    id), and the booking tables. *)
Record Database := mkDb {
  inventory : Store;
  busBaseFare : string → Q;
  flightExtra : string → FlightExtra.t;
  roomInventory : gmap string RoomInventory.t;
  booking : gmap string Booking.t;
  bookingPassenger : list BookingPassenger.t;
  cancellationRequest : list CancellationRequest.t
}.

(** What the service reads from outside the database when it creates a
    booking: the clock, its date as [YYYYMMDD], and the four characters drawn
    with [Math.random]. *)
Record Environment := mkEnv {
  env_now : Z;
  env_dateDigits : string;
  env_random : string
}.

(** ** The service *)

Section HoldQuotaService.

(** Configuration read from the environment when the module is loaded. *)
Variable DEFAULT_HOLD_EXPIRY_MINUTES : Z.
Variable DEFAULT_HOLD_QUOTA_PERCENTAGE : Q.

(** *** Hold quota calculations *)

(** [Math.floor((totalSeats * holdQuotaPercentage) / 100)]; the percentage
    is an optional argument that defaults to the configured one. *)
Definition calculateMaxHolds (totalSeats : Z) (holdQuotaPercentage : option Q) : Z :=
  let pct := default DEFAULT_HOLD_QUOTA_PERCENTAGE holdQuotaPercentage in
  Qfloor ((inject_Z totalSeats * pct) / 100)%Q.

(** [Number(partner.holdQuotaPercentage || DEFAULT_HOLD_QUOTA_PERCENTAGE)] *)
Definition quotaPercentageOf (partner : Partner.t) : Q :=
  if truthy (Partner.holdQuotaPercentage partner)
  then toNumber (Partner.holdQuotaPercentage partner)
  else DEFAULT_HOLD_QUOTA_PERCENTAGE.

(** The part of [isHoldQuotaAvailable] after the schedule is loaded. *)
Definition quotaDecision (partner : Partner.t) (totalSeats currentHeld requestedSeats : Z)
  : QuotaCheck :=
  if negb (Partner.holdQuotaEnabled partner)
  then mkQuota false 0 0
  else
    let holdQuotaPercentage := quotaPercentageOf partner in
    let maxAllowed := calculateMaxHolds totalSeats (Some holdQuotaPercentage) in
    mkQuota (currentHeld + requestedSeats <=? maxAllowed) maxAllowed currentHeld.

(** [isHoldQuotaAvailable]: reads through the global client, outside of any
    transaction; throws when the schedule does not exist. *)
Definition isHoldQuotaAvailable (scheduleId : string) (requestedSeats : Z)
    (category : Category) (st : Store) : string + QuotaCheck :=
  match category with
  | BUS =>
      match busSchedule st !! scheduleId with
      | None => inl "Bus schedule not found"
      | Some schedule =>
          let totalSeats := BusRoute.totalSeats (BusSchedule.route schedule) in
          let currentHeld := BusSchedule.heldSeats schedule in
          inr (quotaDecision (BusRoute.partner (BusSchedule.route schedule))
                             totalSeats currentHeld requestedSeats)
      end
  | FLIGHT =>
      match flightSchedule st !! scheduleId with
      | None => inl "Flight schedule not found"
      | Some schedule =>
          let totalSeats := FlightSchedule.economySeats schedule in
          let currentHeld := FlightSchedule.economyBooked schedule in
          inr (quotaDecision (Flight.partner (FlightSchedule.flight schedule))
                             totalSeats currentHeld requestedSeats)
      end
  end.

(** *** Seat hold operations *)

Definition quotaExceededMessage (q : QuotaCheck) : string :=
  "Hold quota exceeded. Max allowed: " +:+ pretty (maxAllowed q)
    +:+ ", Currently held: " +:+ pretty (currentHeld q).

Definition seatUnavailableMessage (seat : string) : string :=
  "Seat " +:+ seat +:+ " is not available".

(** [holdExpiry.setMinutes(holdExpiry.getMinutes() + holdExpiryMinutes)] *)
Definition addMinutes (date minutes : Z) : Z := date + minutes * 60000.

Definition holdAdd (n : Z) (newSeatStatus : gmap string string)
    (s : BusSchedule.t) : BusSchedule.t :=
  BusSchedule.mk (BusSchedule.route s) (BusSchedule.status s)
    newSeatStatus
    (BusSchedule.availableSeats s - n)
    (BusSchedule.heldSeats s + n)
    (BusSchedule.bookedSeats s).

(** The callback given to [prisma.$transaction] in [holdSeats]. *)
Definition holdSeatsTx (params : HoldSeatsParams) (holdExpiry : Z) : Tx string :=
  let scheduleId := p_scheduleId params in
  let seatNumbers := p_seatNumbers params in
  match p_category params with
  | BUS =>
      let* schedule := busSchedule_findUnique scheduleId in
      match schedule with
      | None => throw "Schedule not available"
      | Some schedule =>
          if negb (String.eqb (BusSchedule.status schedule) ScheduleStatus.ACTIVE)
          then throw "Schedule not available"
          else
            let seatStatus := BusSchedule.seatStatus schedule in
            match firstUnavailable seatStatus seatNumbers with
            | Some seat => throw (seatUnavailableMessage seat)
            | None =>
                let newSeatStatus := markSeats HELD seatNumbers seatStatus in
                do busSchedule_update scheduleId
                     (holdAdd (len seatNumbers) newSeatStatus) then
                let* hold := seatHold_create
                     (SeatHold.mk scheduleId seatNumbers (p_heldBy params)
                                  holdExpiry HoldStatus.ACTIVE None) in
                ret hold
            end
      end
  | FLIGHT => throw "Flight seat hold not implemented yet"
  end.

Definition holdFailure (params : HoldSeatsParams) (now : Z) (msg : string)
  : HoldResult :=
  mkResult false None (p_seatNumbers params) now msg.

(** [error.message || 'Failed to hold seats'] *)
Definition errorMessage (msg : string) : string :=
  if String.eqb msg "" then "Failed to hold seats" else msg.

(** First half of [holdSeats], up to the start of the transaction: either
    the call is over (quota refused, or the quota check threw and the
    [catch] clause ran) or the hold expiry is computed. *)
Definition holdSeatsCheck (params : HoldSeatsParams) (now : Z) (st : Store)
  : HoldResult + Z :=
  let holdExpiryMinutes :=
    default DEFAULT_HOLD_EXPIRY_MINUTES (p_holdExpiryMinutes params) in
  match isHoldQuotaAvailable (p_scheduleId params)
          (len (p_seatNumbers params)) (p_category params) st with
  | inl e => inl (holdFailure params now (errorMessage e))
  | inr quotaCheck =>
      if negb (available quotaCheck)
      then inl (holdFailure params now (quotaExceededMessage quotaCheck))
      else inr (addMinutes now holdExpiryMinutes)
  end.

(** Second half of [holdSeats]: the transaction and the result. *)
Definition holdSeatsCommit (params : HoldSeatsParams) (holdExpiry now : Z)
    (st : Store) : HoldResult * Store :=
  match transaction (holdSeatsTx params holdExpiry) st with
  | (inr id, st') =>
      (mkResult true (Some id) (p_seatNumbers params) holdExpiry
                "Seats held successfully", st')
  | (inl e, st') => (holdFailure params now (errorMessage e), st')
  end.

(** [holdSeats] run without interruption. *)
Definition holdSeats (params : HoldSeatsParams) (now : Z) (st : Store)
  : HoldResult * Store :=
  match holdSeatsCheck params now st with
  | inl r => (r, st)
  | inr holdExpiry => holdSeatsCommit params holdExpiry now st
  end.

(** The [data] of the two [tx.seatHold.update] calls. *)
Definition closeHold (newStatus : HoldStatus.t) (now : Z) (h : SeatHold.t)
  : SeatHold.t :=
  SeatHold.mk (SeatHold.scheduleId h) (SeatHold.seatNumbers h)
    (SeatHold.heldBy h) (SeatHold.holdExpiry h) newStatus (Some now).

Definition releaseSub (n : Z) (newSeatStatus : gmap string string)
    (s : BusSchedule.t) : BusSchedule.t :=
  BusSchedule.mk (BusSchedule.route s) (BusSchedule.status s)
    newSeatStatus
    (BusSchedule.availableSeats s + n)
    (BusSchedule.heldSeats s - n)
    (BusSchedule.bookedSeats s).

Definition convertMove (n : Z) (newSeatStatus : gmap string string)
    (s : BusSchedule.t) : BusSchedule.t :=
  BusSchedule.mk (BusSchedule.route s) (BusSchedule.status s)
    newSeatStatus
    (BusSchedule.availableSeats s)
    (BusSchedule.heldSeats s - n)
    (BusSchedule.bookedSeats s + n).

(** [reason === 'CONVERTED' ? HoldStatus.CONVERTED : HoldStatus.RELEASED] *)
Definition statusForReason (reason : ReleaseReason) : HoldStatus.t :=
  match reason with
  | REASON_CONVERTED => HoldStatus.CONVERTED
  | _ => HoldStatus.RELEASED
  end.

(** The callback given to [prisma.$transaction] in [releaseHold]. *)
Definition releaseHoldTx (holdId : string) (reason : ReleaseReason) (now : Z)
  : Tx unit :=
  let* hold := seatHold_findUnique holdId in
  match hold with
  | None => throw "Hold not found or already released"
  | Some hold =>
      if negb (bool_decide (SeatHold.status hold = HoldStatus.ACTIVE))
      then throw "Hold not found or already released"
      else
        let* schedule := busSchedule_findUnique (SeatHold.scheduleId hold) in
        do match schedule with
           | Some schedule =>
               let seatStatus := BusSchedule.seatStatus schedule in
               let newSeatStatus :=
                 releaseSeats (SeatHold.seatNumbers hold) seatStatus in
               busSchedule_update (SeatHold.scheduleId hold)
                 (releaseSub (len (SeatHold.seatNumbers hold)) newSeatStatus)
           | None => ret ()
           end then
        seatHold_update holdId (closeHold (statusForReason reason) now)
  end.

(** [releaseHold]: [true] when the transaction committed, [false] when
    anything was thrown.  In the source the reason may be omitted and is then
    USER_CANCELLED. *)
Definition releaseHold (holdId : string) (reason : ReleaseReason) (now : Z)
    (st : Store) : bool * Store :=
  match transaction (releaseHoldTx holdId reason now) st with
  | (inr _, st') => (true, st')
  | (inl _, st') => (false, st')
  end.

(** The callback given to [prisma.$transaction] in [convertHoldToBooking]. *)
Definition convertHoldToBookingTx (holdId : string) (now : Z) : Tx unit :=
  let* hold := seatHold_findUnique holdId in
  match hold with
  | None => throw "Hold not found or not active"
  | Some hold =>
      if negb (bool_decide (SeatHold.status hold = HoldStatus.ACTIVE))
      then throw "Hold not found or not active"
      else
        do seatHold_update holdId (closeHold HoldStatus.CONVERTED now) then
        let* schedule := busSchedule_findUnique (SeatHold.scheduleId hold) in
        match schedule with
        | Some schedule =>
            let seatStatus := BusSchedule.seatStatus schedule in
            let newSeatStatus :=
              markSeats BOOKED (SeatHold.seatNumbers hold) seatStatus in
            busSchedule_update (SeatHold.scheduleId hold)
              (convertMove (len (SeatHold.seatNumbers hold)) newSeatStatus)
        | None => ret ()
        end
  end.

(** [convertHoldToBooking]; the booking id is only logged. *)
Definition convertHoldToBooking (holdId bookingId : string) (now : Z)
    (st : Store) : bool * Store :=
  match transaction (convertHoldToBookingTx holdId now) st with
  | (inr _, st') => (true, st')
  | (inl _, st') => (false, st')
  end.

(** *** Auto release of expired holds *)

(** The [where] clause of the sweep:
    [status: HoldStatus.ACTIVE, holdExpiry: { lt: new Date() }]. *)
Definition isExpiredActive (now : Z) (h : SeatHold.t) : Prop :=
  SeatHold.status h = HoldStatus.ACTIVE ∧ SeatHold.holdExpiry h < now.

#[global] Instance isExpiredActive_dec now h : Decision (isExpiredActive now h).
Proof. unfold isExpiredActive. apply _. Defined.

(** [prisma.seatHold.findMany({ where: ... })], as the ids of the rows. *)
Definition findExpiredHolds (now : Z) (st : Store) : list string :=
  (map_to_list (filter (λ kv, isExpiredActive now kv.2) (seatHold st))).*1.

(** The [for] loop of the sweep: every id is tried, successes are counted. *)
Fixpoint releaseEach (ids : list string) (now : Z) (releasedCount : Z)
    (st : Store) : Z * Store :=
  match ids with
  | [] => (releasedCount, st)
  | id :: rest =>
      let '(ok, st') := releaseHold id EXPIRED now st in
      releaseEach rest now (if ok then releasedCount + 1 else releasedCount) st'
  end.

Definition releaseExpiredHolds (now : Z) (st : Store) : Z * Store :=
  let expiredHolds := findExpiredHolds now st in
  releaseEach expiredHolds now 0 st.

(** ** Vocabulary of the statements *)

(** What [isHoldQuotaAvailable] reads for a schedule: the partner, the
    total seats and the seats currently counted as held. *)
Definition quotaView (category : Category) (scheduleId : string) (st : Store)
  : option (Partner.t * Z * Z) :=
  match category with
  | BUS =>
      (λ s, (BusRoute.partner (BusSchedule.route s),
             BusRoute.totalSeats (BusSchedule.route s),
             BusSchedule.heldSeats s)) <$> busSchedule st !! scheduleId
  | FLIGHT =>
      (λ s, (Flight.partner (FlightSchedule.flight s),
             FlightSchedule.economySeats s,
             FlightSchedule.economyBooked s)) <$> flightSchedule st !! scheduleId
  end.

(** The schedule row written by a successful [holdSeats]. *)
Definition heldSchedule (params : HoldSeatsParams) (s : BusSchedule.t)
  : BusSchedule.t :=
  holdAdd (len (p_seatNumbers params))
          (markSeats HELD (p_seatNumbers params) (BusSchedule.seatStatus s)) s.

(** The hold row created by a successful [holdSeats]. *)
Definition newHold (params : HoldSeatsParams) (holdExpiry : Z) : SeatHold.t :=
  SeatHold.mk (p_scheduleId params) (p_seatNumbers params) (p_heldBy params)
              holdExpiry HoldStatus.ACTIVE None.

(** The schedule row written when hold [h] is released, resp. converted. *)
Definition releasedSchedule (h : SeatHold.t) (s : BusSchedule.t) : BusSchedule.t :=
  releaseSub (len (SeatHold.seatNumbers h))
             (releaseSeats (SeatHold.seatNumbers h) (BusSchedule.seatStatus s)) s.

Definition convertedSchedule (h : SeatHold.t) (s : BusSchedule.t) : BusSchedule.t :=
  convertMove (len (SeatHold.seatNumbers h))
              (markSeats BOOKED (SeatHold.seatNumbers h) (BusSchedule.seatStatus s)) s.

(** The database after hold [h], stored under [holdId], is released. *)
Definition releasedStore (holdId : string) (reason : ReleaseReason) (now : Z)
    (h : SeatHold.t) (st : Store) : Store :=
  mkStore
    (match busSchedule st !! SeatHold.scheduleId h with
     | Some s => <[SeatHold.scheduleId h := releasedSchedule h s]> (busSchedule st)
     | None => busSchedule st
     end)
    (flightSchedule st)
    (<[holdId := closeHold (statusForReason reason) now h]> (seatHold st)).

(** The database after hold [h], stored under [holdId], is converted. *)
Definition convertedStore (holdId : string) (now : Z)
    (h : SeatHold.t) (st : Store) : Store :=
  mkStore
    (match busSchedule st !! SeatHold.scheduleId h with
     | Some s => <[SeatHold.scheduleId h := convertedSchedule h s]> (busSchedule st)
     | None => busSchedule st
     end)
    (flightSchedule st)
    (<[holdId := closeHold HoldStatus.CONVERTED now h]> (seatHold st)).

(** The database after a successful [holdSeats] on schedule row [s]. *)
Definition heldStore (params : HoldSeatsParams) (holdExpiry : Z)
    (s : BusSchedule.t) (st : Store) : Store :=
  mkStore (<[p_scheduleId params := heldSchedule params s]> (busSchedule st))
          (flightSchedule st)
          (<[fresh (dom (seatHold st)) := newHold params holdExpiry]> (seatHold st)).

(** The counters of a schedule add up to the seats of its route. *)
Definition balanced (s : BusSchedule.t) : Prop :=
  BusSchedule.availableSeats s + BusSchedule.heldSeats s + BusSchedule.bookedSeats s
  = BusRoute.totalSeats (BusSchedule.route s).

Definition countsInvariant (st : Store) : Prop :=
  ∀ id s, busSchedule st !! id = Some s → balanced s.

(** One call of an operation of the hold manager, whatever its outcome; the
    transaction of [holdSeats] is also a step of its own, for a call whose
    quota check ran earlier. *)
Inductive holdManagerStep : Store → Store → Prop :=
| step_holdSeats params now st r st' :
    holdSeats params now st = (r, st') → holdManagerStep st st'
| step_holdSeatsCommit params holdExpiry now st r st' :
    holdSeatsCommit params holdExpiry now st = (r, st') → holdManagerStep st st'
| step_releaseHold holdId reason now st ok st' :
    releaseHold holdId reason now st = (ok, st') → holdManagerStep st st'
| step_convertHoldToBooking holdId bookingId now st ok st' :
    convertHoldToBooking holdId bookingId now st = (ok, st') →
    holdManagerStep st st'
| step_releaseExpiredHolds now st n st' :
    releaseExpiredHolds now st = (n, st') → holdManagerStep st st'.

Definition reachableFrom (st0 st : Store) : Prop := rtc holdManagerStep st0 st.

(** *** Interleaved calls of [holdSeats]

    [holdSeats] awaits twice: the quota check, then the transaction.  Other
    calls may run between the two, so a call in flight is a task that
    advances by one await at a time. *)
Inductive Task :=
| Pending (params : HoldSeatsParams) (now : Z)
| Checked (params : HoldSeatsParams) (holdExpiry now : Z)
| Done (r : HoldResult).

Definition stepTask (t : Task) (st : Store) : Task * Store :=
  match t with
  | Pending params now =>
      match holdSeatsCheck params now st with
      | inl r => (Done r, st)
      | inr holdExpiry => (Checked params holdExpiry now, st)
      end
  | Checked params holdExpiry now =>
      let '(r, st') := holdSeatsCommit params holdExpiry now st in (Done r, st')
  | Done r => (Done r, st)
  end.

(** Run the tasks in the order given by [order], a list of task indices. *)
Fixpoint runTasks (order : list nat) (tasks : list Task) (st : Store)
  : list Task * Store :=
  match order with
  | [] => (tasks, st)
  | i :: rest =>
      match tasks !! i with
      | None => runTasks rest tasks st
      | Some t =>
          let '(t', st') := stepTask t st in
          runTasks rest (<[i := t']> tasks) st'
      end
  end.

Definition succeeded (t : Task) : bool :=
  match t with Done r => success r | _ => false end.

Definition successes (tasks : list Task) : nat :=
  length (filter (λ t, succeeded t = true) tasks).

(** Calls of [holdSeats] made one after the other, each with its clock
    reading. *)
Fixpoint holdSeatsInTurn (calls : list (HoldSeatsParams * Z)) (st : Store)
  : list HoldResult * Store :=
  match calls with
  | [] => ([], st)
  | (params, now) :: rest =>
      let '(r, st1) := holdSeats params now st in
      let '(rs, st2) := holdSeatsInTurn rest st1 in
      (r :: rs, st2)
  end.

(** A request for the single seat [seat] of bus schedule [sid]. *)
Definition asksOneSeat (sid : string) (params : HoldSeatsParams) (seat : string)
  : Prop :=
  p_category params = BUS ∧ p_scheduleId params = sid ∧ p_seatNumbers params = [seat].

(** Holds in [ids], in that order, that belong to schedule [sid]: their
    seat numbers, concatenated. *)
Fixpoint coveredSeats (holds : gmap string SeatHold.t) (ids : list string)
    (sid : string) : list string :=
  match ids with
  | [] => []
  | id :: rest =>
      match holds !! id with
      | Some h =>
          if bool_decide (SeatHold.scheduleId h = sid)
          then SeatHold.seatNumbers h ++ coveredSeats holds rest sid
          else coveredSeats holds rest sid
      | None => coveredSeats holds rest sid
      end
  end.

(** The schedule row after the holds covering [covered] were released. *)
Definition sweptSchedule (covered : list string) (s : BusSchedule.t)
  : BusSchedule.t :=
  releaseSub (len covered) (releaseSeats covered (BusSchedule.seatStatus s)) s.

(** ** Sample databases

    One bus schedule "s1" of four seats whose partner allows a quarter of
    them to be held, in a few situations. *)

Definition partnerOn : Partner.t := Partner.mk true (PctDecimal 25) (Some 45).
Definition partnerOff : Partner.t := Partner.mk false (PctDecimal 25) (Some 45).

Definition fourSeats (first : string) : gmap string string :=
  list_to_map [("1", first); ("2", AVAILABLE); ("3", AVAILABLE); ("4", AVAILABLE)].

Definition scheduleOf (totalSeats : Z) (partner : Partner.t) (first : string)
    (availableSeats heldSeats bookedSeats : Z) : BusSchedule.t :=
  BusSchedule.mk (BusRoute.mk totalSeats partner) ScheduleStatus.ACTIVE
                 (fourSeats first) availableSeats heldSeats bookedSeats.

(** Nothing held yet. *)
Definition emptyDb : Store :=
  mkStore {[ "s1" := scheduleOf 4 partnerOn AVAILABLE 4 0 0 ]} ∅ ∅.

(** The same schedule for a partner that switched holds off. *)
Definition disabledDb : Store :=
  mkStore {[ "s1" := scheduleOf 4 partnerOff AVAILABLE 4 0 0 ]} ∅ ∅.

(** A route of three seats: a quarter of them is less than one seat. *)
Definition threeSeatDb : Store :=
  mkStore {[ "s1" := scheduleOf 3 partnerOn AVAILABLE 3 0 0 ]} ∅ ∅.

Definition holdOnSeat1 (status : HoldStatus.t) : SeatHold.t :=
  SeatHold.mk "s1" ["1"] "u1" 601000 status None.

(** Seat 1 is held by the ACTIVE hold "h1", which expires at 601000. *)
Definition heldDb : Store :=
  mkStore {[ "s1" := scheduleOf 4 partnerOn HELD 3 1 0 ]} ∅
          {[ "h1" := holdOnSeat1 HoldStatus.ACTIVE ]}.

(** The hold "h1" is ACTIVE but its seat is marked BOOKED. *)
Definition driftedDb : Store :=
  mkStore {[ "s1" := scheduleOf 4 partnerOn BOOKED 3 0 1 ]} ∅
          {[ "h1" := holdOnSeat1 HoldStatus.ACTIVE ]}.

Definition wantSeat1 : HoldSeatsParams := mkParams "s1" ["1"] "u1" BUS (Some 10).
Definition wantSeat2 : HoldSeatsParams := mkParams "s1" ["2"] "u2" BUS (Some 10).

(** ** More of the service: the quota status *)

(** The object returned by [getHoldQuotaStatus]. *)
Record HoldQuotaStatus := mkStatus {
  qs_scheduleId : string;
  qs_category : Category;
  qs_totalSeats : Z;
  qs_holdQuotaEnabled : bool;
  qs_holdQuotaPercentage : Q;
  qs_maxHoldsAllowed : Z;
  qs_currentHolds : Z;
  qs_availableHolds : Z;
  qs_activeHoldRecords : nat;
  qs_holdExpiryMinutes : Z
}.

(** [partner.holdExpiryMinutes || DEFAULT_HOLD_EXPIRY_MINUTES]: the column is
    an integer, so both a missing value and 0 are falsy. *)
Definition expiryMinutesOf (partner : Partner.t) : Z :=
  match Partner.holdExpiryMinutes partner with
  | Some m => if bool_decide (m = 0) then DEFAULT_HOLD_EXPIRY_MINUTES else m
  | None => DEFAULT_HOLD_EXPIRY_MINUTES
  end.

(** The relation [schedule.holds] loaded with [where: { status: ACTIVE }]. *)
Definition activeHoldsOf (scheduleId : string) (st : Store)
  : list (string * SeatHold.t) :=
  map_to_list (filter (λ kv, SeatHold.scheduleId kv.2 = scheduleId ∧
                             SeatHold.status kv.2 = HoldStatus.ACTIVE)
                      (seatHold st)).

(** [getHoldQuotaStatus]: read-only; it throws for a missing schedule and for
    flights. *)
Definition getHoldQuotaStatus (scheduleId : string) (category : Category)
    (st : Store) : string + HoldQuotaStatus :=
  match category with
  | BUS =>
      match busSchedule st !! scheduleId with
      | None => inl "Schedule not found"
      | Some schedule =>
          let partner := BusRoute.partner (BusSchedule.route schedule) in
          let totalSeats := BusRoute.totalSeats (BusSchedule.route schedule) in
          let holdQuotaPercentage := quotaPercentageOf partner in
          let maxHolds := calculateMaxHolds totalSeats (Some holdQuotaPercentage) in
          inr (mkStatus scheduleId category totalSeats
                 (Partner.holdQuotaEnabled partner)
                 holdQuotaPercentage
                 maxHolds
                 (BusSchedule.heldSeats schedule)
                 (Z.max 0 (maxHolds - BusSchedule.heldSeats schedule))
                 (length (activeHoldsOf scheduleId st))
                 (expiryMinutesOf partner))
      end
  | FLIGHT => inl "Flight hold quota status not implemented yet"
  end.

(** ** Invariants of the hold tables *)

(** Every seat of an ACTIVE hold is HELD in the seat map of its schedule. *)
Definition seatsHeldByActive (st : Store) : Prop :=
  ∀ id h s,
    seatHold st !! id = Some h → SeatHold.status h = HoldStatus.ACTIVE →
    busSchedule st !! SeatHold.scheduleId h = Some s →
    ∀ seat, seat ∈ SeatHold.seatNumbers h →
            BusSchedule.seatStatus s !! seat = Some HELD.

(** No seat is covered by two ACTIVE holds of one schedule. *)
Definition activeHoldsDisjoint (st : Store) : Prop :=
  ∀ id1 id2 h1 h2,
    id1 ≠ id2 →
    seatHold st !! id1 = Some h1 → seatHold st !! id2 = Some h2 →
    SeatHold.status h1 = HoldStatus.ACTIVE →
    SeatHold.status h2 = HoldStatus.ACTIVE →
    SeatHold.scheduleId h1 = SeatHold.scheduleId h2 →
    ∀ seat, seat ∈ SeatHold.seatNumbers h1 → seat ∉ SeatHold.seatNumbers h2.

Definition holdsExclusive (st : Store) : Prop :=
  seatsHeldByActive st ∧ activeHoldsDisjoint st.

(** What a hold contributes to the [heldSeats] of schedule [sid]. *)
Definition holdWeight (sid : string) (h : SeatHold.t) : Z :=
  if bool_decide (SeatHold.status h = HoldStatus.ACTIVE ∧ SeatHold.scheduleId h = sid)
  then len (SeatHold.seatNumbers h)
  else 0.

(** The seats of the ACTIVE holds of schedule [sid], counted per hold. *)
Definition activeSeats (holds : gmap string SeatHold.t) (sid : string) : Z :=
  foldr (λ kv acc, holdWeight sid kv.2 + acc) 0 (map_to_list holds).

(** [heldSeats] of every schedule is the number of seats of its ACTIVE
    holds. *)
Definition heldAccounted (st : Store) : Prop :=
  ∀ sid s, busSchedule st !! sid = Some s →
           BusSchedule.heldSeats s = activeSeats (seatHold st) sid.

(** The number of seats marked HELD in a seat map. *)
Definition heldOnMap (m : gmap string string) : nat :=
  size (filter (λ kv, kv.2 = HELD) m).

(** ** The booking service: operations

    A call of the booking service is embedded as run without interruption,
    with one reading of the clock per call: the rows it stamps, and the hold
    operation it calls, see the same time.  Code inside [prisma.$transaction]
    that writes through [tx] is rolled back when the callback throws; what
    is written through the global client, by [holdSeats] and by
    [confirmBooking], stays. *)

(** *** Strings and numbers of JS *)

(** A string is truthy when it is present and not empty. *)
Definition truthyString (o : option string) : option string :=
  match o with
  | Some s => if String.eqb s "" then None else Some s
  | None => None
  end.

Definition lowerAscii (c : Ascii.ascii) : Ascii.ascii :=
  let n := Ascii.nat_of_ascii c in
  if (65 <=? n)%nat && (n <=? 90)%nat then Ascii.ascii_of_nat (n + 32) else c.

Definition upperAscii (c : Ascii.ascii) : Ascii.ascii :=
  let n := Ascii.nat_of_ascii c in
  if (97 <=? n)%nat && (n <=? 122)%nat then Ascii.ascii_of_nat (n - 32) else c.

Fixpoint mapString (f : Ascii.ascii → Ascii.ascii) (s : string) : string :=
  match s with
  | EmptyString => EmptyString
  | String c rest => String (f c) (mapString f rest)
  end.

Definition toLowerCase : string → string := mapString lowerAscii.
Definition toUpperCase : string → string := mapString upperAscii.

(** [Math.round]: the nearest integer, halves going up. *)
Definition Math_round (x : Q) : Z := Qfloor (x + (1 # 2))%Q.

(** [Number(x)] of a nullable amount. *)
Definition numberOf (x : option Q) : Q := default 0%Q x.

(** *** Booking number and pricing *)

Definition categoryName (c : BookingCategory.t) : string :=
  match c with
  | BookingCategory.BUS => "BUS"
  | BookingCategory.AIRLINE => "AIRLINE"
  | BookingCategory.HOTEL => "HOTEL"
  end.

(** [generateBookingNumber]: [LT-{CATEGORY}-{YYYYMMDD}-{RANDOM}]. *)
Definition generateBookingNumber (category : BookingCategory.t) (env : Environment)
  : string :=
  let prefix := "LT" in
  let catCode := toUpperCase (String.substring 0 3 (categoryName category)) in
  prefix +:+ "-" +:+ catCode +:+ "-" +:+ env_dateDigits env +:+ "-" +:+ env_random env.

Definition calculatePricing (baseFare passengerCount : Q)
    (addOns : list PricedItem) (discountCode : option string) : PricingBreakdown :=
  let baseAmount := (baseFare * passengerCount)%Q in
  let addOnAmount :=
    foldl (λ sum addon, (sum + price addon * quantity addon)%Q) 0%Q addOns in
  let convenienceFee := (baseAmount * CONVENIENCE_FEE_PERCENTAGE / 100)%Q in
  let gstOnConvenience := (convenienceFee * GST_PERCENTAGE / 100)%Q in
  let taxAmount := gstOnConvenience in
  let discountAmount :=
    match truthyString discountCode with
    | Some _ => 0%Q   (* the coupon logic is a TODO in the source *)
    | None => 0%Q
    end in
  let totalAmount :=
    (baseAmount + taxAmount + convenienceFee + addOnAmount - discountAmount)%Q in
  mkPricing baseAmount taxAmount convenienceFee gstOnConvenience discountAmount
            addOnAmount
            (inject_Z (Math_round (totalAmount * 100)) / 100)%Q.

(** [addOns?.map((a) => ({ price: a.price, quantity: a.quantity })) || []] *)
Definition addOnItemsOf (addOns : option (list AddOnItem)) : list PricedItem :=
  match addOns with
  | Some l => (λ a, mkPriced (ao_price a) (ao_quantity a)) <$> l
  | None => []
  end.

(** *** Database access of the booking service *)

Definition Bx (A : Type) : Type := Database → (string + A) * Database.

Definition retB {A} (a : A) : Bx A := λ db, (inr a, db).

Definition throwB {A} (msg : string) : Bx A := λ db, (inl msg, db).

Definition bindB {A B} (m : Bx A) (k : A → Bx B) : Bx B :=
  λ db, match m db with
        | (inl e, db') => (inl e, db')
        | (inr a, db') => k a db'
        end.

Notation "'let+' x ':=' m 'in' k" := (bindB m (λ x, k))
  (at level 10, x name, m at level 100, k at level 200).

(** A transaction whose writes all go through [tx]. *)
Definition transactionB {A} (body : Bx A) (db : Database)
  : (string + A) * Database :=
  match body db with
  | (inl e, _) => (inl e, db)
  | (inr a, db') => (inr a, db')
  end.

Definition setInventory (st : Store) (db : Database) : Database :=
  mkDb st (busBaseFare db) (flightExtra db) (roomInventory db)
       (booking db) (bookingPassenger db) (cancellationRequest db).

(** An operation on the tables of the hold service. *)
Definition onInventory {A} (m : Tx A) : Bx A :=
  λ db, let '(r, st') := m (inventory db) in (r, setInventory st' db).

(** [booking.create]: the database picks the id and stamps [createdAt]. *)
Definition booking_create (row : Booking.t) : Bx (string * Booking.t) :=
  λ db, let id := fresh (dom (booking db)) in
        (inr (id, row),
         mkDb (inventory db) (busBaseFare db) (flightExtra db) (roomInventory db)
              (<[id := row]> (booking db)) (bookingPassenger db)
              (cancellationRequest db)).

Definition booking_findUnique (id : string) : Bx (option Booking.t) :=
  λ db, (inr (booking db !! id), db).

Definition booking_update (id : string) (f : Booking.t → Booking.t)
  : Bx Booking.t :=
  λ db, match booking db !! id with
        | None => (inl "Record to update not found.", db)
        | Some b =>
            (inr (f b),
             mkDb (inventory db) (busBaseFare db) (flightExtra db)
                  (roomInventory db) (<[id := f b]> (booking db))
                  (bookingPassenger db) (cancellationRequest db))
        end.

Definition bookingPassenger_createMany (rows : list BookingPassenger.t) : Bx unit :=
  λ db, (inr (),
         mkDb (inventory db) (busBaseFare db) (flightExtra db) (roomInventory db)
              (booking db) (bookingPassenger db ++ rows) (cancellationRequest db)).

(** The relation [booking.passengers]. *)
Definition passengersOf (bookingId : string) (db : Database)
  : list BookingPassenger.t :=
  filter (λ p, BookingPassenger.bookingId p = bookingId) (bookingPassenger db).

Definition cancellationRequest_create (row : CancellationRequest.t) : Bx unit :=
  λ db, (inr (),
         mkDb (inventory db) (busBaseFare db) (flightExtra db) (roomInventory db)
              (booking db) (bookingPassenger db) (cancellationRequest db ++ [row])).

Definition roomInventory_findUnique (id : string) : Bx (option RoomInventory.t) :=
  λ db, (inr (roomInventory db !! id), db).

Definition roomInventory_update (id : string) (f : RoomInventory.t → RoomInventory.t)
  : Bx unit :=
  λ db, match roomInventory db !! id with
        | None => (inl "Record to update not found.", db)
        | Some r =>
            (inr (),
             mkDb (inventory db) (busBaseFare db) (flightExtra db)
                  (<[id := f r]> (roomInventory db)) (booking db)
                  (bookingPassenger db) (cancellationRequest db))
        end.

(** The counters of a [flightSchedule] row, by the name of their column. *)
Inductive BookedColumn :=
| economyBooked | premiumBooked | businessBooked | firstBooked.

Definition bookedColumnNamed (field : string) : option BookedColumn :=
  if String.eqb field "economyBooked" then Some economyBooked
  else if String.eqb field "premiumBooked" then Some premiumBooked
  else if String.eqb field "businessBooked" then Some businessBooked
  else if String.eqb field "firstBooked" then Some firstBooked
  else None.

(** [`${cabinClass?.toLowerCase() || 'economy'}Booked`] *)
Definition cabinClassField (cabinClass : option CabinClass.t) : string :=
  match truthyString (toLowerCase <$> (CabinClass.name <$> cabinClass)) with
  | Some lower => lower +:+ "Booked"
  | None => "economy" +:+ "Booked"
  end.

Definition addBookedExtra (column : BookedColumn) (n : Z) (x : FlightExtra.t)
  : FlightExtra.t :=
  FlightExtra.mk (FlightExtra.status x)
    (FlightExtra.economyFare x) (FlightExtra.premiumFare x)
    (FlightExtra.businessFare x) (FlightExtra.firstFare x)
    (FlightExtra.premiumSeats x)
    (match column with premiumBooked => FlightExtra.premiumBooked x + n
                     | _ => FlightExtra.premiumBooked x end)
    (FlightExtra.businessSeats x)
    (match column with businessBooked => FlightExtra.businessBooked x + n
                     | _ => FlightExtra.businessBooked x end)
    (FlightExtra.firstSeats x)
    (match column with firstBooked => FlightExtra.firstBooked x + n
                     | _ => FlightExtra.firstBooked x end)
    (FlightExtra.fareRules x).

Definition addBookedEconomy (column : BookedColumn) (n : Z) (s : FlightSchedule.t)
  : FlightSchedule.t :=
  FlightSchedule.mk (FlightSchedule.flight s) (FlightSchedule.economySeats s)
    (match column with economyBooked => FlightSchedule.economyBooked s + n
                     | _ => FlightSchedule.economyBooked s end).

(** [flightSchedule.update({ data: { [field]: { increment: n } } })]: the
    client rejects a [field] that is not a column of the table, and throws
    when the row is missing. *)
Definition flightSchedule_increment (id field : string) (n : Z) : Bx unit :=
  λ db,
    match bookedColumnNamed field with
    | None => (inl ("Unknown argument `" +:+ field +:+ "`."), db)
    | Some column =>
        match flightSchedule (inventory db) !! id with
        | None => (inl "Record to update not found.", db)
        | Some s =>
            (inr (),
             mkDb (mkStore (busSchedule (inventory db))
                           (<[id := addBookedEconomy column n s]>
                              (flightSchedule (inventory db)))
                           (seatHold (inventory db)))
                  (busBaseFare db)
                  (λ k, if bool_decide (k = id)
                        then addBookedExtra column n (flightExtra db k)
                        else flightExtra db k)
                  (roomInventory db) (booking db) (bookingPassenger db)
                  (cancellationRequest db))
        end
    end.

(** The response built from a booking row. *)
Definition responseOf (id : string) (b : Booking.t) : BookingResponse :=
  mkResponse id (Booking.bookingNumber b)
    (Booking.category (Booking.target b))
    (Booking.status b) (Booking.paymentStatus b)
    (Booking.baseAmount (Booking.amounts b))
    (Booking.taxAmount (Booking.amounts b))
    (Booking.convenienceFee (Booking.amounts b))
    (Booking.discountAmount (Booking.amounts b))
    (Booking.totalAmount (Booking.amounts b))
    (numberOf (Booking.paidAmount (Booking.payment b)))
    (Booking.createdAt b).

(** The row written by the three [booking.create] calls. *)
Definition newBooking (userId : string) (env : Environment)
    (target : Booking.Target) (first : PassengerInfo)
    (pricing : PricingBreakdown) (addOns : option (list AddOnItem)) : Booking.t :=
  Booking.mk
    (generateBookingNumber (Booking.category target) env)
    userId BookingStatus.PENDING PaymentStatus.PENDING (env_now env)
    target
    (Booking.mkContact (firstName first +:+ " " +:+ lastName first)
                       (phone first) (email first))
    (Booking.mkAmounts (baseAmount pricing) (taxAmount pricing)
                       (convenienceFee pricing) (discountAmount pricing)
                       (addOnAmount pricing) (totalAmount pricing) addOns)
    (Booking.mkPayment None None None None None None)
    (Booking.mkCancellation None None None None).

Definition typeErrorNoPassenger : string :=
  "Cannot read properties of undefined (reading 'firstName')".

(** *** Creating bookings *)

(** [passengers.map((p) => p.seatNumber).filter(Boolean)] *)
Definition requestedSeatsOf (passengers : list PassengerInfo) : list string :=
  omap (λ p, truthyString (seatNumber p)) passengers.

(** The columns of the passenger rows written for a bus booking. *)
Definition busPassengerRow (bookingId : string) (p : PassengerInfo)
  : BookingPassenger.t :=
  BookingPassenger.mk bookingId
    (mkPassenger (firstName p) (lastName p) (dateOfBirth p) (gender p)
                 (phone p) (email p) (seatNumber p) (seatPreference p)
                 None None (idType p) (idNumber p) None).

Definition flightPassengerRow (bookingId : string) (p : PassengerInfo)
  : BookingPassenger.t :=
  BookingPassenger.mk bookingId
    (mkPassenger (firstName p) (lastName p) (dateOfBirth p) (gender p)
                 (phone p) (email p) (seatNumber p) (seatPreference p)
                 (mealPreference p) (specialAssistance p)
                 (idType p) (idNumber p) None).

(** [guestType: index === 0 ? 'ADULT' : 'CHILD'] *)
Definition hotelGuestRow (bookingId : string) (index : nat) (p : PassengerInfo)
  : BookingPassenger.t :=
  BookingPassenger.mk bookingId
    (mkPassenger (firstName p) (lastName p) None None
                 (phone p) (email p) None None None None None None
                 (Some (match index with O => ADULT | S _ => CHILD end))).

(** [holdSeats] called from inside the callback: it goes through the global
    client, in a transaction of its own. *)
Definition holdSeatsGlobally (params : HoldSeatsParams) (now : Z) : Bx HoldResult :=
  λ db, let '(r, st') := holdSeats params now (inventory db) in
        (inr r, setInventory st' db).

Definition readBusBaseFare (id : string) : Bx Q :=
  λ db, (inr (busBaseFare db id), db).

(** The callback given to [prisma.$transaction] in [createBusBooking]. *)
Definition createBusBookingTx (userId busScheduleId : string)
    (data : CreateBookingRequest) (env : Environment) : Bx BookingResponse :=
  let passengers := rq_passengers data in
  let+ schedule := onInventory (busSchedule_findUnique busScheduleId) in
  match schedule with
  | None => throwB "Bus schedule not available"
  | Some schedule =>
      if negb (String.eqb (BusSchedule.status schedule) "ACTIVE")
      then throwB "Bus schedule not available"
      else if BusSchedule.availableSeats schedule <? Z.of_nat (length passengers)
      then throwB "Not enough seats available"
      else
        let seatStatus := BusSchedule.seatStatus schedule in
        let requestedSeats := requestedSeatsOf passengers in
        match firstUnavailable seatStatus requestedSeats with
        | Some seat => throwB (seatUnavailableMessage seat)
        | None =>
            let addOnItems := addOnItemsOf (rq_addOns data) in
            let+ baseFare := readBusBaseFare busScheduleId in
            let pricing :=
              calculatePricing baseFare (inject_Z (Z.of_nat (length passengers)))
                               addOnItems (rq_couponCode data) in
            match passengers with
            | [] => throwB typeErrorNoPassenger
            | first :: _ =>
                let+ created :=
                  booking_create
                    (newBooking userId env
                       (Booking.mkTarget BookingCategory.BUS (Some busScheduleId)
                                         None None None None None None)
                       first pricing (rq_addOns data)) in
                let+ _ := bookingPassenger_createMany
                            (busPassengerRow created.1 <$> passengers) in
                let+ _ :=
                  match requestedSeats with
                  | [] => retB ()
                  | _ :: _ =>
                      let+ holdResult :=
                        holdSeatsGlobally
                          (mkParams busScheduleId requestedSeats userId BUS (Some 10))
                          (env_now env) in
                      if negb (success holdResult)
                      then throwB (message holdResult)
                      else retB ()
                  end in
                retB (responseOf created.1 created.2)
            end
        end
  end.

(** [createBusBooking].  When the callback throws, what it wrote through
    [tx] (the booking and its passengers) is rolled back; it writes no
    inventory through [tx], and what [holdSeats] committed on its own stays. *)
Definition createBusBooking (userId : string) (data : CreateBookingRequest)
    (env : Environment) (db : Database) : (string + BookingResponse) * Database :=
  match truthyString (rq_busScheduleId data) with
  | None => (inl "Bus schedule ID is required", db)
  | Some busScheduleId =>
      match createBusBookingTx userId busScheduleId data env db with
      | (inl e, db') => (inl e, setInventory (inventory db') db)
      | (inr r, db') => (inr r, db')
      end
  end.

Definition readFlightSchedule (id : string)
  : Bx (option (FlightSchedule.t * FlightExtra.t)) :=
  λ db, (inr ((λ s, (s, flightExtra db id)) <$> flightSchedule (inventory db) !! id),
         db).

(** The [switch (cabinClass)] of [createFlightBooking]: fare and free seats. *)
Definition fareAndSeats (cabinClass : option CabinClass.t)
    (s : FlightSchedule.t) (x : FlightExtra.t) : Q * Z :=
  match cabinClass with
  | Some CabinClass.PREMIUM_ECONOMY =>
      (FlightExtra.premiumFare x, FlightExtra.premiumSeats x - FlightExtra.premiumBooked x)
  | Some CabinClass.BUSINESS =>
      (FlightExtra.businessFare x,
       FlightExtra.businessSeats x - FlightExtra.businessBooked x)
  | Some CabinClass.FIRST =>
      (FlightExtra.firstFare x, FlightExtra.firstSeats x - FlightExtra.firstBooked x)
  | _ =>
      (FlightExtra.economyFare x,
       FlightSchedule.economySeats s - FlightSchedule.economyBooked s)
  end.

Definition createFlightBookingTx (userId flightScheduleId : string)
    (data : CreateBookingRequest) (env : Environment) : Bx BookingResponse :=
  let passengers := rq_passengers data in
  let cabinClass := rq_cabinClass data in
  let+ schedule := readFlightSchedule flightScheduleId in
  match schedule with
  | None => throwB "Flight schedule not available"
  | Some (schedule, extra) =>
      if negb (String.eqb (FlightExtra.status extra) "ACTIVE")
      then throwB "Flight schedule not available"
      else
        let '(baseFare, availableSeats) := fareAndSeats cabinClass schedule extra in
        if Qeq_bool baseFare 0 || (availableSeats <? Z.of_nat (length passengers))
        then throwB "Not enough seats available in selected cabin class"
        else
          let addOnItems := addOnItemsOf (rq_addOns data) in
          let pricing :=
            calculatePricing baseFare (inject_Z (Z.of_nat (length passengers)))
                             addOnItems (rq_couponCode data) in
          match passengers with
          | [] => throwB typeErrorNoPassenger
          | first :: _ =>
              let+ created :=
                booking_create
                  (newBooking userId env
                     (Booking.mkTarget BookingCategory.AIRLINE None
                        (Some flightScheduleId)
                        (Some (default CabinClass.ECONOMY cabinClass))
                        None None None None)
                     first pricing (rq_addOns data)) in
              let+ _ := bookingPassenger_createMany
                          (flightPassengerRow created.1 <$> passengers) in
              let+ _ := flightSchedule_increment flightScheduleId
                          (cabinClassField cabinClass)
                          (Z.of_nat (length passengers)) in
              retB (responseOf created.1 created.2)
          end
  end.

Definition createFlightBooking (userId : string) (data : CreateBookingRequest)
    (env : Environment) (db : Database) : (string + BookingResponse) * Database :=
  match truthyString (rq_flightScheduleId data) with
  | None => (inl "Flight schedule ID is required", db)
  | Some flightScheduleId =>
      transactionB (createFlightBookingTx userId flightScheduleId data env) db
  end.

Definition holdRoom (r : RoomInventory.t) : RoomInventory.t :=
  RoomInventory.mk (RoomInventory.isAvailable r)
    (RoomInventory.availableRooms r - 1) (RoomInventory.heldRooms r + 1)
    (RoomInventory.bookedRooms r) (RoomInventory.price r).

Definition createHotelBookingTx (userId roomInventoryId : string)
    (checkInDate checkOutDate : Z) (nights : Q)
    (data : CreateBookingRequest) (env : Environment) : Bx BookingResponse :=
  let passengers := rq_passengers data in
  let+ inventory := roomInventory_findUnique roomInventoryId in
  match inventory with
  | None => throwB "Room not available for selected dates"
  | Some inventory =>
      if negb (RoomInventory.isAvailable inventory)
         || (RoomInventory.availableRooms inventory <? 1)
      then throwB "Room not available for selected dates"
      else
        let addOnItems := addOnItemsOf (rq_addOns data) in
        let pricing :=
          calculatePricing (RoomInventory.price inventory) nights
                           addOnItems (rq_couponCode data) in
        match passengers with
        | [] => throwB typeErrorNoPassenger
        | first :: _ =>
            let+ created :=
              booking_create
                (newBooking userId env
                   (Booking.mkTarget BookingCategory.HOTEL None None None
                      (Some roomInventoryId) (Some checkInDate)
                      (Some checkOutDate) (Some nights))
                   first pricing (rq_addOns data)) in
            let+ _ := bookingPassenger_createMany
                        (imap (hotelGuestRow created.1) passengers) in
            let+ _ := roomInventory_update roomInventoryId holdRoom in
            retB (responseOf created.1 created.2)
        end
  end.

(** [!nights]: a number is falsy when missing or zero. *)
Definition truthyNumber (o : option Q) : option Q :=
  match o with
  | Some q => if Qeq_bool q 0 then None else Some q
  | None => None
  end.

Definition createHotelBooking (userId : string) (data : CreateBookingRequest)
    (env : Environment) (db : Database) : (string + BookingResponse) * Database :=
  match truthyString (rq_roomInventoryId data), rq_checkInDate data,
        rq_checkOutDate data, truthyNumber (rq_nights data) with
  | Some roomInventoryId, Some checkInDate, Some checkOutDate, Some nights =>
      transactionB
        (createHotelBookingTx userId roomInventoryId checkInDate checkOutDate
                              nights data env) db
  | _, _, _, _ =>
      (inl "Room inventory ID, check-in, check-out dates, and nights are required",
       db)
  end.

(** *** Confirming a booking *)

(** [findFirst] without [orderBy]: which of the matching rows comes first
    is the choice of the database.  It is a parameter here; all that is known
    is that it returns one of the matching rows when there is one. *)
Definition FindFirst := list (string * SeatHold.t) → option (string * SeatHold.t).

Definition findFirstSpec (firstRow : FindFirst) : Prop :=
  ∀ rows, match firstRow rows with
          | Some row => row ∈ rows
          | None => rows = []
          end.

Record PaymentDetails := mkPaymentDetails {
  pd_razorpayOrderId : option string;
  pd_razorpayPaymentId : option string;
  pd_razorpaySignature : option string;
  pd_paymentMethod : string;
  pd_paidAmount : Q
}.

(** A field left [undefined] in [data] is not written. *)
Definition orKeep {A} (new old : option A) : option A :=
  match new with
  | Some v => Some v
  | None => old
  end.

(** The [data] of the [booking.update] of [confirmBooking]. *)
Definition confirmRow (details : PaymentDetails) (now : Z) (b : Booking.t)
  : Booking.t :=
  Booking.mk (Booking.bookingNumber b) (Booking.userId b)
    BookingStatus.CONFIRMED PaymentStatus.CAPTURED (Booking.createdAt b)
    (Booking.target b) (Booking.contact b) (Booking.amounts b)
    (Booking.mkPayment
       (Some (pd_paidAmount details))
       (orKeep (pd_razorpayOrderId details)
               (Booking.razorpayOrderId (Booking.payment b)))
       (orKeep (pd_razorpayPaymentId details)
               (Booking.razorpayPaymentId (Booking.payment b)))
       (orKeep (pd_razorpaySignature details)
               (Booking.razorpaySignature (Booking.payment b)))
       (Some (pd_paymentMethod details))
       (Some now))
    (Booking.cancellation b).

(** The rows matched by the [seatHold.findFirst] of [confirmBooking]. *)
Definition activeHoldsOfUser (scheduleId userId : string) (st : Store)
  : list (string * SeatHold.t) :=
  map_to_list (filter (λ kv, SeatHold.scheduleId kv.2 = scheduleId ∧
                             SeatHold.heldBy kv.2 = userId ∧
                             SeatHold.status kv.2 = HoldStatus.ACTIVE)
                      (seatHold st)).

Definition convertHoldGlobally (holdId bookingId : string) (now : Z) : Bx bool :=
  λ db, let '(ok, st') := convertHoldToBooking holdId bookingId now (inventory db) in
        (inr ok, setInventory st' db).

Definition readInventory : Bx Store := λ db, (inr (inventory db), db).

Definition bookRoom (r : RoomInventory.t) : RoomInventory.t :=
  RoomInventory.mk (RoomInventory.isAvailable r)
    (RoomInventory.availableRooms r) (RoomInventory.heldRooms r - 1)
    (RoomInventory.bookedRooms r + 1) (RoomInventory.price r).

(** [confirmBooking]: no transaction; an exception leaves in place what
    the earlier statements wrote. *)
Definition confirmBooking (firstRow : FindFirst) (bookingId : string)
    (details : PaymentDetails) (now : Z) : Bx BookingResponse :=
  let+ booking := booking_update bookingId (confirmRow details now) in
  let target := Booking.target booking in
  let+ _ :=
    match Booking.category target, truthyString (Booking.busScheduleId target) with
    | BookingCategory.BUS, Some busScheduleId =>
        let+ st := readInventory in
        match firstRow (activeHoldsOfUser busScheduleId (Booking.userId booking) st) with
        | Some hold =>
            let+ _ := convertHoldGlobally hold.1 bookingId now in retB ()
        | None => retB ()
        end
    | _, _ => retB ()
    end in
  let+ _ :=
    match Booking.category target, truthyString (Booking.roomInventoryId target) with
    | BookingCategory.HOTEL, Some roomInventoryId =>
        roomInventory_update roomInventoryId bookRoom
    | _, _ => retB ()
    end in
  retB (responseOf bookingId booking).

(** *** Cancellation and refunds *)

(** [Math.max] of two numbers. *)
Definition Math_max (a b : Q) : Q := if Qle_bool a b then b else a.

(** [x || d] for an integer column: missing and 0 are falsy. *)
Definition orDefaultZ (x : option Z) (d : Z) : Z :=
  match x with
  | Some v => if bool_decide (v = 0) then d else v
  | None => d
  end.

(** [booking.flightSchedule?.fareRules] *)
Definition fareRulesOf (b : Booking.t) (db : Database) : option FareRules.t :=
  match Booking.flightScheduleId (Booking.target b) with
  | Some fid =>
      match flightSchedule (inventory db) !! fid with
      | Some _ => FlightExtra.fareRules (flightExtra db fid)
      | None => None
      end
  | None => None
  end.

(** [calculateCancellationRefund], at the time [now]. *)
Definition calculateCancellationRefund (bookingId : string) (now : Z)
    (db : Database) : string + CancellationResponse :=
  match booking db !! bookingId with
  | None => inl "Booking not found"
  | Some booking =>
      let bookingDate := Booking.createdAt booking in
      let hoursSinceBooking :=
        (inject_Z (now - bookingDate) / inject_Z (1000 * 60 * 60))%Q in
      let fareRules := fareRulesOf booking db in
      let freeCancellationHours :=
        orDefaultZ (fareRules ≫= FareRules.cancellationFreeWithinHours) 24 in
      let eligibleRefundAmount := numberOf (Booking.paidAmount (Booking.payment booking)) in
      let cancellationCharges :=
        if Qle_bool hoursSinceBooking (inject_Z freeCancellationHours)
        then 0%Q
        else
          let chargePercentage :=
            numberOf (fareRules ≫= FareRules.cancellationChargePercentage) in
          let chargeFixed :=
            numberOf (fareRules ≫= FareRules.cancellationChargeFixed) in
          Math_max (eligibleRefundAmount * chargePercentage / 100)%Q chargeFixed in
      let finalRefundAmount :=
        Math_max 0 (eligibleRefundAmount - cancellationCharges)%Q in
      inr (mkRefund eligibleRefundAmount cancellationCharges finalRefundAmount
                    (orDefaultZ (fareRules ≫= FareRules.refundProcessingDays) 7))
  end.

(** The [data] of the [booking.update] of [cancelBooking]. *)
Definition cancelRow (userId reason : string) (refund : CancellationResponse)
    (now : Z) (b : Booking.t) : Booking.t :=
  Booking.mk (Booking.bookingNumber b) (Booking.userId b)
    BookingStatus.CANCELLED (Booking.paymentStatus b) (Booking.createdAt b)
    (Booking.target b) (Booking.contact b) (Booking.amounts b) (Booking.payment b)
    (Booking.mkCancellation (Some now) (Some userId) (Some reason)
                            (Some (finalRefundAmount refund))).

Definition cancelSeats (passengers : list BookingPassenger.t) (s : BusSchedule.t)
  : BusSchedule.t :=
  let n := Z.of_nat (length passengers) in
  BusSchedule.mk (BusSchedule.route s) (BusSchedule.status s)
    (markSeats AVAILABLE (requestedSeatsOf (BookingPassenger.data <$> passengers))
               (BusSchedule.seatStatus s))
    (BusSchedule.availableSeats s + n)
    (BusSchedule.heldSeats s)
    (BusSchedule.bookedSeats s - n).

Definition freeRoom (r : RoomInventory.t) : RoomInventory.t :=
  RoomInventory.mk (RoomInventory.isAvailable r)
    (RoomInventory.availableRooms r + 1) (RoomInventory.heldRooms r)
    (RoomInventory.bookedRooms r - 1) (RoomInventory.price r).

Definition readPassengers (bookingId : string) : Bx (list BookingPassenger.t) :=
  λ db, (inr (passengersOf bookingId db), db).

Definition refundGlobally (bookingId : string) (now : Z) : Bx CancellationResponse :=
  λ db, (calculateCancellationRefund bookingId now db, db).

(** The callback given to [prisma.$transaction] in [cancelBooking]. *)
Definition cancelBookingTx (bookingId userId reason : string) (now : Z)
  : Bx (BookingResponse * CancellationResponse) :=
  let+ found := booking_findUnique bookingId in
  let+ passengers := readPassengers bookingId in
  match found with
  | None => throwB "Booking not found"
  | Some booking =>
      if negb (String.eqb (Booking.userId booking) userId)
      then throwB "Unauthorized to cancel this booking"
      else if bool_decide (Booking.status booking = BookingStatus.CANCELLED)
      then throwB "Booking is already cancelled"
      else if bool_decide (Booking.status booking = BookingStatus.COMPLETED)
      then throwB "Cannot cancel completed booking"
      else
        let target := Booking.target booking in
        let+ refund := refundGlobally bookingId now in
        let+ updatedBooking := booking_update bookingId (cancelRow userId reason refund now) in
        let+ _ := cancellationRequest_create
                    (CancellationRequest.mk bookingId "USER_INITIATED" userId reason
                       (eligibleRefundAmount refund) (cancellationCharges refund)
                       (finalRefundAmount refund) "APPROVED" "SYSTEM" now
                       (if Qle_bool (finalRefundAmount refund) 0
                        then "COMPLETED" else "PENDING")) in
        let+ _ :=
          match Booking.category target, truthyString (Booking.busScheduleId target) with
          | BookingCategory.BUS, Some busScheduleId =>
              let+ schedule := onInventory (busSchedule_findUnique busScheduleId) in
              match schedule with
              | Some _ =>
                  onInventory (busSchedule_update busScheduleId (cancelSeats passengers))
              | None => retB ()
              end
          | _, _ => retB ()
          end in
        let+ _ :=
          match Booking.category target, truthyString (Booking.flightScheduleId target) with
          | BookingCategory.AIRLINE, Some flightScheduleId =>
              flightSchedule_increment flightScheduleId
                (cabinClassField (Booking.cabinClass target))
                (- Z.of_nat (length passengers))
          | _, _ => retB ()
          end in
        let+ _ :=
          match Booking.category target, truthyString (Booking.roomInventoryId target) with
          | BookingCategory.HOTEL, Some roomInventoryId =>
              roomInventory_update roomInventoryId freeRoom
          | _, _ => retB ()
          end in
        retB (responseOf bookingId updatedBooking, refund)
  end.

Definition cancelBooking (bookingId userId reason : string) (now : Z)
    (db : Database)
  : (string + (BookingResponse * CancellationResponse)) * Database :=
  transactionB (cancelBookingTx bookingId userId reason now) db.

(** *** Vocabulary of the statements about bookings *)

(** The row that [createBusBooking] writes for a request on schedule [sid]
    whose first passenger is [first]. *)
Definition busBookingRow (userId : string) (data : CreateBookingRequest)
    (env : Environment) (db : Database) (sid : string) (first : PassengerInfo)
  : Booking.t :=
  newBooking userId env
    (Booking.mkTarget BookingCategory.BUS (Some sid) None None None None None None)
    first
    (calculatePricing (busBaseFare db sid)
       (inject_Z (Z.of_nat (length (rq_passengers data))))
       (addOnItemsOf (rq_addOns data)) (rq_couponCode data))
    (rq_addOns data).

(** The database [db] with one more booking, its passengers, and the
    inventory [st]. *)
Definition withBooking (id : string) (row : Booking.t)
    (rows : list BookingPassenger.t) (st : Store) (db : Database) : Database :=
  mkDb st (busBaseFare db) (flightExtra db) (roomInventory db)
       (<[id := row]> (booking db)) (bookingPassenger db ++ rows)
       (cancellationRequest db).

(** The arguments of the [holdSeats] call made by [createBusBooking]. *)
Definition bookingHold (userId sid : string) (data : CreateBookingRequest)
  : HoldSeatsParams :=
  mkParams sid (requestedSeatsOf (rq_passengers data)) userId BUS (Some 10).

(** Every passenger row belongs to a booking of the database. *)
Definition passengersHaveBooking (db : Database) : Prop :=
  ∀ p, p ∈ bookingPassenger db → BookingPassenger.bookingId p ∈ dom (booking db).

(** The rooms of a room inventory row, whatever their state. *)
Definition roomsOf (r : RoomInventory.t) : Z :=
  RoomInventory.availableRooms r + RoomInventory.heldRooms r
  + RoomInventory.bookedRooms r.

(** The database [db] with the booking row [id] replaced. *)
Definition setBooking (id : string) (row : Booking.t) (db : Database) : Database :=
  mkDb (inventory db) (busBaseFare db) (flightExtra db) (roomInventory db)
       (<[id := row]> (booking db)) (bookingPassenger db) (cancellationRequest db).

(** The inventory after the bus branch of [cancelBooking] ran for schedule
    [sid] and the passenger rows [passengers]. *)
Definition seatsCancelled (sid : string) (passengers : list BookingPassenger.t)
    (st : Store) : Store :=
  match busSchedule st !! sid with
  | Some s =>
      mkStore (<[sid := cancelSeats passengers s]> (busSchedule st))
              (flightSchedule st) (seatHold st)
  | None => st
  end.

(** *** Sample data of the booking service *)

Definition passengerOn (seat : option string) : PassengerInfo :=
  mkPassenger "Asha" "Rao" None None None None seat None None None None None None.

Definition busRequest (seats : list (option string)) : CreateBookingRequest :=
  mkRequest (Some "s1") None None None None None None (passengerOn <$> seats)
            None None.

Definition flightRequest (cabinClass : option CabinClass.t) (n : nat)
  : CreateBookingRequest :=
  mkRequest None (Some "f1") cabinClass None None None None
            (replicate n (passengerOn None)) None None.

Definition hotelRequest : CreateBookingRequest :=
  mkRequest None None None (Some "r1") (Some 1000) (Some 2000) (Some 1%Q)
            [passengerOn None] None None.

Definition sampleFareRules : FareRules.t :=
  FareRules.mk (Some 2) (Some 10%Q) (Some 300%Q) (Some 5).

Definition sampleFlightExtra : FlightExtra.t :=
  FlightExtra.mk "ACTIVE" 4000 6000 9000 15000 2 0 2 0 1 0 (Some sampleFareRules).

Definition sampleFlight : FlightSchedule.t :=
  FlightSchedule.mk (Flight.mk partnerOn) 3 1.

Definition sampleRoom : RoomInventory.t := RoomInventory.mk true 2 0 1 2500.

(** A database around the inventory [st], with one flight schedule "f1" and
    one room "r1", and no booking yet. *)
Definition databaseOf (st : Store) : Database :=
  mkDb (mkStore (busSchedule st) {[ "f1" := sampleFlight ]} (seatHold st))
       (λ _, 500%Q) (λ _, sampleFlightExtra) {[ "r1" := sampleRoom ]} ∅ [] [].

Definition clockAt (now : Z) : Environment := mkEnv now "20240101" "AB12".

Definition cardPayment (paid : Q) : PaymentDetails :=
  mkPaymentDetails (Some "order_1") (Some "pay_1") (Some "sig_1") "card" paid.

(** A partner that allows half of the seats to be held. *)
Definition partnerHalf : Partner.t := Partner.mk true (PctDecimal 50) None.

(** Four free seats, two of which may be held. *)
Definition roomyDb : Store :=
  mkStore {[ "s1" := scheduleOf 4 partnerHalf AVAILABLE 4 0 0 ]} ∅ ∅.

(** Seat 1 is BOOKED; two seats may be held. *)
Definition bookedSeatDb : Store :=
  mkStore {[ "s1" := scheduleOf 4 partnerHalf BOOKED 3 0 1 ]} ∅ ∅.

(** Two passengers on seats 2 and 3 of schedule "s1". *)
Definition twoSeats : CreateBookingRequest := busRequest [Some "2"; Some "3"].

(** Two passengers who name no seat. *)
Definition noSeats : CreateBookingRequest := busRequest [None; None].

(** A hotel booking "b9" of user "u1" for a room row that does not exist. *)
Definition orphanHotelDb : Database :=
  mkDb emptyDb (λ _, 500%Q) (λ _, sampleFlightExtra) ∅
       {[ "b9" := newBooking "u1" (clockAt 1000)
                    (Booking.mkTarget BookingCategory.HOTEL None None None
                                      (Some "r9") (Some 1000) (Some 2000) (Some 1%Q))
                    (passengerOn None)
                    (calculatePricing 2500 1 [] None) None ]}
       [] [].

(** A flight booking "b7" of user "u1" on schedule "f1", paid 4084. *)
Definition paidFlightDb : Database :=
  mkDb (mkStore ∅ {[ "f1" := sampleFlight ]} ∅)
       (λ _, 500%Q) (λ _, sampleFlightExtra) ∅
       {[ "b7" := confirmRow (cardPayment 4084) 2000
                    (newBooking "u1" (clockAt 1000)
                       (Booking.mkTarget BookingCategory.AIRLINE None (Some "f1")
                                         (Some CabinClass.ECONOMY) None None None None)
                       (passengerOn None)
                       (calculatePricing 4000 1 [] None) None) ]}
       [] [].

(** ** Facts about the building blocks *)

Lemma errorMessage_nonempty e : errorMessage e ≠ "".
Proof. unfold errorMessage. by destruct (String.eqb_spec e ""). Qed.

Lemma quotaExceededMessage_nonempty q : quotaExceededMessage q ≠ "".
Proof. unfold quotaExceededMessage. simpl. discriminate. Qed.

Ltac split_seat_cases :=
  repeat case_bool_decide; simplify_map_eq;
  first [ done | exfalso; set_solver ].

Lemma markSeats_lookup v seats m k :
  markSeats v seats m !! k = if bool_decide (k ∈ seats) then Some v else m !! k.
Proof.
  revert m. induction seats as [|a rest IH]; intros m; cbn [markSeats].
  - split_seat_cases.
  - rewrite IH. clear IH. destruct (decide (k = a)) as [->|Hne]; split_seat_cases.
Qed.

Lemma releaseSeats_lookup seats m k :
  releaseSeats seats m !! k =
  if bool_decide (k ∈ seats ∧ m !! k = Some HELD) then Some AVAILABLE else m !! k.
Proof.
  revert m. induction seats as [|a rest IH]; intros m; cbn [releaseSeats].
  - split_seat_cases.
  - rewrite IH. clear IH. destruct (decide (k = a)) as [->|Hne]; split_seat_cases.
Qed.

Lemma releaseSeats_app l1 l2 m :
  releaseSeats (l1 ++ l2) m = releaseSeats l2 (releaseSeats l1 m).
Proof. revert m. induction l1 as [|a l1 IH]; intros m; simpl; [done | apply IH]. Qed.

Lemma len_app l1 l2 : len (l1 ++ l2) = len l1 + len l2.
Proof. unfold len. rewrite length_app. lia. Qed.

(** *** The three operations, case by case *)

Lemma transaction_rollback {A} (body : Tx A) st e st' :
  transaction body st = (inl e, st') → st' = st.
Proof.
  unfold transaction. destruct (body st) as [[e'|a] st'']; by intros [= _ <-].
Qed.

Lemma holdSeatsTx_commits params holdExpiry st id st' :
  holdSeatsTx params holdExpiry st = (inr id, st') →
  p_category params = BUS ∧
  ∃ s, busSchedule st !! p_scheduleId params = Some s ∧
       BusSchedule.status s = ScheduleStatus.ACTIVE ∧
       firstUnavailable (BusSchedule.seatStatus s) (p_seatNumbers params) = None ∧
       id = fresh (dom (seatHold st)) ∧
       st' = heldStore params holdExpiry s st.
Proof.
  unfold holdSeatsTx. destruct (p_category params); [|discriminate].
  unfold bind at 1, busSchedule_findUnique.
  destruct (busSchedule st !! p_scheduleId params) as [s|] eqn:Hs; [|discriminate].
  destruct (String.eqb_spec (BusSchedule.status s) ScheduleStatus.ACTIVE)
    as [Hact|]; [|discriminate].
  simpl. destruct (firstUnavailable _ _) eqn:Hfu; [discriminate|].
  unfold bind, busSchedule_update, seatHold_create, ret. rewrite Hs. simpl.
  intros [= <- <-]. split; [done|]. by exists s.
Qed.

Lemma holdSeatsTx_ready params holdExpiry st s :
  p_category params = BUS →
  busSchedule st !! p_scheduleId params = Some s →
  BusSchedule.status s = ScheduleStatus.ACTIVE →
  firstUnavailable (BusSchedule.seatStatus s) (p_seatNumbers params) = None →
  holdSeatsTx params holdExpiry st =
  (inr (fresh (dom (seatHold st))), heldStore params holdExpiry s st).
Proof.
  intros Hc Hs Hact Hfu. unfold holdSeatsTx. rewrite Hc.
  unfold bind at 1, busSchedule_findUnique. rewrite Hs, Hact. simpl.
  rewrite Hfu. unfold bind, busSchedule_update, seatHold_create, ret.
  by rewrite Hs.
Qed.

(** The two ways the transaction of [holdSeats] can end. *)
Lemma holdSeatsCommit_cases params holdExpiry now st r st' :
  holdSeatsCommit params holdExpiry now st = (r, st') →
  (success r = false ∧ holdId r = None ∧ message r ≠ "" ∧ st' = st)
  ∨ (success r = true ∧ p_category params = BUS ∧
     ∃ s, busSchedule st !! p_scheduleId params = Some s ∧
          BusSchedule.status s = ScheduleStatus.ACTIVE ∧
          firstUnavailable (BusSchedule.seatStatus s) (p_seatNumbers params) = None ∧
          r = mkResult true (Some (fresh (dom (seatHold st))))
                       (p_seatNumbers params) holdExpiry "Seats held successfully" ∧
          st' = heldStore params holdExpiry s st).
Proof.
  unfold holdSeatsCommit.
  destruct (transaction _ st) as [[e|id] st''] eqn:Htx.
  { intros [= <- <-]. left. simpl.
    apply transaction_rollback in Htx. auto using errorMessage_nonempty. }
  intros [= <- <-]. right. simpl. unfold transaction in Htx.
  destruct (holdSeatsTx _ _ st) as [[e|id'] st3] eqn:Hbody; [discriminate|].
  injection Htx as -> ->.
  apply holdSeatsTx_commits in Hbody as (Hc & s & Hs & Hact & Hfu & -> & ->).
  split; [done|]. split; [done|]. by exists s.
Qed.

(** The two ways a call of [holdSeats] can end. *)
Lemma holdSeats_cases params now st r st' :
  holdSeats params now st = (r, st') →
  (success r = false ∧ holdId r = None ∧ message r ≠ "" ∧ st' = st)
  ∨ (success r = true ∧ p_category params = BUS ∧
     ∃ s, busSchedule st !! p_scheduleId params = Some s ∧
          BusSchedule.status s = ScheduleStatus.ACTIVE ∧
          firstUnavailable (BusSchedule.seatStatus s) (p_seatNumbers params) = None ∧
          let holdExpiry :=
            addMinutes now (default DEFAULT_HOLD_EXPIRY_MINUTES
                                    (p_holdExpiryMinutes params)) in
          r = mkResult true (Some (fresh (dom (seatHold st))))
                       (p_seatNumbers params) holdExpiry "Seats held successfully" ∧
          st' = heldStore params holdExpiry s st).
Proof.
  unfold holdSeats, holdSeatsCheck.
  destruct (isHoldQuotaAvailable _ _ _ _) as [e|q].
  { intros [= <- <-]. left. simpl. auto using errorMessage_nonempty. }
  destruct (available q); simpl.
  2:{ intros [= <- <-]. left. simpl. auto using quotaExceededMessage_nonempty. }
  apply holdSeatsCommit_cases.
Qed.

Lemma releaseHold_active holdId reason now st h :
  seatHold st !! holdId = Some h →
  SeatHold.status h = HoldStatus.ACTIVE →
  releaseHold holdId reason now st = (true, releasedStore holdId reason now h st).
Proof.
  intros Hh Hact. unfold releaseHold, transaction, releaseHoldTx.
  unfold bind at 1, seatHold_findUnique. rewrite Hh.
  rewrite (bool_decide_eq_true_2 _ Hact). simpl.
  unfold bind at 1, busSchedule_findUnique, releasedStore.
  destruct (busSchedule st !! SeatHold.scheduleId h) as [s|] eqn:Hs.
  - unfold bind, busSchedule_update, seatHold_update. rewrite Hs. simpl.
    by rewrite Hh.
  - unfold bind, ret, seatHold_update. by rewrite Hh.
Qed.

Lemma releaseHold_not_active holdId reason now st :
  (∀ h, seatHold st !! holdId = Some h → SeatHold.status h ≠ HoldStatus.ACTIVE) →
  releaseHold holdId reason now st = (false, st).
Proof.
  intros Hna. unfold releaseHold, transaction, releaseHoldTx.
  unfold bind at 1, seatHold_findUnique.
  destruct (seatHold st !! holdId) as [h|] eqn:Hh; [|done].
  by rewrite (bool_decide_eq_false_2 _ (Hna h eq_refl)).
Qed.

Lemma convertHoldToBooking_active holdId bookingId now st h :
  seatHold st !! holdId = Some h →
  SeatHold.status h = HoldStatus.ACTIVE →
  convertHoldToBooking holdId bookingId now st
  = (true, convertedStore holdId now h st).
Proof.
  intros Hh Hact. unfold convertHoldToBooking, transaction, convertHoldToBookingTx.
  unfold bind at 1, seatHold_findUnique. rewrite Hh.
  rewrite (bool_decide_eq_true_2 _ Hact). simpl.
  unfold bind at 1, seatHold_update. rewrite Hh.
  unfold bind, busSchedule_findUnique, convertedStore. simpl.
  destruct (busSchedule st !! SeatHold.scheduleId h) as [s|] eqn:Hs; [|done].
  unfold busSchedule_update. simpl. by rewrite Hs.
Qed.

Lemma convertHoldToBooking_not_active holdId bookingId now st :
  (∀ h, seatHold st !! holdId = Some h → SeatHold.status h ≠ HoldStatus.ACTIVE) →
  convertHoldToBooking holdId bookingId now st = (false, st).
Proof.
  intros Hna. unfold convertHoldToBooking, transaction, convertHoldToBookingTx.
  unfold bind at 1, seatHold_findUnique.
  destruct (seatHold st !! holdId) as [h|] eqn:Hh; [|done].
  by rewrite (bool_decide_eq_false_2 _ (Hna h eq_refl)).
Qed.

(** Every call of [releaseHold] is one of the two cases above. *)
Lemma releaseHold_cases holdId reason now st :
  (∃ h, seatHold st !! holdId = Some h ∧ SeatHold.status h = HoldStatus.ACTIVE ∧
        releaseHold holdId reason now st
        = (true, releasedStore holdId reason now h st))
  ∨ ((∀ h, seatHold st !! holdId = Some h → SeatHold.status h ≠ HoldStatus.ACTIVE)
     ∧ releaseHold holdId reason now st = (false, st)).
Proof.
  destruct (seatHold st !! holdId) as [h|] eqn:Hh.
  - destruct (decide (SeatHold.status h = HoldStatus.ACTIVE)) as [Hact|Hna].
    + left. exists h. eauto using releaseHold_active.
    + right. split; [by intros ? [= <-]|].
      apply releaseHold_not_active. rewrite Hh. by intros ? [= <-].
  - right. split; [done|]. apply releaseHold_not_active. by rewrite Hh.
Qed.

Lemma convertHoldToBooking_cases holdId bookingId now st :
  (∃ h, seatHold st !! holdId = Some h ∧ SeatHold.status h = HoldStatus.ACTIVE ∧
        convertHoldToBooking holdId bookingId now st
        = (true, convertedStore holdId now h st))
  ∨ ((∀ h, seatHold st !! holdId = Some h → SeatHold.status h ≠ HoldStatus.ACTIVE)
     ∧ convertHoldToBooking holdId bookingId now st = (false, st)).
Proof.
  destruct (seatHold st !! holdId) as [h|] eqn:Hh.
  - destruct (decide (SeatHold.status h = HoldStatus.ACTIVE)) as [Hact|Hna].
    + left. exists h. eauto using convertHoldToBooking_active.
    + right. split; [by intros ? [= <-]|].
      apply convertHoldToBooking_not_active. rewrite Hh. by intros ? [= <-].
  - right. split; [done|]. apply convertHoldToBooking_not_active. by rewrite Hh.
Qed.

(** ** The quota calculator *)

(** For an integer percentage the result is the integer quotient. *)
Lemma calculateMaxHolds_integer (totalSeats pct : Z) :
  calculateMaxHolds totalSeats (Some (inject_Z pct)) = (totalSeats * pct) `div` 100.
Proof.
  rewrite Zdiv_Qdiv, inject_Z_mult. unfold calculateMaxHolds.
  apply Qfloor_comp. reflexivity.
Qed.



(** ** The counters *)

Lemma balanced_heldSchedule params s : balanced s → balanced (heldSchedule params s).
Proof. unfold balanced, heldSchedule, holdAdd. simpl. lia. Qed.

Lemma balanced_releasedSchedule h s : balanced s → balanced (releasedSchedule h s).
Proof. unfold balanced, releasedSchedule, releaseSub. simpl. lia. Qed.

Lemma balanced_convertedSchedule h s : balanced s → balanced (convertedSchedule h s).
Proof. unfold balanced, convertedSchedule, convertMove. simpl. lia. Qed.

Lemma countsInvariant_update st sid s' fl holds :
  countsInvariant st → balanced s' →
  countsInvariant (mkStore (<[sid := s']> (busSchedule st)) fl holds).
Proof.
  intros Hinv Hb id s. simpl.
  intros [[_ <-]|[_ Hs]]%lookup_insert_Some; [done | by eapply Hinv].
Qed.

Lemma countsInvariant_heldStore params holdExpiry s st :
  countsInvariant st → busSchedule st !! p_scheduleId params = Some s →
  countsInvariant (heldStore params holdExpiry s st).
Proof.
  intros Hinv Hs. apply countsInvariant_update; [done|].
  apply balanced_heldSchedule. by eapply Hinv.
Qed.

Lemma countsInvariant_releasedStore holdId reason now h st :
  countsInvariant st → countsInvariant (releasedStore holdId reason now h st).
Proof.
  intros Hinv. unfold releasedStore.
  destruct (busSchedule st !! SeatHold.scheduleId h) as [s|] eqn:Hs.
  - apply countsInvariant_update; [done|].
    apply balanced_releasedSchedule. by eapply Hinv.
  - intros id s. simpl. apply Hinv.
Qed.

Lemma countsInvariant_convertedStore holdId now h st :
  countsInvariant st → countsInvariant (convertedStore holdId now h st).
Proof.
  intros Hinv. unfold convertedStore.
  destruct (busSchedule st !! SeatHold.scheduleId h) as [s|] eqn:Hs.
  - apply countsInvariant_update; [done|].
    apply balanced_convertedSchedule. by eapply Hinv.
  - intros id s. simpl. apply Hinv.
Qed.

Lemma countsInvariant_releaseHold holdId reason now st :
  countsInvariant st → countsInvariant (releaseHold holdId reason now st).2.
Proof.
  intros Hinv.
  destruct (releaseHold_cases holdId reason now st) as [(h & _ & _ & ->)|[_ ->]];
    simpl; auto using countsInvariant_releasedStore.
Qed.

Lemma countsInvariant_releaseEach ids now c st :
  countsInvariant st → countsInvariant (releaseEach ids now c st).2.
Proof.
  revert c st. induction ids as [|id rest IH]; intros c st Hinv; simpl; [done|].
  pose proof (countsInvariant_releaseHold id EXPIRED now st Hinv) as Hnext.
  destruct (releaseHold id EXPIRED now st) as [ok st1]. by apply IH.
Qed.

Lemma holdManagerStep_countsInvariant st st' :
  countsInvariant st → holdManagerStep st st' → countsInvariant st'.
Proof.
  intros Hinv Hstep. destruct Hstep as
    [params now st r st' Hrun | params holdExpiry now st r st' Hrun
    | holdId reason now st ok st' Hrun
    | holdId bookingId now st ok st' Hrun | now st n st' Hrun].
  - apply holdSeats_cases in Hrun
      as [(_ & _ & _ & ->)|(_ & _ & s & Hs & _ & _ & _ & ->)]; [done|].
    by apply countsInvariant_heldStore.
  - apply holdSeatsCommit_cases in Hrun
      as [(_ & _ & _ & ->)|(_ & _ & s & Hs & _ & _ & _ & ->)]; [done|].
    by apply countsInvariant_heldStore.
  - pose proof (countsInvariant_releaseHold holdId reason now st Hinv) as H.
    by rewrite Hrun in H.
  - destruct (convertHoldToBooking_cases holdId bookingId now st)
      as [(h & _ & _ & Heq)|[_ Heq]]; rewrite Heq in Hrun;
      injection Hrun as <- <-; auto using countsInvariant_convertedStore.
  - unfold releaseExpiredHolds in Hrun.
    pose proof (countsInvariant_releaseEach (findExpiredHolds now st) now 0 st Hinv)
      as H.
    by rewrite Hrun in H.
Qed.

(** C1: from a state whose counters add up to the total seats of each
    schedule, a successful [holdSeats] of [n] seats takes [n] from
    [availableSeats] and adds [n] to [heldSeats]; a successful [releaseHold]
    moves the hold's quantity from [heldSeats] back to [availableSeats]; a
    successful [convertHoldToBooking] moves it from [heldSeats] to
    [bookedSeats]; each leaves the sum equal to the total seats, and so does
    every sequence of hold manager operations. *)
Theorem counts_invariant_preserved (st : Store) :
  countsInvariant st →
  (∀ params now r st',
      holdSeats params now st = (r, st') → success r = true →
      ∃ s s', busSchedule st !! p_scheduleId params = Some s ∧
              busSchedule st' !! p_scheduleId params = Some s' ∧
              BusSchedule.availableSeats s'
              = BusSchedule.availableSeats s - len (p_seatNumbers params) ∧
              BusSchedule.heldSeats s'
              = BusSchedule.heldSeats s + len (p_seatNumbers params) ∧
              BusSchedule.bookedSeats s' = BusSchedule.bookedSeats s ∧
              BusSchedule.route s' = BusSchedule.route s ∧
              countsInvariant st')
  ∧ (∀ holdId reason now st',
      releaseHold holdId reason now st = (true, st') →
      ∃ h, seatHold st !! holdId = Some h ∧
           countsInvariant st' ∧
           ∀ s, busSchedule st !! SeatHold.scheduleId h = Some s →
                ∃ s', busSchedule st' !! SeatHold.scheduleId h = Some s' ∧
                      BusSchedule.availableSeats s'
                      = BusSchedule.availableSeats s + len (SeatHold.seatNumbers h) ∧
                      BusSchedule.heldSeats s'
                      = BusSchedule.heldSeats s - len (SeatHold.seatNumbers h) ∧
                      BusSchedule.bookedSeats s' = BusSchedule.bookedSeats s ∧
                      BusSchedule.route s' = BusSchedule.route s)
  ∧ (∀ holdId bookingId now st',
      convertHoldToBooking holdId bookingId now st = (true, st') →
      ∃ h, seatHold st !! holdId = Some h ∧
           countsInvariant st' ∧
           ∀ s, busSchedule st !! SeatHold.scheduleId h = Some s →
                ∃ s', busSchedule st' !! SeatHold.scheduleId h = Some s' ∧
                      BusSchedule.availableSeats s' = BusSchedule.availableSeats s ∧
                      BusSchedule.heldSeats s'
                      = BusSchedule.heldSeats s - len (SeatHold.seatNumbers h) ∧
                      BusSchedule.bookedSeats s'
                      = BusSchedule.bookedSeats s + len (SeatHold.seatNumbers h) ∧
                      BusSchedule.route s' = BusSchedule.route s)
  ∧ (∀ st', reachableFrom st st' → countsInvariant st').
Proof.
  intros Hinv. repeat split.
  - intros params now r st' Hrun Hok.
    apply holdSeats_cases in Hrun
      as [(Hf & _)|(_ & _ & s & Hs & _ & _ & _ & ->)]; [congruence|].
    exists s, (heldSchedule params s). split; [done|]. split.
    { simpl. apply lookup_insert_eq. }
    repeat split. by apply countsInvariant_heldStore.
  - intros holdId reason now st' Hrun.
    destruct (releaseHold_cases holdId reason now st)
      as [(h & Hh & _ & Heq)|[_ Heq]]; rewrite Heq in Hrun; [|discriminate].
    injection Hrun as <-. exists h. split; [done|].
    split; [by apply countsInvariant_releasedStore|].
    intros s Hs. exists (releasedSchedule h s). unfold releasedStore.
    rewrite Hs. simpl. by rewrite lookup_insert_eq.
  - intros holdId bookingId now st' Hrun.
    destruct (convertHoldToBooking_cases holdId bookingId now st)
      as [(h & Hh & _ & Heq)|[_ Heq]]; rewrite Heq in Hrun; [|discriminate].
    injection Hrun as <-. exists h. split; [done|].
    split; [by apply countsInvariant_convertedStore|].
    intros s Hs. exists (convertedSchedule h s). unfold convertedStore.
    rewrite Hs. simpl. by rewrite lookup_insert_eq.
  - intros st' Hreach. induction Hreach as [|x y z Hstep _ IH]; [done|].
    apply IH. by eapply holdManagerStep_countsInvariant.
Qed.

(** ** The quota check *)

Lemma isHoldQuotaAvailable_view category scheduleId requested st partner total heldNow :
  quotaView category scheduleId st = Some (partner, total, heldNow) →
  isHoldQuotaAvailable scheduleId requested category st
  = inr (quotaDecision partner total heldNow requested).
Proof.
  unfold quotaView, isHoldQuotaAvailable. destruct category.
  - destruct (busSchedule st !! scheduleId); [|done]. by intros [= <- <- <-].
  - destruct (flightSchedule st !! scheduleId); [|done]. by intros [= <- <- <-].
Qed.

(** What the callback of [holdSeats] can throw. *)
Lemma holdSeatsTx_throws params holdExpiry st msg st' :
  holdSeatsTx params holdExpiry st = (inl msg, st') →
  msg = "Schedule not available"
  ∨ (∃ seat, msg = seatUnavailableMessage seat)
  ∨ msg = "Flight seat hold not implemented yet".
Proof.
  unfold holdSeatsTx. destruct (p_category params); [|intros [= <- _]; auto].
  unfold bind at 1, busSchedule_findUnique.
  destruct (busSchedule st !! p_scheduleId params) as [s|] eqn:Hs;
    [|intros [= <- _]; auto].
  destruct (negb _); [intros [= <- _]; auto|].
  simpl. destruct (firstUnavailable _ _) as [seat|]; [intros [= <- _]; eauto|].
  unfold bind, busSchedule_update, seatHold_create, ret. by rewrite Hs.
Qed.

Lemma thrown_message_not_quota params holdExpiry st msg st' q :
  holdSeatsTx params holdExpiry st = (inl msg, st') →
  errorMessage msg ≠ quotaExceededMessage q.
Proof.
  intros [->|[[seat ->]| ->]]%holdSeatsTx_throws;
    unfold errorMessage, quotaExceededMessage, seatUnavailableMessage;
    simpl; discriminate.
Qed.

(** When the quota check lets the call through, no outcome reads as a quota
    refusal. *)
Lemma holdSeats_within_quota params now st partner total heldNow q :
  quotaView (p_category params) (p_scheduleId params) st
  = Some (partner, total, heldNow) →
  Partner.holdQuotaEnabled partner = true →
  heldNow + len (p_seatNumbers params)
  ≤ calculateMaxHolds total (Some (quotaPercentageOf partner)) →
  message (holdSeats params now st).1 ≠ quotaExceededMessage q.
Proof.
  intros Hview Hen Hle. unfold holdSeats, holdSeatsCheck.
  rewrite (isHoldQuotaAvailable_view _ _ _ _ _ _ _ Hview).
  unfold quotaDecision. rewrite Hen. cbn [negb available].
  apply Z.leb_le in Hle. rewrite Hle. cbn [negb].
  unfold holdSeatsCommit, transaction.
  destruct (holdSeatsTx _ _ st) as [[e|id] st''] eqn:Hbody; simpl.
  - by eapply thrown_message_not_quota.
  - unfold quotaExceededMessage. simpl. discriminate.
Qed.

(** C4: with the hold quota enabled for the partner, [holdSeats] is
    refused for quota exactly when [currentHeld + requested] exceeds
    [calculateMaxHolds totalSeats pct], where [pct] is the percentage of the
    partner's policy as the service reads it: the stored value whenever it
    is truthy, the configured default otherwise.  The refusal reports the
    maximum allowed and the seats currently held, and the database is left
    as it was. *)
Theorem quota_exceeded_exactly_when params now st partner total heldNow :
  quotaView (p_category params) (p_scheduleId params) st
  = Some (partner, total, heldNow) →
  Partner.holdQuotaEnabled partner = true →
  let requested := len (p_seatNumbers params) in
  let maxHoldable := calculateMaxHolds total (Some (quotaPercentageOf partner)) in
  let refusal :=
    mkResult false None (p_seatNumbers params) now
      ("Hold quota exceeded. Max allowed: " +:+ pretty maxHoldable
         +:+ ", Currently held: " +:+ pretty heldNow) in
  (heldNow + requested > maxHoldable → holdSeats params now st = (refusal, st))
  ∧ (heldNow + requested ≤ maxHoldable →
     ∀ q, message (holdSeats params now st).1 ≠ quotaExceededMessage q)
  ∧ (truthy (Partner.holdQuotaPercentage partner) = true →
     maxHoldable
     = calculateMaxHolds total (Some (toNumber (Partner.holdQuotaPercentage partner)))).
Proof.
  intros Hview Hen requested maxHoldable refusal.
  split; [|split; [|by unfold maxHoldable, quotaPercentageOf; intros ->]].
  - intros Hgt. unfold holdSeats, holdSeatsCheck.
    rewrite (isHoldQuotaAvailable_view _ _ _ _ _ _ _ Hview).
    unfold quotaDecision. rewrite Hen. cbn [negb available].
    fold requested maxHoldable.
    assert (Hleb : (heldNow + requested <=? maxHoldable) = false)
      by (apply Z.leb_gt; lia).
    by rewrite Hleb.
  - intros Hle q. by eapply holdSeats_within_quota.
Qed.

(** When the percentage stored for the partner is truthy, it is the one
    that enters the calculation. *)
Lemma quotaPercentageOf_truthy partner :
  truthy (Partner.holdQuotaPercentage partner) = true →
  quotaPercentageOf partner = toNumber (Partner.holdQuotaPercentage partner).
Proof. unfold quotaPercentageOf. by intros ->. Qed.

Lemma quotaPercentageOf_falsy partner :
  truthy (Partner.holdQuotaPercentage partner) = false →
  quotaPercentageOf partner = DEFAULT_HOLD_QUOTA_PERCENTAGE.
Proof. unfold quotaPercentageOf. by intros ->. Qed.

(** ** The created hold *)


(** ** A partner that does not offer holds *)

(** C6 (amended): for a schedule of a partner with [holdQuotaEnabled]
    false, [holdSeats] fails before anything is written; its outcome is the
    quota refusal with maximum 0 and 0 held, which differs from the
    seat-unavailable and the schedule-not-found outcomes. *)
Theorem disabled_partner_refused_before_mutation params now st partner total heldNow :
  quotaView (p_category params) (p_scheduleId params) st
  = Some (partner, total, heldNow) →
  Partner.holdQuotaEnabled partner = false →
  let refusal :=
    mkResult false None (p_seatNumbers params) now
             "Hold quota exceeded. Max allowed: 0, Currently held: 0" in
  holdSeats params now st = (refusal, st)
  ∧ message refusal = quotaExceededMessage (mkQuota false 0 0)
  ∧ (∀ seat, message refusal ≠ seatUnavailableMessage seat)
  ∧ message refusal ≠ "Schedule not available"
  ∧ message refusal ≠ "Bus schedule not found"
  ∧ message refusal ≠ "Flight schedule not found".
Proof.
  intros Hview Hoff refusal. split.
  - unfold holdSeats, holdSeatsCheck.
    rewrite (isHoldQuotaAvailable_view _ _ _ _ _ _ _ Hview).
    unfold quotaDecision. by rewrite Hoff.
  - repeat split; discriminate.
Qed.

(** ** Releasing and converting a hold *)

Lemma closeHold_not_active newStatus now h :
  newStatus ≠ HoldStatus.ACTIVE →
  SeatHold.status (closeHold newStatus now h) ≠ HoldStatus.ACTIVE.
Proof. done. Qed.

Lemma statusForReason_not_active reason : statusForReason reason ≠ HoldStatus.ACTIVE.
Proof. by destruct reason. Qed.

(** C7 (amended): on a hold with status ACTIVE, [releaseHold] succeeds;
    the hold gets [releasedAt] stamped and the status RELEASED for the
    reasons EXPIRED and USER_CANCELLED (CONVERTED for the reason CONVERTED);
    in its schedule every covered seat that is HELD becomes AVAILABLE and
    no other seat changes, [availableSeats] grows and [heldSeats] shrinks by
    the number of seats of the hold.  On a hold that is not ACTIVE (or does
    not exist) [releaseHold] returns false and changes nothing; this is the
    case of a second release. *)
Theorem releaseHold_active_once (holdId : string) (st : Store) :
  (∀ h reason now,
      seatHold st !! holdId = Some h →
      SeatHold.status h = HoldStatus.ACTIVE →
      ∃ st',
        releaseHold holdId reason now st = (true, st') ∧
        seatHold st' !! holdId
        = Some (SeatHold.mk (SeatHold.scheduleId h) (SeatHold.seatNumbers h)
                  (SeatHold.heldBy h) (SeatHold.holdExpiry h)
                  (match reason with
                   | REASON_CONVERTED => HoldStatus.CONVERTED
                   | _ => HoldStatus.RELEASED
                   end)
                  (Some now)) ∧
        (∀ id, id ≠ holdId → seatHold st' !! id = seatHold st !! id) ∧
        (∀ s, busSchedule st !! SeatHold.scheduleId h = Some s →
              ∃ s', busSchedule st' !! SeatHold.scheduleId h = Some s' ∧
                    BusSchedule.availableSeats s'
                    = BusSchedule.availableSeats s + len (SeatHold.seatNumbers h) ∧
                    BusSchedule.heldSeats s'
                    = BusSchedule.heldSeats s - len (SeatHold.seatNumbers h) ∧
                    BusSchedule.bookedSeats s' = BusSchedule.bookedSeats s ∧
                    ∀ seat,
                      BusSchedule.seatStatus s' !! seat
                      = if bool_decide (seat ∈ SeatHold.seatNumbers h ∧
                                        BusSchedule.seatStatus s !! seat = Some HELD)
                        then Some AVAILABLE
                        else BusSchedule.seatStatus s !! seat) ∧
        (∀ sid, sid ≠ SeatHold.scheduleId h →
                busSchedule st' !! sid = busSchedule st !! sid) ∧
        (∀ reason2 now2, releaseHold holdId reason2 now2 st' = (false, st')))
  ∧ (∀ reason now,
      (∀ h, seatHold st !! holdId = Some h →
            SeatHold.status h ≠ HoldStatus.ACTIVE) →
      releaseHold holdId reason now st = (false, st)).
Proof.
  split; [|intros; by apply releaseHold_not_active].
  intros h reason now Hh Hact.
  exists (releasedStore holdId reason now h st).
  split; [by apply releaseHold_active|].
  assert (Hclosed : seatHold (releasedStore holdId reason now h st) !! holdId
                    = Some (closeHold (statusForReason reason) now h)).
  { simpl. apply lookup_insert_eq. }
  split; [by rewrite Hclosed; destruct reason|].
  split; [intros id Hne; simpl; by rewrite lookup_insert_ne|].
  split; [|split].
  - intros s Hs. exists (releasedSchedule h s). unfold releasedStore.
    rewrite Hs. simpl. rewrite lookup_insert_eq.
    repeat split. intros seat. apply releaseSeats_lookup.
  - intros sid Hne. unfold releasedStore.
    destruct (busSchedule st !! SeatHold.scheduleId h); simpl; [|done].
    by rewrite lookup_insert_ne.
  - intros reason2 now2. apply releaseHold_not_active.
    rewrite Hclosed. intros h' [= <-].
    apply closeHold_not_active, statusForReason_not_active.
Qed.

(** C8: on a hold with status ACTIVE, [convertHoldToBooking] sets the
    status CONVERTED, marks every covered seat BOOKED, and moves the number
    of seats of the hold from [heldSeats] to [bookedSeats]; the route, hence
    the total seats, and the sum of the three counters do not change.  A
    second call on the same hold returns false and changes nothing. *)
Theorem convertHoldToBooking_moves_once holdId bookingId now st h s :
  seatHold st !! holdId = Some h →
  SeatHold.status h = HoldStatus.ACTIVE →
  busSchedule st !! SeatHold.scheduleId h = Some s →
  ∃ st' s',
    convertHoldToBooking holdId bookingId now st = (true, st') ∧
    SeatHold.status <$> seatHold st' !! holdId = Some HoldStatus.CONVERTED ∧
    busSchedule st' !! SeatHold.scheduleId h = Some s' ∧
    (∀ seat, seat ∈ SeatHold.seatNumbers h →
             BusSchedule.seatStatus s' !! seat = Some BOOKED) ∧
    (∀ seat, seat ∉ SeatHold.seatNumbers h →
             BusSchedule.seatStatus s' !! seat = BusSchedule.seatStatus s !! seat) ∧
    BusSchedule.heldSeats s'
    = BusSchedule.heldSeats s - len (SeatHold.seatNumbers h) ∧
    BusSchedule.bookedSeats s'
    = BusSchedule.bookedSeats s + len (SeatHold.seatNumbers h) ∧
    BusSchedule.availableSeats s' = BusSchedule.availableSeats s ∧
    BusRoute.totalSeats (BusSchedule.route s')
    = BusRoute.totalSeats (BusSchedule.route s) ∧
    BusSchedule.availableSeats s' + BusSchedule.heldSeats s' + BusSchedule.bookedSeats s'
    = BusSchedule.availableSeats s + BusSchedule.heldSeats s + BusSchedule.bookedSeats s ∧
    (∀ bookingId2 now2,
        convertHoldToBooking holdId bookingId2 now2 st' = (false, st')).
Proof.
  intros Hh Hact Hs.
  exists (convertedStore holdId now h st), (convertedSchedule h s).
  split; [by apply convertHoldToBooking_active|].
  assert (Hclosed : seatHold (convertedStore holdId now h st) !! holdId
                    = Some (closeHold HoldStatus.CONVERTED now h)).
  { simpl. apply lookup_insert_eq. }
  split; [by rewrite Hclosed|].
  split; [unfold convertedStore; rewrite Hs; simpl; apply lookup_insert_eq|].
  split; [|split].
  - intros seat Hin. simpl. rewrite markSeats_lookup.
    by rewrite bool_decide_eq_true_2.
  - intros seat Hout. simpl. rewrite markSeats_lookup.
    by rewrite bool_decide_eq_false_2.
  - repeat split; simpl; try lia.
    intros bookingId2 now2. apply convertHoldToBooking_not_active.
    rewrite Hclosed. by intros h' [= <-].
Qed.

(** ** The sweep *)

Lemma releaseHold_seatHold_other holdId reason now st id :
  id ≠ holdId →
  seatHold (releaseHold holdId reason now st).2 !! id = seatHold st !! id.
Proof.
  intros Hne.
  destruct (releaseHold_cases holdId reason now st) as [(h & _ & _ & ->)|[_ ->]];
    simpl; [by rewrite lookup_insert_ne | done].
Qed.

(** A hold that is not ACTIVE is left alone by the loop. *)
Lemma releaseEach_keeps_closed ids now c st id h :
  seatHold st !! id = Some h → SeatHold.status h ≠ HoldStatus.ACTIVE →
  seatHold (releaseEach ids now c st).2 !! id = Some h.
Proof.
  revert c st. induction ids as [|a rest IH]; intros c st Hh Hna; simpl; [done|].
  destruct (releaseHold a EXPIRED now st) as [ok st1] eqn:Hrel.
  apply IH; [|done].
  destruct (decide (a = id)) as [->|Hne].
  - rewrite releaseHold_not_active in Hrel; [by injection Hrel as <- <-|].
    rewrite Hh. by intros ? [= <-].
  - pose proof (releaseHold_seatHold_other a EXPIRED now st id) as Hother.
    rewrite Hrel in Hother. simpl in Hother. rewrite Hother; [done | congruence].
Qed.

(** Whatever else is in the list, and whatever happens to it, an ACTIVE
    hold named in the list is released by the loop. *)
Lemma releaseEach_releases ids now c st id h :
  id ∈ ids → seatHold st !! id = Some h →
  SeatHold.status h = HoldStatus.ACTIVE →
  seatHold (releaseEach ids now c st).2 !! id
  = Some (closeHold HoldStatus.RELEASED now h).
Proof.
  revert c st. induction ids as [|a rest IH]; intros c st Hin Hh Hact;
    [by apply elem_of_nil in Hin|].
  simpl. destruct (releaseHold a EXPIRED now st) as [ok st1] eqn:Hrel.
  destruct (decide (a = id)) as [->|Hne].
  - rewrite (releaseHold_active _ _ _ _ _ Hh Hact) in Hrel.
    injection Hrel as <- <-.
    apply releaseEach_keeps_closed; [simpl; apply lookup_insert_eq | done].
  - apply elem_of_cons in Hin as [?|Hin]; [congruence|].
    apply IH; [done| |done].
    pose proof (releaseHold_seatHold_other a EXPIRED now st id) as Hother.
    rewrite Hrel in Hother. simpl in Hother. rewrite Hother; [done | congruence].
Qed.

Lemma coveredSeats_ext (m1 m2 : gmap string SeatHold.t) ids sid :
  (∀ id, id ∈ ids → m1 !! id = m2 !! id) →
  coveredSeats m1 ids sid = coveredSeats m2 ids sid.
Proof.
  induction ids as [|a rest IH]; intros Hext; simpl; [done|].
  rewrite (Hext a) by (by left).
  rewrite IH; [done|]. intros id Hin. apply Hext. by right.
Qed.

Lemma coveredSeats_covers (m : gmap string SeatHold.t) ids sid id h seat :
  id ∈ ids → m !! id = Some h → SeatHold.scheduleId h = sid →
  seat ∈ SeatHold.seatNumbers h → seat ∈ coveredSeats m ids sid.
Proof.
  intros Hin Hh Hsid Hseat. induction ids as [|a rest IH];
    [by apply elem_of_nil in Hin|].
  simpl. apply elem_of_cons in Hin as [<-|Hin].
  - rewrite Hh, (bool_decide_eq_true_2 _ Hsid). apply elem_of_app. by left.
  - specialize (IH Hin). destruct (m !! a) as [h'|]; [|done].
    case_bool_decide; [|done]. apply elem_of_app. by right.
Qed.

Lemma sweptSchedule_released h covered s :
  sweptSchedule covered (releasedSchedule h s)
  = sweptSchedule (SeatHold.seatNumbers h ++ covered) s.
Proof.
  unfold sweptSchedule, releasedSchedule, releaseSub. simpl.
  rewrite releaseSeats_app, len_app. f_equal; lia.
Qed.

Lemma sweptSchedule_nil s : sweptSchedule [] s = s.
Proof.
  destruct s. unfold sweptSchedule, releaseSub, len. simpl. f_equal; lia.
Qed.

(** The loop on a list of distinct ACTIVE holds: all are released. *)
Lemma releaseEach_distinct_active ids now c st :
  NoDup ids →
  (∀ id, id ∈ ids →
         ∃ h, seatHold st !! id = Some h ∧ SeatHold.status h = HoldStatus.ACTIVE) →
  let result := releaseEach ids now c st in
  result.1 = c + Z.of_nat (length ids)
  ∧ (∀ id, seatHold result.2 !! id
           = if bool_decide (id ∈ ids)
             then closeHold HoldStatus.RELEASED now <$> seatHold st !! id
             else seatHold st !! id)
  ∧ (∀ sid, busSchedule result.2 !! sid
            = sweptSchedule (coveredSeats (seatHold st) ids sid)
                <$> busSchedule st !! sid)
  ∧ flightSchedule result.2 = flightSchedule st.
Proof.
  revert c st. induction ids as [|a rest IH]; intros c st Hnd Hall.
  { simpl. split; [lia|]. split; [done|]. split; [|done].
    intros sid. destruct (busSchedule st !! sid) as [s|]; [|done].
    simpl. by rewrite sweptSchedule_nil. }
  apply NoDup_cons in Hnd as [Hfresh Hnd].
  destruct (Hall a) as (h & Hh & Hact); [by left|].
  cbn [releaseEach]. rewrite (releaseHold_active _ _ _ _ _ Hh Hact).
  set (st1 := releasedStore a EXPIRED now h st).
  assert (Hkeep : ∀ id, id ∈ rest → seatHold st1 !! id = seatHold st !! id).
  { intros id Hin. simpl. rewrite lookup_insert_ne; [done|]. by intros ->. }
  destruct (IH (c + 1) st1 Hnd) as (Hn & Hholds & Hbus & Hfl).
  { intros id Hin. rewrite (Hkeep id Hin). apply Hall. by right. }
  cbv zeta. split; [rewrite Hn; simpl length; lia|].
  split; [|split; [|by rewrite Hfl]].
  - intros id. rewrite Hholds. destruct (decide (id = a)) as [->|Hne].
    + rewrite (bool_decide_eq_false_2 _ Hfresh).
      rewrite bool_decide_eq_true_2 by (by left).
      simpl. by rewrite lookup_insert_eq, Hh.
    + assert (Hst1 : seatHold st1 !! id = seatHold st !! id)
        by (simpl; by rewrite lookup_insert_ne).
      rewrite Hst1. destruct (decide (id ∈ rest)) as [Hin|Hout].
      * rewrite !bool_decide_eq_true_2; [done | by right | done].
      * rewrite !bool_decide_eq_false_2; [done | | done].
        by intros [?|?]%elem_of_cons.
  - intros sid. rewrite Hbus.
    rewrite (coveredSeats_ext (seatHold st1) (seatHold st) rest sid Hkeep).
    cbn [coveredSeats]. rewrite Hh. subst st1. unfold releasedStore.
    destruct (decide (SeatHold.scheduleId h = sid)) as [<-|Hne].
    + rewrite bool_decide_eq_true_2 by done.
      destruct (busSchedule st !! SeatHold.scheduleId h) as [s|] eqn:Hs; simpl.
      * rewrite lookup_insert_eq. simpl. by rewrite sweptSchedule_released.
      * by rewrite Hs.
    + rewrite bool_decide_eq_false_2 by done.
      destruct (busSchedule st !! SeatHold.scheduleId h) as [s|]; simpl; [|done].
      by rewrite lookup_insert_ne.
Qed.

Lemma findExpiredHolds_spec now st id :
  id ∈ findExpiredHolds now st ↔
  ∃ h, seatHold st !! id = Some h ∧ SeatHold.status h = HoldStatus.ACTIVE ∧
       SeatHold.holdExpiry h < now.
Proof.
  unfold findExpiredHolds. rewrite list_elem_of_fmap. split.
  - intros ([id' h] & -> & Hin). apply elem_of_map_to_list in Hin.
    apply map_lookup_filter_Some in Hin as [Hh [Hact Hexp]]. by exists h.
  - intros (h & Hh & Hact & Hexp). exists (id, h). split; [done|].
    apply elem_of_map_to_list. by apply map_lookup_filter_Some.
Qed.

Lemma findExpiredHolds_NoDup now st : NoDup (findExpiredHolds now st).
Proof. apply NoDup_fst_map_to_list. Qed.

(** C9 (amended): one run of [releaseExpiredHolds] finds every hold with
    status ACTIVE whose expiry is strictly before the current time and
    releases each of them: the hold becomes RELEASED with [releasedAt]
    stamped, its seats that are HELD become AVAILABLE, and the counters of
    its schedule are restored by its number of seats; every other hold is
    untouched.  The result is the number of holds released.  The loop tries
    every id it is given: a release that fails does not stop an ACTIVE hold
    later (or earlier) in the list from being released. *)
Theorem releaseExpiredHolds_sweeps (now : Z) (st : Store) :
  let expired := findExpiredHolds now st in
  let result := releaseExpiredHolds now st in
  (∀ id, id ∈ expired ↔
         ∃ h, seatHold st !! id = Some h ∧
              SeatHold.status h = HoldStatus.ACTIVE ∧
              SeatHold.holdExpiry h < now)
  ∧ result.1 = Z.of_nat (length expired)
  ∧ (∀ id h, seatHold st !! id = Some h →
             seatHold result.2 !! id
             = Some (if bool_decide (SeatHold.status h = HoldStatus.ACTIVE ∧
                                      SeatHold.holdExpiry h < now)
                     then closeHold HoldStatus.RELEASED now h
                     else h))
  ∧ (∀ id, seatHold st !! id = None → seatHold result.2 !! id = None)
  ∧ (∀ sid s, busSchedule st !! sid = Some s →
       let covered := coveredSeats (seatHold st) expired sid in
       ∃ s', busSchedule result.2 !! sid = Some s' ∧
             BusSchedule.availableSeats s'
             = BusSchedule.availableSeats s + len covered ∧
             BusSchedule.heldSeats s' = BusSchedule.heldSeats s - len covered ∧
             BusSchedule.bookedSeats s' = BusSchedule.bookedSeats s ∧
             (∀ seat, BusSchedule.seatStatus s' !! seat
                      = if bool_decide (seat ∈ covered ∧
                                        BusSchedule.seatStatus s !! seat = Some HELD)
                        then Some AVAILABLE
                        else BusSchedule.seatStatus s !! seat) ∧
             (∀ id h seat, id ∈ expired → seatHold st !! id = Some h →
                           SeatHold.scheduleId h = sid →
                           seat ∈ SeatHold.seatNumbers h → seat ∈ covered))
  ∧ (∀ ids c st1 id h,
       id ∈ ids → seatHold st1 !! id = Some h →
       SeatHold.status h = HoldStatus.ACTIVE →
       seatHold (releaseEach ids now c st1).2 !! id
       = Some (closeHold HoldStatus.RELEASED now h)).
Proof.
  cbv zeta. unfold releaseExpiredHolds.
  destruct (releaseEach_distinct_active (findExpiredHolds now st) now 0 st
              (findExpiredHolds_NoDup now st))
    as (Hn & Hholds & Hbus & _).
  { intros id (h & Hh & Hact & _)%findExpiredHolds_spec. eauto. }
  split; [apply findExpiredHolds_spec|].
  split; [rewrite Hn; lia|].
  split; [|split; [|split]].
  - intros id h Hh. rewrite Hholds, Hh.
    destruct (decide (SeatHold.status h = HoldStatus.ACTIVE ∧
                      SeatHold.holdExpiry h < now)) as [[Hact Hexp]|Hno].
    + rewrite !bool_decide_eq_true_2; [done | done |].
      apply findExpiredHolds_spec. eauto.
    + rewrite !bool_decide_eq_false_2; [done | done |].
      intros (h' & Hh' & Hact & Hexp)%findExpiredHolds_spec.
      rewrite Hh in Hh'. injection Hh' as <-. by apply Hno.
  - intros id Hnone. rewrite Hholds, Hnone. by case_bool_decide.
  - intros sid s Hs.
    set (covered := coveredSeats (seatHold st) (findExpiredHolds now st) sid).
    exists (sweptSchedule covered s). rewrite Hbus, Hs.
    split; [done|]. repeat split.
    + intros seat. apply releaseSeats_lookup.
    + intros id h seat. apply coveredSeats_covers.
  - intros ids c st1 id h. apply releaseEach_releases.
Qed.

(** ** Failures *)

(** C10: [holdSeats], [releaseHold] and [convertHoldToBooking] always
    return a value.  A failure is a result with [success] false that
    carries a message and no hold id, or the boolean false, and the
    database is then exactly as before the call.  A missing or inactive
    schedule, a seat that is not AVAILABLE, a hold that is not ACTIVE and
    any exception thrown inside the transaction all end this way. *)
Theorem failures_returned_and_rolled_back :
  (∀ params now st,
      ∃ r st', holdSeats params now st = (r, st') ∧
               (success r = false → holdId r = None ∧ message r ≠ "" ∧ st' = st))
  ∧ (∀ holdId reason now st,
      ∃ ok st', releaseHold holdId reason now st = (ok, st') ∧
                (ok = false → st' = st))
  ∧ (∀ holdId bookingId now st,
      ∃ ok st', convertHoldToBooking holdId bookingId now st = (ok, st') ∧
                (ok = false → st' = st))
  ∧ (∀ params now st,
      p_category params = BUS → busSchedule st !! p_scheduleId params = None →
      holdSeats params now st
      = (mkResult false None (p_seatNumbers params) now "Bus schedule not found", st))
  ∧ (∀ params now st,
      p_category params = FLIGHT → flightSchedule st !! p_scheduleId params = None →
      holdSeats params now st
      = (mkResult false None (p_seatNumbers params) now "Flight schedule not found", st))
  ∧ (∀ params now st s,
      p_category params = BUS → busSchedule st !! p_scheduleId params = Some s →
      BusSchedule.status s ≠ ScheduleStatus.ACTIVE →
      success (holdSeats params now st).1 = false ∧ (holdSeats params now st).2 = st)
  ∧ (∀ params now st s seat,
      p_category params = BUS → busSchedule st !! p_scheduleId params = Some s →
      seat ∈ p_seatNumbers params →
      BusSchedule.seatStatus s !! seat ≠ Some AVAILABLE →
      success (holdSeats params now st).1 = false ∧ (holdSeats params now st).2 = st)
  ∧ (∀ holdId reason now st,
      (∀ h, seatHold st !! holdId = Some h → SeatHold.status h ≠ HoldStatus.ACTIVE) →
      releaseHold holdId reason now st = (false, st))
  ∧ (∀ holdId bookingId now st,
      (∀ h, seatHold st !! holdId = Some h → SeatHold.status h ≠ HoldStatus.ACTIVE) →
      convertHoldToBooking holdId bookingId now st = (false, st))
  ∧ (∀ (A : Type) (body : Tx A) st e st',
      transaction body st = (inl e, st') → st' = st).
Proof.
  split; [|split; [|split; [|split; [|split; [|split; [|split; [|split; [|split]]]]]]]].
  - intros params now st. destruct (holdSeats params now st) as [r st'] eqn:Hrun.
    exists r, st'. split; [done|]. intros Hfail.
    apply holdSeats_cases in Hrun as [(_ & ? & ? & ?)|(Hok & _)]; [done | congruence].
  - intros holdId reason now st.
    destruct (releaseHold_cases holdId reason now st) as [(h & _ & _ & ->)|[_ ->]];
      eexists _, _; (split; [reflexivity|]); [discriminate | done].
  - intros holdId bookingId now st.
    destruct (convertHoldToBooking_cases holdId bookingId now st)
      as [(h & _ & _ & ->)|[_ ->]];
      eexists _, _; (split; [reflexivity|]); [discriminate | done].
  - intros params now st Hc Hs. unfold holdSeats, holdSeatsCheck, isHoldQuotaAvailable.
    by rewrite Hc, Hs.
  - intros params now st Hc Hs. unfold holdSeats, holdSeatsCheck, isHoldQuotaAvailable.
    by rewrite Hc, Hs.
  - intros params now st s Hc Hs Hina.
    destruct (holdSeats params now st) as [r st'] eqn:Hrun.
    apply holdSeats_cases in Hrun
      as [(? & _ & _ & ?)|(_ & _ & s' & Hs' & Hact & _)]; [done|].
    congruence.
  - intros params now st s seat Hc Hs Hin Hseat.
    destruct (holdSeats params now st) as [r st'] eqn:Hrun.
    apply holdSeats_cases in Hrun
      as [(? & _ & _ & ?)|(_ & _ & s' & Hs' & _ & Hfu & _)]; [done|].
    exfalso. rewrite Hs in Hs'. injection Hs' as <-.
    clear -Hin Hseat Hfu. induction (p_seatNumbers params) as [|a rest IH];
      [by apply elem_of_nil in Hin|].
    simpl in Hfu. case_bool_decide; [|discriminate].
    apply elem_of_cons in Hin as [->|Hin]; [done | by apply IH].
  - intros. by apply releaseHold_not_active.
  - intros. by apply convertHoldToBooking_not_active.
  - intros A body st e st'. apply transaction_rollback.
Qed.

(** ** Calls that do not overlap *)

Lemma holdSeats_granted params now st s :
  p_category params = BUS →
  busSchedule st !! p_scheduleId params = Some s →
  BusSchedule.status s = ScheduleStatus.ACTIVE →
  Partner.holdQuotaEnabled (BusRoute.partner (BusSchedule.route s)) = true →
  firstUnavailable (BusSchedule.seatStatus s) (p_seatNumbers params) = None →
  BusSchedule.heldSeats s + len (p_seatNumbers params)
  ≤ calculateMaxHolds (BusRoute.totalSeats (BusSchedule.route s))
      (Some (quotaPercentageOf (BusRoute.partner (BusSchedule.route s)))) →
  let holdExpiry :=
    addMinutes now (default DEFAULT_HOLD_EXPIRY_MINUTES (p_holdExpiryMinutes params)) in
  holdSeats params now st
  = (mkResult true (Some (fresh (dom (seatHold st)))) (p_seatNumbers params)
       holdExpiry "Seats held successfully",
     heldStore params holdExpiry s st).
Proof.
  intros Hc Hs Hact Hen Hfu Hle holdExpiry.
  unfold holdSeats, holdSeatsCheck, isHoldQuotaAvailable. rewrite Hc, Hs.
  unfold quotaDecision. rewrite Hen. cbn [negb available].
  apply Z.leb_le in Hle. rewrite Hle. cbn [negb].
  unfold holdSeatsCommit, transaction.
  by rewrite (holdSeatsTx_ready _ _ _ _ Hc Hs Hact Hfu).
Qed.

Lemma holdSeats_refused params now st s :
  p_category params = BUS →
  busSchedule st !! p_scheduleId params = Some s →
  Partner.holdQuotaEnabled (BusRoute.partner (BusSchedule.route s)) = true →
  calculateMaxHolds (BusRoute.totalSeats (BusSchedule.route s))
      (Some (quotaPercentageOf (BusRoute.partner (BusSchedule.route s))))
  < BusSchedule.heldSeats s + len (p_seatNumbers params) →
  ∃ q, holdSeats params now st = (holdFailure params now (quotaExceededMessage q), st).
Proof.
  intros Hc Hs Hen Hlt.
  unfold holdSeats, holdSeatsCheck, isHoldQuotaAvailable. rewrite Hc, Hs.
  unfold quotaDecision. rewrite Hen. cbn [negb available].
  apply Z.leb_gt in Hlt. rewrite Hlt. cbn [negb]. eauto.
Qed.

(** Requests for one seat each, all different and all AVAILABLE, made one
    after the other against an ACTIVE schedule: they are granted until the
    quota is full, every later one is a quota refusal, and [heldSeats] grows
    by the number granted. *)
Lemma holdSeatsInTurn_fills_quota calls : ∀ st sid s,
  busSchedule st !! sid = Some s →
  BusSchedule.status s = ScheduleStatus.ACTIVE →
  Partner.holdQuotaEnabled (BusRoute.partner (BusSchedule.route s)) = true →
  let K := calculateMaxHolds (BusRoute.totalSeats (BusSchedule.route s))
             (Some (quotaPercentageOf (BusRoute.partner (BusSchedule.route s)))) in
  BusSchedule.heldSeats s ≤ K →
  Forall (λ c, ∃ seat, asksOneSeat sid c.1 seat ∧
                       BusSchedule.seatStatus s !! seat = Some AVAILABLE) calls →
  NoDup (concat ((p_seatNumbers ∘ fst) <$> calls)) →
  let run := holdSeatsInTurn calls st in
  let granted := Z.min (Z.of_nat (length calls)) (K - BusSchedule.heldSeats s) in
  length run.1 = length calls
  ∧ Z.of_nat (length (filter (λ r, success r = true) run.1)) = granted
  ∧ Forall (λ r, success r = false → ∃ q, message r = quotaExceededMessage q) run.1
  ∧ BusSchedule.heldSeats <$> busSchedule run.2 !! sid
    = Some (BusSchedule.heldSeats s + granted).
Proof.
  induction calls as [|[params now] rest IH]; intros st sid s Hs Hact Hen K Hle Hall Hnd.
  { cbv zeta. simpl. rewrite Hs. simpl.
    repeat split; [lia | constructor | f_equal; lia]. }
  apply Forall_cons in Hall as [(seat & (Hc & Hsid & Hseats) & Hav) Hall].
  simpl in Hc, Hsid, Hseats, Hnd. rewrite Hseats in Hnd. simpl in Hnd.
  apply NoDup_cons in Hnd as [Hfresh Hnd]. subst sid.
  cbn [holdSeatsInTurn].
  destruct (decide (BusSchedule.heldSeats s + 1 ≤ K)) as [Hroom|Hfull].
  - (* granted *)
    assert (Hfu : firstUnavailable (BusSchedule.seatStatus s) (p_seatNumbers params) = None).
    { rewrite Hseats. simpl. by rewrite bool_decide_eq_true_2. }
    assert (Hq : BusSchedule.heldSeats s + len (p_seatNumbers params) ≤ K)
      by (rewrite Hseats; exact Hroom).
    rewrite (holdSeats_granted params now st s Hc Hs Hact Hen Hfu Hq).
    set (st1 := heldStore params _ s st).
    set (s1 := heldSchedule params s).
    assert (Hs1 : busSchedule st1 !! p_scheduleId params = Some s1)
      by (simpl; apply lookup_insert_eq).
    assert (Hheld1 : BusSchedule.heldSeats s1 = BusSchedule.heldSeats s + 1)
      by (simpl; by rewrite Hseats).
    destruct (IH st1 (p_scheduleId params) s1 Hs1 Hact Hen) as (Hlen & Hn & Hfail & Hfinal).
    { simpl. lia. }
    { apply Forall_forall. intros [p' now'] Hin.
      destruct (proj1 (Forall_forall _ _) Hall _ Hin) as (seat' & Hask & Hav').
      exists seat'. split; [done|].
      simpl. rewrite markSeats_lookup, Hseats.
      rewrite bool_decide_eq_false_2; [done|].
      intros ->%list_elem_of_singleton. apply Hfresh.
      apply list_elem_of_In, in_concat. exists [seat]. split; [|by left].
      apply list_elem_of_In, list_elem_of_fmap. exists (p', now').
      destruct Hask as (_ & _ & Hsn). simpl in *. by rewrite Hsn. }
    { done. }
    destruct (holdSeatsInTurn rest st1) as [rs st2]. cbn [fst snd] in *.
    change (BusSchedule.route s1) with (BusSchedule.route s) in Hn, Hfinal.
    fold K in Hn, Hfinal. rewrite Hheld1 in Hn, Hfinal.
    rewrite filter_cons_True by done. cbn [length].
    split; [by rewrite Hlen|]. split; [lia|]. split.
    + constructor; [discriminate | done].
    + rewrite Hfinal. f_equal. lia.
  - (* refused *)
    destruct (holdSeats_refused params now st s Hc Hs Hen) as [q ->].
    { rewrite Hseats. change (len [seat]) with 1. lia. }
    destruct (IH st (p_scheduleId params) s Hs Hact Hen) as (Hlen & Hn & Hfail & Hfinal);
      [lia | done | done |].
    destruct (holdSeatsInTurn rest st) as [rs st2]. cbn [fst snd] in *.
    rewrite filter_cons_False by (simpl; done). cbn [length].
    split; [by rewrite Hlen|]. split; [lia|]. split.
    + constructor; [eauto | done].
    + rewrite Hfinal. f_equal. lia.
Qed.

(** With nothing held at the start and a quota of [K] seats, [N > K] such
    requests made one after the other give [K] holds and [N - K] quota
    refusals, and [K] seats are held at the end. *)
Lemma holdSeatsInTurn_K_of_N calls st sid s :
  busSchedule st !! sid = Some s →
  BusSchedule.status s = ScheduleStatus.ACTIVE →
  Partner.holdQuotaEnabled (BusRoute.partner (BusSchedule.route s)) = true →
  BusSchedule.heldSeats s = 0 →
  let K := calculateMaxHolds (BusRoute.totalSeats (BusSchedule.route s))
             (Some (quotaPercentageOf (BusRoute.partner (BusSchedule.route s)))) in
  let N := Z.of_nat (length calls) in
  0 ≤ K < N →
  Forall (λ c, ∃ seat, asksOneSeat sid c.1 seat ∧
                       BusSchedule.seatStatus s !! seat = Some AVAILABLE) calls →
  NoDup (concat ((p_seatNumbers ∘ fst) <$> calls)) →
  let run := holdSeatsInTurn calls st in
  Z.of_nat (length (filter (λ r, success r = true) run.1)) = K
  ∧ Z.of_nat (length (filter (λ r, success r = false) run.1)) = N - K
  ∧ Forall (λ r, success r = false → ∃ q, message r = quotaExceededMessage q) run.1
  ∧ BusSchedule.heldSeats <$> busSchedule run.2 !! sid = Some K.
Proof.
  intros Hs Hact Hen Hzero K N HK Hall Hnd run.
  destruct (holdSeatsInTurn_fills_quota calls st sid s Hs Hact Hen)
    as (Hlen & Hn & Hfail & Hfinal); [fold K; lia | done | done |].
  fold K run in Hlen, Hn, Hfail, Hfinal. rewrite Hzero in Hn, Hfinal.
  split; [lia|]. split; [|split; [done | rewrite Hfinal; f_equal; lia]].
  assert (Hsplit : ∀ rs : list HoldResult,
             (length (filter (λ r, success r = true) rs)
              + length (filter (λ r, success r = false) rs)
              = length rs)%nat).
  { induction rs as [|r rs IHrs]; [done|].
    destruct (success r) eqn:Hok.
    - rewrite filter_cons_True by done.
      rewrite (filter_cons_False _ r rs) by congruence. simpl. lia.
    - rewrite filter_cons_False by congruence.
      rewrite (filter_cons_True _ r rs) by done. simpl. lia. }
  specialize (Hsplit run.1). unfold N. lia.
Qed.

(** ** No seat is held twice *)

Lemma firstUnavailable_None m seats :
  firstUnavailable m seats = None ↔ ∀ seat, seat ∈ seats → m !! seat = Some AVAILABLE.
Proof.
  induction seats as [|a rest IH]; simpl.
  - split; [by intros _ seat ?%elem_of_nil | done].
  - case_bool_decide as Ha.
    + rewrite IH. split.
      * intros Hrest seat [->|?]%elem_of_cons; auto.
      * intros Hall seat Hin. apply Hall. by right.
    + split; [done|]. intros Hall. destruct Ha. apply Hall. by left.
Qed.

Lemma holdsExclusive_heldStore params holdExpiry s st :
  busSchedule st !! p_scheduleId params = Some s →
  firstUnavailable (BusSchedule.seatStatus s) (p_seatNumbers params) = None →
  holdsExclusive st → holdsExclusive (heldStore params holdExpiry s st).
Proof.
  intros Hs Hfu [Hheld Hdisj].
  assert (Hav := proj1 (firstUnavailable_None _ _) Hfu).
  assert (Hnew : seatHold st !! fresh (dom (seatHold st)) = None)
    by (apply not_elem_of_dom, is_fresh).
  assert (Hclash : ∀ id h seat,
             seatHold st !! id = Some h → SeatHold.status h = HoldStatus.ACTIVE →
             SeatHold.scheduleId h = p_scheduleId params →
             seat ∈ SeatHold.seatNumbers h → seat ∈ p_seatNumbers params → False).
  { intros id h seat Hh Hact Hsid Hin Hin'.
    rewrite <- Hsid in Hs. pose proof (Hheld id h s Hh Hact Hs seat Hin) as Hx.
    rewrite (Hav seat Hin') in Hx. discriminate. }
  split.
  - intros id h s' Hh Hact Hs' seat Hin. simpl in Hh, Hs'.
    apply lookup_insert_Some in Hh as [[<- <-]|[Hne Hh]].
    + simpl in Hs'. rewrite lookup_insert_eq in Hs'. injection Hs' as <-.
      simpl. rewrite markSeats_lookup. by rewrite bool_decide_eq_true_2.
    + apply lookup_insert_Some in Hs' as [[Hsid <-]|[Hsid Hs']].
      * simpl. rewrite markSeats_lookup. case_bool_decide; [done|].
        rewrite Hsid in Hs. by eapply Hheld.
      * by eapply Hheld.
  - intros id1 id2 h1 h2 Hne Hh1 Hh2 Hact1 Hact2 Hsid seat Hin1 Hin2.
    simpl in Hh1, Hh2.
    apply lookup_insert_Some in Hh1 as [[<- <-]|[Hne1 Hh1]];
      apply lookup_insert_Some in Hh2 as [[<- <-]|[Hne2 Hh2]]; try done.
    + simpl in Hsid, Hin1. by eapply (Hclash id2 h2 seat).
    + simpl in Hsid, Hin2. by eapply (Hclash id1 h1 seat).
    + by eapply (Hdisj id1 id2 h1 h2).
Qed.

(** Closing an ACTIVE hold while rewriting, in its schedule, only seats of
    that hold keeps the other holds exclusive. *)
Lemma holdsExclusive_close id h st newStatus now (f : BusSchedule.t → BusSchedule.t) :
  seatHold st !! id = Some h →
  SeatHold.status h = HoldStatus.ACTIVE →
  newStatus ≠ HoldStatus.ACTIVE →
  (∀ s seat, seat ∉ SeatHold.seatNumbers h →
             BusSchedule.seatStatus (f s) !! seat = BusSchedule.seatStatus s !! seat) →
  holdsExclusive st →
  holdsExclusive
    (mkStore (match busSchedule st !! SeatHold.scheduleId h with
              | Some s => <[SeatHold.scheduleId h := f s]> (busSchedule st)
              | None => busSchedule st
              end)
             (flightSchedule st)
             (<[id := closeHold newStatus now h]> (seatHold st))).
Proof.
  intros Hh Hact Hnew Hf [Hheld Hdisj]. split.
  - intros id' h' s' Hh' Hact' Hs' seat Hin. simpl in Hh', Hs'.
    apply lookup_insert_Some in Hh' as [[<- <-]|[Hne Hh']]; [done|].
    destruct (busSchedule st !! SeatHold.scheduleId h) as [s|] eqn:Hs;
      [|by eapply Hheld].
    apply lookup_insert_Some in Hs' as [[Hsid <-]|[Hsid Hs']]; [|by eapply Hheld].
    rewrite Hf.
    + rewrite Hsid in Hs. by eapply Hheld.
    + intros Hin'. by eapply (Hdisj id' id h' h).
  - intros id1 id2 h1 h2 Hne Hh1 Hh2 Hact1 Hact2 Hsid seat Hin1.
    simpl in Hh1, Hh2.
    apply lookup_insert_Some in Hh1 as [[<- <-]|[Hne1 Hh1]]; [done|].
    apply lookup_insert_Some in Hh2 as [[<- <-]|[Hne2 Hh2]]; [done|].
    by eapply (Hdisj id1 id2 h1 h2).
Qed.

Lemma holdsExclusive_releasedStore id reason now h st :
  seatHold st !! id = Some h → SeatHold.status h = HoldStatus.ACTIVE →
  holdsExclusive st → holdsExclusive (releasedStore id reason now h st).
Proof.
  intros Hh Hact. apply (holdsExclusive_close id h st _ now (releasedSchedule h));
    [done | done | apply statusForReason_not_active |].
  intros s seat Hout. simpl. rewrite releaseSeats_lookup.
  rewrite bool_decide_eq_false_2; [done | by intros [? _]].
Qed.

Lemma holdsExclusive_convertedStore id now h st :
  seatHold st !! id = Some h → SeatHold.status h = HoldStatus.ACTIVE →
  holdsExclusive st → holdsExclusive (convertedStore id now h st).
Proof.
  intros Hh Hact. apply (holdsExclusive_close id h st _ now (convertedSchedule h));
    [done | done | done |].
  intros s seat Hout. simpl. rewrite markSeats_lookup.
  by rewrite bool_decide_eq_false_2.
Qed.

Lemma holdsExclusive_releaseHold id reason now st :
  holdsExclusive st → holdsExclusive (releaseHold id reason now st).2.
Proof.
  intros Hinv.
  destruct (releaseHold_cases id reason now st) as [(h & Hh & Hact & ->)|[_ ->]];
    simpl; auto using holdsExclusive_releasedStore.
Qed.

Lemma holdsExclusive_releaseEach ids now c st :
  holdsExclusive st → holdsExclusive (releaseEach ids now c st).2.
Proof.
  revert c st. induction ids as [|id rest IH]; intros c st Hinv; simpl; [done|].
  pose proof (holdsExclusive_releaseHold id EXPIRED now st Hinv) as Hnext.
  destruct (releaseHold id EXPIRED now st) as [ok st1]. by apply IH.
Qed.

Lemma holdManagerStep_holdsExclusive st st' :
  holdsExclusive st → holdManagerStep st st' → holdsExclusive st'.
Proof.
  intros Hinv Hstep. destruct Hstep as
    [params now st r st' Hrun | params holdExpiry now st r st' Hrun
    | holdId reason now st ok st' Hrun
    | holdId bookingId now st ok st' Hrun | now st n st' Hrun].
  - apply holdSeats_cases in Hrun
      as [(_ & _ & _ & ->)|(_ & _ & s & Hs & _ & Hfu & _ & ->)]; [done|].
    by apply holdsExclusive_heldStore.
  - apply holdSeatsCommit_cases in Hrun
      as [(_ & _ & _ & ->)|(_ & _ & s & Hs & _ & Hfu & _ & ->)]; [done|].
    by apply holdsExclusive_heldStore.
  - pose proof (holdsExclusive_releaseHold holdId reason now st Hinv) as H.
    by rewrite Hrun in H.
  - destruct (convertHoldToBooking_cases holdId bookingId now st)
      as [(h & Hh & Hact & Heq)|[_ Heq]]; rewrite Heq in Hrun;
      injection Hrun as <- <-; auto using holdsExclusive_convertedStore.
  - unfold releaseExpiredHolds in Hrun.
    pose proof (holdsExclusive_releaseEach (findExpiredHolds now st) now 0 st Hinv)
      as H.
    by rewrite Hrun in H.
Qed.

(** X1: if every seat of an ACTIVE hold is HELD and no two ACTIVE holds of a
    schedule share a seat, the same is true after any sequence of hold
    manager operations, whether they succeed or fail, the sweep and the
    transaction of an interleaved [holdSeats] included. *)
Theorem seats_never_held_twice (st st' : Store) :
  holdsExclusive st → reachableFrom st st' → holdsExclusive st'.
Proof.
  intros Hinv Hreach. induction Hreach as [|x y z Hstep _ IH]; [done|].
  apply IH. by eapply holdManagerStep_holdsExclusive.
Qed.

(** ** [heldSeats] and the ACTIVE holds *)

Lemma holdWeight_sum_perm sid (l1 l2 : list (string * SeatHold.t)) :
  l1 ≡ₚ l2 →
  foldr (λ kv acc, holdWeight sid kv.2 + acc) 0 l1
  = foldr (λ kv acc, holdWeight sid kv.2 + acc) 0 l2.
Proof. induction 1; simpl; lia. Qed.

Lemma activeSeats_insert_new holds id h sid :
  holds !! id = None →
  activeSeats (<[id := h]> holds) sid = holdWeight sid h + activeSeats holds sid.
Proof.
  intros Hnone. unfold activeSeats.
  by rewrite (holdWeight_sum_perm sid _ _ (map_to_list_insert holds id h Hnone)).
Qed.

Lemma activeSeats_replace holds id h h' sid :
  holds !! id = Some h →
  activeSeats (<[id := h']> holds) sid
  = activeSeats holds sid - holdWeight sid h + holdWeight sid h'.
Proof.
  intros Hh.
  rewrite <- (insert_delete_eq holds id h').
  rewrite activeSeats_insert_new by apply lookup_delete_eq.
  rewrite <- (insert_delete_id holds id h Hh) at 2.
  rewrite activeSeats_insert_new by apply lookup_delete_eq. lia.
Qed.

Lemma holdWeight_closed sid newStatus now h :
  newStatus ≠ HoldStatus.ACTIVE → holdWeight sid (closeHold newStatus now h) = 0.
Proof.
  intros Hnew. unfold holdWeight. rewrite bool_decide_eq_false_2; [done|].
  by intros [? _].
Qed.

Lemma heldAccounted_heldStore params holdExpiry s st :
  busSchedule st !! p_scheduleId params = Some s →
  heldAccounted st → heldAccounted (heldStore params holdExpiry s st).
Proof.
  intros Hs Hinv sid s' Hs'. simpl in *.
  rewrite activeSeats_insert_new by (apply not_elem_of_dom, is_fresh).
  unfold holdWeight. simpl.
  apply lookup_insert_Some in Hs' as [[<- <-]|[Hne Hs']].
  - rewrite bool_decide_eq_true_2 by done. simpl. rewrite (Hinv _ _ Hs). lia.
  - rewrite bool_decide_eq_false_2 by (by intros [_ ?]).
    rewrite (Hinv _ _ Hs'). lia.
Qed.

(** Closing an ACTIVE hold while taking its seats off [heldSeats]. *)
Lemma heldAccounted_close id h st newStatus now (f : BusSchedule.t → BusSchedule.t) :
  seatHold st !! id = Some h →
  SeatHold.status h = HoldStatus.ACTIVE →
  newStatus ≠ HoldStatus.ACTIVE →
  (∀ s, BusSchedule.heldSeats (f s)
        = BusSchedule.heldSeats s - len (SeatHold.seatNumbers h)) →
  heldAccounted st →
  heldAccounted
    (mkStore (match busSchedule st !! SeatHold.scheduleId h with
              | Some s => <[SeatHold.scheduleId h := f s]> (busSchedule st)
              | None => busSchedule st
              end)
             (flightSchedule st)
             (<[id := closeHold newStatus now h]> (seatHold st))).
Proof.
  intros Hh Hact Hnew Hf Hinv sid s' Hs'. simpl in *.
  rewrite (activeSeats_replace _ _ _ _ _ Hh), holdWeight_closed by done.
  unfold holdWeight. rewrite Hact.
  destruct (busSchedule st !! SeatHold.scheduleId h) as [s|] eqn:Hs.
  - apply lookup_insert_Some in Hs' as [[<- <-]|[Hne Hs']].
    + rewrite bool_decide_eq_true_2 by done. rewrite Hf, (Hinv _ _ Hs). lia.
    + rewrite bool_decide_eq_false_2 by (by intros [_ ?]).
      rewrite (Hinv _ _ Hs'). lia.
  - rewrite bool_decide_eq_false_2; [rewrite (Hinv _ _ Hs'); lia|].
    intros [_ Heq]. congruence.
Qed.

Lemma heldAccounted_releaseHold id reason now st :
  heldAccounted st → heldAccounted (releaseHold id reason now st).2.
Proof.
  intros Hinv.
  destruct (releaseHold_cases id reason now st) as [(h & Hh & Hact & ->)|[_ ->]];
    simpl; [|done].
  apply (heldAccounted_close id h st _ now (releasedSchedule h));
    auto using statusForReason_not_active.
Qed.

Lemma heldAccounted_releaseEach ids now c st :
  heldAccounted st → heldAccounted (releaseEach ids now c st).2.
Proof.
  revert c st. induction ids as [|id rest IH]; intros c st Hinv; simpl; [done|].
  pose proof (heldAccounted_releaseHold id EXPIRED now st Hinv) as Hnext.
  destruct (releaseHold id EXPIRED now st) as [ok st1]. by apply IH.
Qed.

Lemma holdManagerStep_heldAccounted st st' :
  heldAccounted st → holdManagerStep st st' → heldAccounted st'.
Proof.
  intros Hinv Hstep. destruct Hstep as
    [params now st r st' Hrun | params holdExpiry now st r st' Hrun
    | holdId reason now st ok st' Hrun
    | holdId bookingId now st ok st' Hrun | now st n st' Hrun].
  - apply holdSeats_cases in Hrun
      as [(_ & _ & _ & ->)|(_ & _ & s & Hs & _ & _ & _ & ->)]; [done|].
    by apply heldAccounted_heldStore.
  - apply holdSeatsCommit_cases in Hrun
      as [(_ & _ & _ & ->)|(_ & _ & s & Hs & _ & _ & _ & ->)]; [done|].
    by apply heldAccounted_heldStore.
  - pose proof (heldAccounted_releaseHold holdId reason now st Hinv) as H.
    by rewrite Hrun in H.
  - destruct (convertHoldToBooking_cases holdId bookingId now st)
      as [(h & Hh & Hact & Heq)|[_ Heq]]; rewrite Heq in Hrun;
      injection Hrun as <- <-; [|done].
    by apply (heldAccounted_close holdId h st _ now (convertedSchedule h)).
  - unfold releaseExpiredHolds in Hrun.
    pose proof (heldAccounted_releaseEach (findExpiredHolds now st) now 0 st Hinv)
      as H.
    by rewrite Hrun in H.
Qed.

(** X2: if the [heldSeats] of every schedule equals the number of seats
    of its ACTIVE holds, it still does after any sequence of hold manager
    operations. *)
Theorem heldSeats_counts_active_holds (st st' : Store) :
  heldAccounted st → reachableFrom st st' → heldAccounted st'.
Proof.
  intros Hinv Hreach. induction Hreach as [|x y z Hstep _ IH]; [done|].
  apply IH. by eapply holdManagerStep_heldAccounted.
Qed.

(** ** Calls in flight *)




(** ** Edges of [holdSeats] *)

(** X4: for the category FLIGHT [holdSeats] never creates a hold: whatever
    the request and the database, the result is a failure and nothing is
    written.  The status query throws for flights as well. *)
Theorem flight_holds_never_granted params now (st : Store) :
  p_category params = FLIGHT →
  success (holdSeats params now st).1 = false
  ∧ (holdSeats params now st).2 = st
  ∧ getHoldQuotaStatus (p_scheduleId params) FLIGHT st
    = inl "Flight hold quota status not implemented yet".
Proof.
  intros Hc. destruct (holdSeats params now st) as [r st'] eqn:Hrun.
  apply holdSeats_cases in Hrun as [(? & _ & _ & ?)|(_ & Hbus & _)];
    [done | congruence].
Qed.

Lemma firstUnavailable_first m before seat after :
  (∀ x, x ∈ before → m !! x = Some AVAILABLE) →
  m !! seat ≠ Some AVAILABLE →
  firstUnavailable m (before ++ seat :: after) = Some seat.
Proof.
  intros Hbefore Hseat. induction before as [|a rest IH]; simpl.
  - by rewrite bool_decide_eq_false_2.
  - rewrite bool_decide_eq_true_2 by (apply Hbefore; by left).
    apply IH. intros x Hx. apply Hbefore. by right.
Qed.

(** X5: when the quota lets a bus request through and the schedule is
    ACTIVE, a request containing a seat that is not AVAILABLE fails with the
    message naming the first such seat in the order of the request, and
    nothing is written: seats listed before it are not marked. *)
Theorem first_unavailable_seat_reported params now (st : Store) s before seat after :
  p_category params = BUS →
  busSchedule st !! p_scheduleId params = Some s →
  BusSchedule.status s = ScheduleStatus.ACTIVE →
  Partner.holdQuotaEnabled (BusRoute.partner (BusSchedule.route s)) = true →
  BusSchedule.heldSeats s + len (p_seatNumbers params)
  ≤ calculateMaxHolds (BusRoute.totalSeats (BusSchedule.route s))
      (Some (quotaPercentageOf (BusRoute.partner (BusSchedule.route s)))) →
  p_seatNumbers params = before ++ seat :: after →
  (∀ x, x ∈ before → BusSchedule.seatStatus s !! x = Some AVAILABLE) →
  BusSchedule.seatStatus s !! seat ≠ Some AVAILABLE →
  holdSeats params now st
  = (mkResult false None (p_seatNumbers params) now
       ("Seat " +:+ seat +:+ " is not available"), st).
Proof.
  intros Hc Hs Hact Hen Hle Hsplit Hbefore Hseat.
  assert (Hfu : firstUnavailable (BusSchedule.seatStatus s) (p_seatNumbers params)
                = Some seat)
    by (rewrite Hsplit; by apply firstUnavailable_first).
  unfold holdSeats, holdSeatsCheck, isHoldQuotaAvailable. rewrite Hc, Hs.
  unfold quotaDecision. rewrite Hen. cbn [negb available].
  apply Z.leb_le in Hle. rewrite Hle. cbn [negb].
  unfold holdSeatsCommit, transaction, holdSeatsTx. rewrite Hc.
  unfold bind at 1, busSchedule_findUnique. rewrite Hs, Hact. simpl.
  by rewrite Hfu.
Qed.

Lemma holdAdd_nothing s :
  holdAdd (len []) (markSeats HELD [] (BusSchedule.seatStatus s)) s = s.
Proof. destruct s. unfold holdAdd, len. simpl. f_equal; lia. Qed.

(** X6: [holdSeats] accepts an empty list of seats.  For an ACTIVE bus
    schedule with the quota enabled and not already exceeded the call
    succeeds, creates an ACTIVE hold that covers no seat, and leaves every
    schedule row as it was. *)
Theorem empty_request_creates_empty_hold params now (st : Store) s :
  p_category params = BUS →
  p_seatNumbers params = [] →
  busSchedule st !! p_scheduleId params = Some s →
  BusSchedule.status s = ScheduleStatus.ACTIVE →
  Partner.holdQuotaEnabled (BusRoute.partner (BusSchedule.route s)) = true →
  BusSchedule.heldSeats s
  ≤ calculateMaxHolds (BusRoute.totalSeats (BusSchedule.route s))
      (Some (quotaPercentageOf (BusRoute.partner (BusSchedule.route s)))) →
  ∃ r st' id,
    holdSeats params now st = (r, st')
    ∧ success r = true ∧ holdId r = Some id
    ∧ seatHold st !! id = None
    ∧ (∃ h, seatHold st' !! id = Some h ∧
            SeatHold.status h = HoldStatus.ACTIVE ∧ SeatHold.seatNumbers h = [])
    ∧ busSchedule st' = busSchedule st.
Proof.
  intros Hc Hnil Hs Hact Hen Hle.
  assert (Hfu : firstUnavailable (BusSchedule.seatStatus s) (p_seatNumbers params) = None)
    by (by rewrite Hnil).
  assert (Hq : BusSchedule.heldSeats s + len (p_seatNumbers params)
               ≤ calculateMaxHolds (BusRoute.totalSeats (BusSchedule.route s))
                   (Some (quotaPercentageOf (BusRoute.partner (BusSchedule.route s)))))
    by (rewrite Hnil; change (len []) with 0; lia).
  eexists _, _, _. split; [by apply holdSeats_granted|].
  split; [done|]. split; [done|].
  split; [apply not_elem_of_dom, is_fresh|]. split.
  - eexists. split; [simpl; apply lookup_insert_eq|]. split; [done | exact Hnil].
  - simpl. unfold heldSchedule. rewrite Hnil, holdAdd_nothing.
    by apply insert_id.
Qed.

(** ** Repeated seats in a request *)

Lemma heldKeys_markSeats seats (m : gmap string string) :
  dom (filter (λ kv, kv.2 = HELD) (markSeats HELD seats m))
  = dom (filter (λ kv : string * string, kv.2 = HELD) m) ∪ list_to_set seats.
Proof.
  apply set_eq. intros k.
  rewrite elem_of_union, !elem_of_dom, elem_of_list_to_set. unfold is_Some.
  setoid_rewrite map_lookup_filter_Some. rewrite markSeats_lookup. simpl.
  case_bool_decide as Hin; split.
  - auto.
  - intros _. by exists HELD.
  - intros (v & Hv & ->). left. by exists HELD.
  - intros [(v & Hv & ->)|?]; [by exists HELD | done].
Qed.

Lemma heldOnMap_markSeats seats (m : gmap string string) :
  (∀ seat, seat ∈ seats → m !! seat = Some AVAILABLE) →
  heldOnMap (markSeats HELD seats m)
  = (heldOnMap m + size (list_to_set seats : gset string))%nat.
Proof.
  intros Hav. unfold heldOnMap.
  rewrite <- !size_dom, heldKeys_markSeats. apply size_union.
  intros k Hk Hseat. apply elem_of_list_to_set in Hseat.
  apply elem_of_dom in Hk as [v Hv].
  apply map_lookup_filter_Some in Hv as [Hv Hheld]. simpl in Hheld. subst v.
  rewrite (Hav k Hseat) in Hv. discriminate.
Qed.

Lemma size_list_to_set_le (l : list string) :
  (size (list_to_set l : gset string) ≤ length l)%nat.
Proof.
  induction l as [|a rest IH]; [by rewrite list_to_set_nil, size_empty|].
  rewrite list_to_set_cons. cbn [length].
  rewrite size_union_alt, size_singleton.
  pose proof (subseteq_size (list_to_set rest ∖ {[a]}) (list_to_set rest : gset string))
    as Hsub.
  assert (list_to_set rest ∖ {[a]} ⊆ (list_to_set rest : gset string)) by set_solver.
  specialize (Hsub ltac:(done)). lia.
Qed.

Lemma size_list_to_set_repeated (l : list string) :
  ¬ NoDup l → (size (list_to_set l : gset string) < length l)%nat.
Proof.
  induction l as [|a rest IH]; intros Hdup; [destruct Hdup; constructor|].
  rewrite list_to_set_cons. cbn [length].
  destruct (decide (a ∈ rest)) as [Hin|Hout].
  - assert (Heq : {[a]} ∪ list_to_set rest = (list_to_set rest : gset string))
      by set_solver.
    rewrite Heq. pose proof (size_list_to_set_le rest). lia.
  - rewrite size_union by set_solver. rewrite size_singleton.
    assert (¬ NoDup rest) by (intros Hnd; apply Hdup; by constructor).
    specialize (IH ltac:(done)). lia.
Qed.

(** X7: [holdSeats] does not look for repeated seats in a request.  On
    success [heldSeats] grows by the length of the list, while the number of
    seats marked HELD on the seat map grows by the number of different seats
    only; a request that repeats a seat therefore leaves [heldSeats] larger
    than the seat map accounts for, by the number of repetitions. *)
Theorem repeated_seats_counted_twice params now (st : Store) r st' :
  holdSeats params now st = (r, st') → success r = true →
  ∃ s s',
    busSchedule st !! p_scheduleId params = Some s
    ∧ busSchedule st' !! p_scheduleId params = Some s'
    ∧ BusSchedule.heldSeats s' = BusSchedule.heldSeats s + len (p_seatNumbers params)
    ∧ heldOnMap (BusSchedule.seatStatus s')
      = (heldOnMap (BusSchedule.seatStatus s)
         + size (list_to_set (p_seatNumbers params) : gset string))%nat
    ∧ (NoDup (p_seatNumbers params) →
       size (list_to_set (p_seatNumbers params) : gset string)
       = length (p_seatNumbers params))
    ∧ (¬ NoDup (p_seatNumbers params) →
       BusSchedule.heldSeats s' - Z.of_nat (heldOnMap (BusSchedule.seatStatus s'))
       > BusSchedule.heldSeats s - Z.of_nat (heldOnMap (BusSchedule.seatStatus s))).
Proof.
  intros Hrun Hok.
  apply holdSeats_cases in Hrun
    as [(Hf & _)|(_ & _ & s & Hs & _ & Hfu & _ & ->)]; [congruence|].
  exists s, (heldSchedule params s). split; [done|].
  split; [simpl; apply lookup_insert_eq|]. split; [done|].
  assert (Hmap := heldOnMap_markSeats (p_seatNumbers params) (BusSchedule.seatStatus s)
                    (proj1 (firstUnavailable_None _ _) Hfu)).
  split; [exact Hmap|]. split; [apply size_list_to_set|].
  intros Hdup. apply size_list_to_set_repeated in Hdup.
  simpl. rewrite Hmap. unfold len. lia.
Qed.

(** ** Holding and releasing *)

Lemma holdSeats_granted_inv params now st r st' :
  holdSeats params now st = (r, st') → success r = true →
  ∃ s, p_category params = BUS
       ∧ busSchedule st !! p_scheduleId params = Some s
       ∧ BusSchedule.status s = ScheduleStatus.ACTIVE
       ∧ Partner.holdQuotaEnabled (BusRoute.partner (BusSchedule.route s)) = true
       ∧ firstUnavailable (BusSchedule.seatStatus s) (p_seatNumbers params) = None
       ∧ BusSchedule.heldSeats s + len (p_seatNumbers params)
         ≤ calculateMaxHolds (BusRoute.totalSeats (BusSchedule.route s))
             (Some (quotaPercentageOf (BusRoute.partner (BusSchedule.route s)))).
Proof.
  intros Hrun Hok. pose proof Hrun as Hcases.
  apply holdSeats_cases in Hcases
    as [(Hf & _)|(_ & Hc & s & Hs & Hact & Hfu & _)]; [congruence|].
  exists s. repeat (split; [done|]).
  revert Hrun. unfold holdSeats, holdSeatsCheck, isHoldQuotaAvailable.
  rewrite Hc, Hs. unfold quotaDecision.
  destruct (Partner.holdQuotaEnabled _); cbn [negb available].
  - destruct (Z.leb_spec (BusSchedule.heldSeats s + len (p_seatNumbers params))
                (calculateMaxHolds (BusRoute.totalSeats (BusSchedule.route s))
                   (Some (quotaPercentageOf (BusRoute.partner (BusSchedule.route s))))))
      as [Hle|Hgt]; cbn [negb]; [done|].
    intros [= <- _]. discriminate.
  - intros [= <- _]. discriminate.
Qed.

Lemma releaseSeats_markSeats seats (m : gmap string string) :
  (∀ seat, seat ∈ seats → m !! seat = Some AVAILABLE) →
  releaseSeats seats (markSeats HELD seats m) = m.
Proof.
  intros Hav. apply map_eq. intros k.
  rewrite releaseSeats_lookup, markSeats_lookup.
  destruct (decide (k ∈ seats)) as [Hin|Hout].
  - rewrite (bool_decide_eq_true_2 _ Hin).
    rewrite bool_decide_eq_true_2 by done. by rewrite Hav.
  - rewrite (bool_decide_eq_false_2 _ Hout).
    rewrite bool_decide_eq_false_2; [done | by intros [? _]].
Qed.

Lemma releasedSchedule_heldSchedule params holdExpiry s :
  firstUnavailable (BusSchedule.seatStatus s) (p_seatNumbers params) = None →
  releasedSchedule (newHold params holdExpiry) (heldSchedule params s) = s.
Proof.
  intros Hfu. unfold releasedSchedule, heldSchedule, releaseSub, holdAdd. simpl.
  rewrite releaseSeats_markSeats by (by apply firstUnavailable_None).
  destruct s. simpl. f_equal; lia.
Qed.

(** X8: releasing the hold that a successful [holdSeats] created puts
    every schedule row back exactly as it was before the hold (seat map and
    counters), whatever the reason and the time of the release, and the same
    request then succeeds again. *)
Theorem hold_then_release_restores params now (st : Store) r st1 id reason later :
  holdSeats params now st = (r, st1) → success r = true → holdId r = Some id →
  ∃ st2,
    releaseHold id reason later st1 = (true, st2)
    ∧ busSchedule st2 = busSchedule st
    ∧ flightSchedule st2 = flightSchedule st
    ∧ (∀ id', id' ≠ id → seatHold st2 !! id' = seatHold st !! id')
    ∧ success (holdSeats params later st2).1 = true.
Proof.
  intros Hrun Hok Hid.
  destruct (holdSeats_granted_inv _ _ _ _ _ Hrun Hok)
    as (s & Hc & Hs & Hact & Hen & Hfu & Hle).
  rewrite (holdSeats_granted params now st s Hc Hs Hact Hen Hfu Hle) in Hrun.
  injection Hrun as <- <-. simpl in Hid. injection Hid as <-.
  set (e := addMinutes now _).
  eexists. split.
  { apply (releaseHold_active _ _ _ _ (newHold params e));
      [simpl; apply lookup_insert_eq | done]. }
  assert (Hbus : busSchedule (releasedStore (fresh (dom (seatHold st))) reason later
                                (newHold params e) (heldStore params e s st))
                 = busSchedule st).
  { unfold releasedStore. simpl. rewrite lookup_insert_eq.
    rewrite insert_insert_eq, releasedSchedule_heldSchedule by done.
    by apply insert_id. }
  split; [exact Hbus|]. split; [done|]. split.
  - intros id' Hne. simpl. by rewrite !lookup_insert_ne.
  - rewrite (holdSeats_granted params later _ s); [done | done | | done | done | done | done].
    by rewrite Hbus.
Qed.

(** ** Holds that are closed stay closed *)

Lemma convertHoldToBooking_seatHold_other holdId bookingId now st id :
  id ≠ holdId →
  seatHold (convertHoldToBooking holdId bookingId now st).2 !! id = seatHold st !! id.
Proof.
  intros Hne.
  destruct (convertHoldToBooking_cases holdId bookingId now st)
    as [(h & _ & _ & ->)|[_ ->]]; simpl; [by rewrite lookup_insert_ne | done].
Qed.

Lemma holdManagerStep_keeps_closed st st' id h :
  seatHold st !! id = Some h → SeatHold.status h ≠ HoldStatus.ACTIVE →
  holdManagerStep st st' → seatHold st' !! id = Some h.
Proof.
  intros Hh Hna Hstep.
  assert (Hfresh : fresh (dom (seatHold st)) ≠ id).
  { intros <-. pose proof (is_fresh (dom (seatHold st))) as Hf.
    apply Hf, elem_of_dom. eauto. }
  destruct Hstep as
    [params now st r st' Hrun | params holdExpiry now st r st' Hrun
    | holdId reason now st ok st' Hrun
    | holdId bookingId now st ok st' Hrun | now st n st' Hrun].
  - apply holdSeats_cases in Hrun
      as [(_ & _ & _ & ->)|(_ & _ & s & _ & _ & _ & _ & ->)]; [done|].
    simpl. by rewrite lookup_insert_ne.
  - apply holdSeatsCommit_cases in Hrun
      as [(_ & _ & _ & ->)|(_ & _ & s & _ & _ & _ & _ & ->)]; [done|].
    simpl. by rewrite lookup_insert_ne.
  - destruct (decide (holdId = id)) as [->|Hne].
    + rewrite releaseHold_not_active in Hrun; [by injection Hrun as <- <-|].
      rewrite Hh. by intros ? [= <-].
    + pose proof (releaseHold_seatHold_other holdId reason now st id) as Hother.
      rewrite Hrun in Hother. simpl in Hother. rewrite Hother; [done | congruence].
  - destruct (decide (holdId = id)) as [->|Hne].
    + rewrite convertHoldToBooking_not_active in Hrun; [by injection Hrun as <- <-|].
      rewrite Hh. by intros ? [= <-].
    + pose proof (convertHoldToBooking_seatHold_other holdId bookingId now st id)
        as Hother.
      rewrite Hrun in Hother. simpl in Hother. rewrite Hother; [done | congruence].
  - unfold releaseExpiredHolds in Hrun.
    pose proof (releaseEach_keeps_closed (findExpiredHolds now st) now 0 st id h Hh Hna)
      as Hkeep.
    by rewrite Hrun in Hkeep.
Qed.

(** X9: a hold that has left the status ACTIVE is final: no sequence of
    hold manager operations changes its record again (its status, its
    [releasedAt], its seats), and in particular none makes it ACTIVE. *)
Theorem closed_hold_never_changes (st st' : Store) id h :
  seatHold st !! id = Some h → SeatHold.status h ≠ HoldStatus.ACTIVE →
  reachableFrom st st' → seatHold st' !! id = Some h.
Proof.
  intros Hh Hna Hreach. induction Hreach as [|x y z Hstep _ IH]; [done|].
  apply IH. by eapply holdManagerStep_keeps_closed.
Qed.

(** ** Sweeping twice *)

Lemma findExpiredHolds_none now st :
  (∀ id h, seatHold st !! id = Some h →
           ¬ (SeatHold.status h = HoldStatus.ACTIVE ∧ SeatHold.holdExpiry h < now)) →
  findExpiredHolds now st = [].
Proof.
  intros Hnone. destruct (findExpiredHolds now st) as [|id rest] eqn:Hl; [done|].
  assert (Hin : id ∈ findExpiredHolds now st) by (rewrite Hl; by left).
  apply findExpiredHolds_spec in Hin as (h & Hh & Hact & Hexp).
  by destruct (Hnone id h Hh).
Qed.

(** X10: the sweep is idempotent.  After [releaseExpiredHolds] has run
    at some time, running it again at that time or at any earlier one
    releases nothing, returns 0 and leaves the database as it is; and a sweep
    of a database without an expired ACTIVE hold does the same. *)
Theorem sweep_twice_is_sweep_once now earlier (st : Store) :
  earlier ≤ now →
  releaseExpiredHolds earlier (releaseExpiredHolds now st).2
  = (0, (releaseExpiredHolds now st).2)
  ∧ ((∀ id h, seatHold st !! id = Some h →
              ¬ (SeatHold.status h = HoldStatus.ACTIVE ∧
                 SeatHold.holdExpiry h < now)) →
     releaseExpiredHolds now st = (0, st)).
Proof.
  intros Hle. split.
  - unfold releaseExpiredHolds at 1. rewrite findExpiredHolds_none; [done|].
    intros id h1 Hh1 [Hact Hexp]. unfold releaseExpiredHolds in Hh1.
    destruct (releaseEach_distinct_active (findExpiredHolds now st) now 0 st
                (findExpiredHolds_NoDup now st))
      as (_ & Hholds & _).
    { intros id' (h & Hh & Hact' & _)%findExpiredHolds_spec. eauto. }
    rewrite Hholds in Hh1. case_bool_decide as Hin.
    + destruct (seatHold st !! id) as [h|]; [|done].
      injection Hh1 as <-. done.
    + apply Hin, findExpiredHolds_spec. exists h1. split; [done|]. split; [done | lia].
  - intros Hnone. unfold releaseExpiredHolds.
    by rewrite findExpiredHolds_none.
Qed.

(** ** The quota status and the quota check *)

(** X11: for a bus schedule of a partner with the hold quota enabled,
    [getHoldQuotaStatus] and [isHoldQuotaAvailable] agree: they report the
    same maximum and the same seats held, [availableHolds] is never negative,
    and a request for [n >= 1] seats passes the check exactly when [n] is at
    most [availableHolds]. *)
Theorem status_agrees_with_check (st : Store) sid s n :
  busSchedule st !! sid = Some s →
  Partner.holdQuotaEnabled (BusRoute.partner (BusSchedule.route s)) = true →
  ∃ qs q,
    getHoldQuotaStatus sid BUS st = inr qs
    ∧ isHoldQuotaAvailable sid n BUS st = inr q
    ∧ maxAllowed q = qs_maxHoldsAllowed qs
    ∧ currentHeld q = qs_currentHolds qs
    ∧ 0 ≤ qs_availableHolds qs
    ∧ (1 ≤ n → (available q = true ↔ n ≤ qs_availableHolds qs)).
Proof.
  intros Hs Hen. unfold getHoldQuotaStatus, isHoldQuotaAvailable. rewrite Hs.
  unfold quotaDecision. rewrite Hen. cbn [negb].
  eexists _, _. split; [done|]. split; [done|]. simpl.
  split; [done|]. split; [done|]. split; [lia|].
  intros Hn. rewrite Z.leb_le. lia.
Qed.

(** X12: [getHoldQuotaStatus] does not take [holdQuotaEnabled] into
    account when it computes the quota.  For a partner with holds switched
    off it still reports the computed maximum and the room left under it,
    while the quota check reports a maximum of 0 and every [holdSeats] on the
    schedule is refused. *)
Theorem status_ignores_disabled_partner (st : Store) sid s :
  busSchedule st !! sid = Some s →
  Partner.holdQuotaEnabled (BusRoute.partner (BusSchedule.route s)) = false →
  let maxHolds :=
    calculateMaxHolds (BusRoute.totalSeats (BusSchedule.route s))
      (Some (quotaPercentageOf (BusRoute.partner (BusSchedule.route s)))) in
  (∃ qs, getHoldQuotaStatus sid BUS st = inr qs
         ∧ qs_holdQuotaEnabled qs = false
         ∧ qs_maxHoldsAllowed qs = maxHolds
         ∧ qs_availableHolds qs = Z.max 0 (maxHolds - BusSchedule.heldSeats s))
  ∧ (∀ n, isHoldQuotaAvailable sid n BUS st = inr (mkQuota false 0 0))
  ∧ (∀ params now,
       p_category params = BUS → p_scheduleId params = sid →
       success (holdSeats params now st).1 = false
       ∧ (holdSeats params now st).2 = st).
Proof.
  intros Hs Hoff maxHolds. split; [|split].
  - unfold getHoldQuotaStatus. rewrite Hs. eexists. split; [done|].
    simpl. by rewrite Hoff.
  - intros n. unfold isHoldQuotaAvailable. rewrite Hs.
    unfold quotaDecision. by rewrite Hoff.
  - intros params now Hc <-.
    unfold holdSeats, holdSeatsCheck, isHoldQuotaAvailable. rewrite Hc, Hs.
    unfold quotaDecision. by rewrite Hoff.
Qed.

(** ** More on the quota calculator *)

Lemma Qfloor_div100_le (a b : Q) :
  (a <= b)%Q → Qfloor (a / 100)%Q ≤ Qfloor (b / 100)%Q.
Proof.
  intros Hab. apply Qfloor_resp_le. unfold Qdiv.
  apply Qmult_le_compat_r; [done|]. by vm_compute.
Qed.

(** X13: [calculateMaxHolds] gives 0 for 0 percent and all the seats
    for 100 percent, it grows with the percentage (for a non-negative number
    of seats) and with the number of seats (for a non-negative percentage),
    and an omitted percentage is the configured default. *)
Theorem calculateMaxHolds_endpoints_monotone :
  (∀ totalSeats, calculateMaxHolds totalSeats (Some 0%Q) = 0)
  ∧ (∀ totalSeats, calculateMaxHolds totalSeats (Some 100%Q) = totalSeats)
  ∧ (∀ totalSeats pct pct',
       0 ≤ totalSeats → (pct <= pct')%Q →
       calculateMaxHolds totalSeats (Some pct)
       ≤ calculateMaxHolds totalSeats (Some pct'))
  ∧ (∀ totalSeats totalSeats' pct,
       (0 <= pct)%Q → totalSeats ≤ totalSeats' →
       calculateMaxHolds totalSeats (Some pct)
       ≤ calculateMaxHolds totalSeats' (Some pct))
  ∧ (∀ totalSeats,
       calculateMaxHolds totalSeats None
       = calculateMaxHolds totalSeats (Some DEFAULT_HOLD_QUOTA_PERCENTAGE)).
Proof.
  split; [|split; [|split; [|split]]].
  - intros t. unfold calculateMaxHolds. cbn [default from_option id].
    rewrite <- (Qfloor_Z 0). apply Qfloor_comp.
    rewrite Qmult_0_r. reflexivity.
  - intros t. unfold calculateMaxHolds. cbn [default from_option id].
    rewrite <- (Qfloor_Z t) at 2. apply Qfloor_comp.
    unfold Qdiv. rewrite <- Qmult_assoc, (Qmult_inv_r 100) by discriminate.
    apply Qmult_1_r.
  - intros t pct pct' Ht Hp. unfold calculateMaxHolds. cbn [default from_option id].
    apply Qfloor_div100_le.
    rewrite !(Qmult_comm (inject_Z t)). apply Qmult_le_compat_r; [done|].
    change 0%Q with (inject_Z 0). by rewrite <- Zle_Qle.
  - intros t t' pct Hp Ht. unfold calculateMaxHolds. cbn [default from_option id].
    apply Qfloor_div100_le. apply Qmult_le_compat_r; [|done].
    by rewrite <- Zle_Qle.
  - done.
Qed.

(** ** Pricing *)



(** ** Refunds *)

Lemma Math_max_spec (a b : Q) :
  (a <= Math_max a b)%Q ∧ (b <= Math_max a b)%Q
  ∧ (Math_max a b = a ∨ Math_max a b = b).
Proof.
  unfold Math_max. destruct (Qle_bool a b) eqn:Hab.
  - apply Qle_bool_iff in Hab. split; [exact Hab|]. split; [lra | right; reflexivity].
  - assert (¬ (a <= b)%Q) by (rewrite <- Qle_bool_iff, Hab; discriminate).
    split; [lra|]. split; [lra | left; reflexivity].
Qed.

Lemma hours_within (elapsed hours : Z) :
  Qle_bool (inject_Z elapsed / inject_Z (1000 * 60 * 60)) (inject_Z hours) = true
  ↔ elapsed ≤ hours * 3600000.
Proof.
  rewrite Qle_bool_iff. change (1000 * 60 * 60) with 3600000.
  assert (Hh : (inject_Z hours == inject_Z (hours * 3600000) / inject_Z 3600000)%Q).
  { rewrite inject_Z_mult. field. }
  rewrite Hh. unfold Qdiv.
  split; intros H.
  - apply Qmult_le_r in H; [|reflexivity]. rewrite Zle_Qle. exact H.
  - apply Qmult_le_r; [reflexivity|]. rewrite <- Zle_Qle. exact H.
Qed.

(** X15: the refund of an existing booking.  The amount refunded is never
    negative and never less than what was paid minus the charges; inside the
    free cancellation window (the hours of the fare rules, or 24 when they
    are missing or 0) nothing is charged; and when the amount paid and the
    fixed charge are not negative, the charges are not negative and the
    refund does not exceed the amount paid. *)
Theorem refund_is_bounded bookingId now db b :
  booking db !! bookingId = Some b →
  ∃ r, calculateCancellationRefund bookingId now db = inr r
    ∧ eligibleRefundAmount r = numberOf (Booking.paidAmount (Booking.payment b))
    ∧ (0 <= finalRefundAmount r)%Q
    ∧ (eligibleRefundAmount r - cancellationCharges r <= finalRefundAmount r)%Q
    ∧ (now - Booking.createdAt b
       ≤ orDefaultZ (fareRulesOf b db ≫= FareRules.cancellationFreeWithinHours) 24
         * 3600000 →
       cancellationCharges r = 0%Q)
    ∧ ((0 <= eligibleRefundAmount r)%Q →
       (0 <= numberOf (fareRulesOf b db ≫= FareRules.cancellationChargeFixed))%Q →
       (0 <= cancellationCharges r)%Q
       ∧ (finalRefundAmount r <= eligibleRefundAmount r)%Q).
Proof.
  intros Hb. unfold calculateCancellationRefund. rewrite Hb. cbv zeta.
  eexists. split; [reflexivity|].
  cbn [eligibleRefundAmount cancellationCharges finalRefundAmount].
  set (paid := numberOf (Booking.paidAmount (Booking.payment b))).
  set (free := orDefaultZ _ 24).
  set (pct := numberOf (_ ≫= FareRules.cancellationChargePercentage)).
  set (fixed := numberOf (_ ≫= FareRules.cancellationChargeFixed)).
  pose proof (hours_within (now - Booking.createdAt b) free) as Hwin.
  set (charges := if Qle_bool _ _ then 0%Q else _).
  destruct (Math_max_spec 0 (paid - charges)) as (H0 & H1 & _).
  split; [reflexivity|]. split; [exact H0|]. split; [exact H1|].
  split.
  - intros Hin. apply Hwin in Hin. subst charges. rewrite Hin. reflexivity.
  - intros Hpaid Hfixed.
    assert (Hc : (0 <= charges)%Q).
    { subst charges. destruct (Qle_bool _ _); [lra|].
      destruct (Math_max_spec (paid * pct / 100) fixed) as (_ & Hf & _). lra. }
    split; [exact Hc|].
    destruct (Math_max_spec 0 (paid - charges)) as (_ & _ & [Heq | Heq]);
      rewrite Heq; lra.
Qed.

(** X16: only flights have fare rules.  A booking that is not on a flight
    schedule (every bus and hotel booking) is never charged for a
    cancellation, however late: the refund is the whole amount paid, or 0
    when nothing was paid, and it takes the default 7 days. *)
Theorem bus_and_hotel_refunds_are_full bookingId now db b :
  booking db !! bookingId = Some b →
  Booking.flightScheduleId (Booking.target b) = None →
  let paid := numberOf (Booking.paidAmount (Booking.payment b)) in
  ∃ r, calculateCancellationRefund bookingId now db = inr r
    ∧ eligibleRefundAmount r = paid
    ∧ cancellationCharges r = 0%Q
    ∧ ((0 <= paid)%Q → (finalRefundAmount r == paid)%Q)
    ∧ ((paid <= 0)%Q → (finalRefundAmount r == 0)%Q)
    ∧ refundProcessingDays r = 7.
Proof.
  intros Hb Hnone paid. unfold calculateCancellationRefund. rewrite Hb. cbv zeta.
  unfold fareRulesOf. rewrite Hnone. cbn [mbind option_bind orDefaultZ numberOf default].
  fold paid. clearbody paid.
  assert (Hc : (if Qle_bool (inject_Z (now - Booking.createdAt b)
                             / inject_Z (1000 * 60 * 60)) (inject_Z 24)
                then 0%Q else Math_max (paid * 0 / 100) 0) = 0%Q).
  { destruct (Qle_bool _ (inject_Z 24)); [reflexivity|].
    unfold Math_max.
    assert (Hz : Qle_bool (paid * 0 / 100) 0 = true).
    { apply Qle_bool_iff.
      assert (H : (paid * 0 / 100 == 0)%Q) by field.
      rewrite H. apply Qle_refl. }
    rewrite Hz. reflexivity. }
  eexists. split; [reflexivity|].
  cbn [eligibleRefundAmount cancellationCharges finalRefundAmount refundProcessingDays].
  rewrite Hc.
  split; [reflexivity|]. split; [reflexivity|].
  destruct (Math_max_spec 0 (paid - 0)) as (H0 & H1 & Hor).
  split; [|split; [|reflexivity]]; intros Hp;
    destruct Hor as [Heq | Heq]; rewrite Heq in *; lra.
Qed.

(** ** Bus bookings *)

Lemma setInventory_same db : setInventory (inventory db) db = db.
Proof. by destruct db. Qed.

(** How a call of [createBusBooking] can end. *)
Lemma createBusBooking_cases userId data env db res db' :
  createBusBooking userId data env db = (res, db') →
  (∃ e, res = inl e ∧ db' = db)
  ∨ (∃ sid s first rest st',
       let id := fresh (dom (booking db)) in
       let row := busBookingRow userId data env db sid first in
       truthyString (rq_busScheduleId data) = Some sid
       ∧ busSchedule (inventory db) !! sid = Some s
       ∧ BusSchedule.status s = ScheduleStatus.ACTIVE
       ∧ Z.of_nat (length (rq_passengers data)) ≤ BusSchedule.availableSeats s
       ∧ firstUnavailable (BusSchedule.seatStatus s)
           (requestedSeatsOf (rq_passengers data)) = None
       ∧ rq_passengers data = first :: rest
       ∧ res = inr (responseOf id row)
       ∧ db' = withBooking id row (busPassengerRow id <$> rq_passengers data) st' db
       ∧ ((requestedSeatsOf (rq_passengers data) = [] ∧ st' = inventory db)
          ∨ (requestedSeatsOf (rq_passengers data) ≠ [] ∧
             ∃ r, holdSeats (bookingHold userId sid data) (env_now env) (inventory db)
                  = (r, st') ∧ success r = true))).
Proof.
  unfold createBusBooking.
  destruct (truthyString (rq_busScheduleId data)) as [sid|] eqn:Hsid.
  2:{ intros [= <- <-]. left. eauto. }
  unfold createBusBookingTx. unfold bindB at 1, onInventory, busSchedule_findUnique.
  rewrite setInventory_same.
  destruct (busSchedule (inventory db) !! sid) as [s|] eqn:Hs.
  2:{ unfold throwB. intros [= <- <-]. left. rewrite setInventory_same. eauto. }
  destruct (String.eqb_spec (BusSchedule.status s) "ACTIVE") as [Hact|Hact]; cbn [negb].
  2:{ unfold throwB. intros [= <- <-]. left. rewrite setInventory_same. eauto. }
  destruct (BusSchedule.availableSeats s <? Z.of_nat (length (rq_passengers data)))
    eqn:Hav.
  { unfold throwB. intros [= <- <-]. left. rewrite setInventory_same. eauto. }
  apply Z.ltb_ge in Hav.
  destruct (firstUnavailable _ _) as [seat|] eqn:Hfu.
  { unfold throwB. intros [= <- <-]. left. rewrite setInventory_same. eauto. }
  unfold bindB at 1, readBusBaseFare.
  destruct (rq_passengers data) as [|first rest] eqn:Hps.
  { unfold throwB. intros [= <- <-]. left. rewrite setInventory_same. eauto. }
  unfold bindB at 1, booking_create. cbv zeta. cbn [fst snd].
  unfold bindB at 1, bookingPassenger_createMany.
  cbn [inventory busBaseFare flightExtra roomInventory booking bookingPassenger
       cancellationRequest].
  destruct (requestedSeatsOf (first :: rest)) as [|seat0 seats] eqn:Hreq.
  { unfold bindB, retB. intros [= <- <-]. right.
    exists sid, s, first, rest, (inventory db). cbv zeta.
    unfold withBooking, busBookingRow. rewrite !Hps.
    repeat (split; [done|]). left; done. }
  unfold bindB at 1. unfold bindB at 1, holdSeatsGlobally.
  cbn [inventory].
  destruct (holdSeats _ _ (inventory db)) as [r st'] eqn:Hhold.
  destruct (success r) eqn:Hok; cbn [negb].
  - unfold retB, setInventory.
    cbn [inventory busBaseFare flightExtra roomInventory booking bookingPassenger
         cancellationRequest].
    intros [= <- <-]. right.
    exists sid, s, first, rest, st'. cbv zeta.
    unfold withBooking, busBookingRow, bookingHold. rewrite !Hps, !Hreq.
    repeat (split; [done|]). right. split; [done|]. by exists r.
  - unfold throwB, setInventory. cbn [inventory].
    intros [= <- <-]. left.
    apply holdSeats_cases in Hhold as [(_ & _ & _ & ->) | (Hyes & _)];
      [|congruence].
    eexists. split; [reflexivity|]. by destruct db.
Qed.

(** X17: a call of [createBusBooking] that throws writes nothing at all:
    the booking and passenger rows of the callback are rolled back, and the
    hold manager, which commits on its own, has written nothing either. *)
Theorem failed_bus_booking_writes_nothing userId data env (db : Database) e db' :
  createBusBooking userId data env db = (inl e, db') → db' = db.
Proof.
  intros Hrun. apply createBusBooking_cases in Hrun as [(e' & _ & ->) | Hok]; [done|].
  destruct Hok as (? & ? & ? & ? & ? & Hok). cbv zeta in Hok.
  destruct Hok as (_ & _ & _ & _ & _ & _ & [=] & _).
Qed.


(** X19: a bus booking without seat numbers reserves nothing.  For an
    ACTIVE schedule with enough [availableSeats], a request whose passengers
    name no seat succeeds whatever the partner's hold settings are, and the
    inventory is left exactly as it was: no seat is marked, no hold is
    created and [availableSeats] is not reduced, so the same request succeeds
    again. *)
Theorem seatless_bus_booking_reserves_nothing userId data env env'
    (db : Database) sid s first rest :
  truthyString (rq_busScheduleId data) = Some sid →
  busSchedule (inventory db) !! sid = Some s →
  BusSchedule.status s = ScheduleStatus.ACTIVE →
  rq_passengers data = first :: rest →
  requestedSeatsOf (rq_passengers data) = [] →
  Z.of_nat (length (rq_passengers data)) ≤ BusSchedule.availableSeats s →
  ∃ r db' r2 db2,
    createBusBooking userId data env db = (inr r, db')
    ∧ inventory db' = inventory db
    ∧ length (bookingPassenger db')
      = (length (bookingPassenger db) + length (rq_passengers data))%nat
    ∧ createBusBooking userId data env' db' = (inr r2, db2)
    ∧ inventory db2 = inventory db
    ∧ rs_id r2 ≠ rs_id r.
Proof.
  intros Hsid Hs Hact Hps Hreq Hav.
  assert (Hrun : ∀ env0 db0,
    inventory db0 = inventory db →
    createBusBooking userId data env0 db0
    = (inr (responseOf (fresh (dom (booking db0)))
              (busBookingRow userId data env0 db0 sid first)),
       withBooking (fresh (dom (booking db0)))
         (busBookingRow userId data env0 db0 sid first)
         (busPassengerRow (fresh (dom (booking db0))) <$> rq_passengers data)
         (inventory db0) db0)).
  { intros env0 db0 Hinv. unfold createBusBooking. rewrite Hsid.
    unfold createBusBookingTx. unfold bindB at 1, onInventory, busSchedule_findUnique.
    rewrite setInventory_same, Hinv, Hs, Hact. cbn [String.eqb negb].
    change (String.eqb ScheduleStatus.ACTIVE "ACTIVE") with true. cbn [negb].
    apply Z.ltb_ge in Hav. rewrite Hav, Hreq. cbn [firstUnavailable].
    unfold bindB at 1, readBusBaseFare. unfold busBookingRow. rewrite Hps.
    unfold bindB, booking_create, bookingPassenger_createMany, retB, withBooking.
    cbn. rewrite Hinv. reflexivity. }
  eexists _, _, _, _.
  split; [apply Hrun; reflexivity|]. split; [reflexivity|].
  split; [unfold withBooking; cbn [bookingPassenger];
          rewrite length_app, length_fmap; reflexivity|].
  split; [apply Hrun; reflexivity|]. split; [reflexivity|].
  cbn [rs_id responseOf withBooking booking].
  intros Heq.
  pose proof (is_fresh (dom (<[fresh (dom (booking db)) :=
                 busBookingRow userId data env db sid first]> (booking db)))) as Hf.
  apply Hf. rewrite Heq. set_solver.
Qed.

(** ** Payment *)

Ltac confirm_unfold :=
  unfold confirmBooking, bindB, booking_update, readInventory, convertHoldGlobally,
    roomInventory_update, retB, setInventory, setBooking;
  cbn [inventory busBaseFare flightExtra roomInventory booking bookingPassenger
       cancellationRequest confirmRow Booking.target Booking.userId fst snd].

Lemma confirmBooking_bus firstRow id details now db b sid :
  booking db !! id = Some b →
  Booking.category (Booking.target b) = BookingCategory.BUS →
  truthyString (Booking.busScheduleId (Booking.target b)) = Some sid →
  confirmBooking firstRow id details now db
  = (inr (responseOf id (confirmRow details now b)),
     setInventory
       (match firstRow (activeHoldsOfUser sid (Booking.userId b) (inventory db)) with
        | Some hold => (convertHoldToBooking hold.1 id now (inventory db)).2
        | None => inventory db
        end) (setBooking id (confirmRow details now b) db)).
Proof.
  intros Hb Hcat Hsid. confirm_unfold. rewrite Hb.
  cbn [inventory busBaseFare flightExtra roomInventory booking bookingPassenger
       cancellationRequest confirmRow Booking.target Booking.userId fst snd].
  rewrite Hcat, Hsid.
  destruct (firstRow _) as [hold|]; [|reflexivity].
  destruct (convertHoldToBooking _ _ _ _) as [ok st']. reflexivity.
Qed.

Lemma confirmBooking_inventory firstRow id details now db :
  let db' := (confirmBooking firstRow id details now db).2 in
  inventory db' = inventory db
  ∨ ∃ holdId ok, convertHoldToBooking holdId id now (inventory db) = (ok, inventory db').
Proof.
  cbv zeta. confirm_unfold.
  destruct (booking db !! id) as [b|]; [|left; reflexivity].
  cbn [inventory busBaseFare flightExtra roomInventory booking bookingPassenger
       cancellationRequest confirmRow Booking.target Booking.userId fst snd].
  destruct (Booking.category (Booking.target b)),
           (truthyString (Booking.busScheduleId (Booking.target b))) as [sid|];
    try (destruct (truthyString (Booking.roomInventoryId (Booking.target b)));
         cbn [roomInventory];
         try destruct (roomInventory db !! _); left; reflexivity).
  destruct (firstRow _) as [hold|]; [|left; reflexivity].
  destruct (convertHoldToBooking _ _ _ _) as [ok st'] eqn:Hconv.
  right. exists hold.1, ok. exact Hconv.
Qed.

Lemma createBusBooking_inventory userId data env db :
  let db' := (createBusBooking userId data env db).2 in
  inventory db' = inventory db
  ∨ ∃ params r, holdSeats params (env_now env) (inventory db) = (r, inventory db').
Proof.
  cbv zeta.
  destruct (createBusBooking userId data env db) as [res db'] eqn:Hrun. cbn [snd].
  apply createBusBooking_cases in Hrun as [(e & _ & ->) | Hok]; [by left|].
  destruct Hok as (sid & s & first & rest & st' & Hok). cbv zeta in Hok.
  destruct Hok as (_ & _ & _ & _ & _ & _ & _ & -> & Hinv).
  unfold withBooking. cbn [inventory].
  destruct Hinv as [[_ ->] | (_ & r & Hhold & _)]; [by left|].
  right. eauto.
Qed.

(** X20: creating a bus booking and confirming a payment touch the seat
    inventory only through one operation of the hold manager.  So after
    either of them, whether it returns or throws, the counters of every
    schedule still add up to its total seats, every seat of an ACTIVE hold is
    still HELD and covered by one hold only, and [heldSeats] still counts the
    seats of the ACTIVE holds. *)
Theorem booking_and_payment_keep_inventory_consistent firstRow (db db' : Database) :
  countsInvariant (inventory db) →
  holdsExclusive (inventory db) →
  heldAccounted (inventory db) →
  (∃ userId data env, db' = (createBusBooking userId data env db).2)
  ∨ (∃ id details now, db' = (confirmBooking firstRow id details now db).2) →
  countsInvariant (inventory db')
  ∧ holdsExclusive (inventory db')
  ∧ heldAccounted (inventory db').
Proof.
  intros Hc He Ha Hop.
  assert (Hstep : inventory db' = inventory db
                  ∨ holdManagerStep (inventory db) (inventory db')).
  { destruct Hop as [(userId & data & env & ->) | (id & details & now & ->)].
    - destruct (createBusBooking_inventory userId data env db)
        as [Hsame | (params & r & Hhold)]; [by left|].
      right. eapply step_holdSeats, Hhold.
    - destruct (confirmBooking_inventory firstRow id details now db)
        as [Hsame | (holdId & ok & Hconv)]; [by left|].
      right. eapply step_convertHoldToBooking, Hconv. }
  destruct Hstep as [-> | Hstep]; [done|].
  split; [eapply holdManagerStep_countsInvariant; eauto|].
  split; [eapply holdManagerStep_holdsExclusive; eauto|].
  eapply holdManagerStep_heldAccounted; eauto.
Qed.

(** X21: [confirmBooking] does not look at the booking it confirms.  Any
    existing booking, a CANCELLED or COMPLETED one included, becomes
    CONFIRMED with the payment CAPTURED and the amount passed in recorded as
    paid, whatever the total of the booking; the row stays so when the call
    throws afterwards, as it does for a hotel booking whose room row is
    missing, because the function runs outside of a transaction.  For an id
    that is not in the table the call throws and writes nothing. *)
Theorem payment_confirms_any_booking firstRow id details now (db : Database) :
  let out := confirmBooking firstRow id details now db in
  (∀ b, booking db !! id = Some b →
        ∃ b', booking out.2 !! id = Some b'
          ∧ Booking.status b' = BookingStatus.CONFIRMED
          ∧ Booking.paidAmount (Booking.payment b') = Some (pd_paidAmount details)
          ∧ Booking.totalAmount (Booking.amounts b') = Booking.totalAmount (Booking.amounts b)
          ∧ (∀ rid, Booking.category (Booking.target b) = BookingCategory.HOTEL →
                    truthyString (Booking.roomInventoryId (Booking.target b)) = Some rid →
                    roomInventory db !! rid = None →
                    out.1 = inl "Record to update not found.")
          ∧ (Booking.category (Booking.target b) ≠ BookingCategory.HOTEL →
             out.1 = inr (responseOf id b')))
  ∧ (booking db !! id = None → out = (inl "Record to update not found.", db)).
Proof.
  cbv zeta. split.
  - intros b Hb. exists (confirmRow details now b).
    confirm_unfold. rewrite Hb.
    cbn [inventory busBaseFare flightExtra roomInventory booking bookingPassenger
         cancellationRequest confirmRow Booking.target Booking.userId fst snd].
    destruct (Booking.category (Booking.target b)) eqn:Hcat;
      repeat (cbn [inventory busBaseFare flightExtra roomInventory booking
                   bookingPassenger cancellationRequest fst snd];
              match goal with
              | |- context [match truthyString ?x with _ => _ end] =>
                  destruct (truthyString x) eqn:?
              | |- context [match firstRow ?x with _ => _ end] =>
                  destruct (firstRow x)
              | |- context [convertHoldToBooking ?a ?b ?c ?d] =>
                  destruct (convertHoldToBooking a b c d)
              | |- context [match roomInventory db !! ?x with _ => _ end] =>
                  destruct (roomInventory db !! x) eqn:?
              end);
      cbn [inventory busBaseFare flightExtra roomInventory booking bookingPassenger
           cancellationRequest fst snd];
      rewrite lookup_insert_eq;
      (split; [reflexivity|]); (split; [reflexivity|]); (split; [reflexivity|]);
      (split; [reflexivity|]);
      (split; [intros rid' Hh Hr Hnone; try discriminate; try congruence
              | intros Hne; try congruence; try reflexivity]).
  - intros Hb. confirm_unfold. rewrite Hb. by destruct db.
Qed.

Lemma activeHoldsOfUser_spec sid userId st holdId h :
  (holdId, h) ∈ activeHoldsOfUser sid userId st
  ↔ seatHold st !! holdId = Some h ∧ SeatHold.scheduleId h = sid
    ∧ SeatHold.heldBy h = userId ∧ SeatHold.status h = HoldStatus.ACTIVE.
Proof.
  unfold activeHoldsOfUser. rewrite elem_of_map_to_list, map_lookup_filter_Some.
  cbn [snd]. tauto.
Qed.


(** X22: paying for a bus booking whose user has no ACTIVE hold on the
    schedule (the booking named no seat, or its hold was released or swept
    after its 10 minutes) still succeeds: the booking becomes CONFIRMED, and
    the inventory is left untouched, so no seat is BOOKED for it and
    [bookedSeats] does not move. *)
Theorem payment_without_hold_books_no_seat firstRow id details now
    (db : Database) b sid :
  findFirstSpec firstRow →
  booking db !! id = Some b →
  Booking.category (Booking.target b) = BookingCategory.BUS →
  truthyString (Booking.busScheduleId (Booking.target b)) = Some sid →
  (∀ holdId h, seatHold (inventory db) !! holdId = Some h →
               SeatHold.scheduleId h = sid →
               SeatHold.heldBy h = Booking.userId b →
               SeatHold.status h ≠ HoldStatus.ACTIVE) →
  ∃ r db',
    confirmBooking firstRow id details now db = (inr r, db')
    ∧ rs_status r = BookingStatus.CONFIRMED
    ∧ Booking.status <$> booking db' !! id = Some BookingStatus.CONFIRMED
    ∧ inventory db' = inventory db.
Proof.
  intros Hspec Hb Hcat Hsid Hnone.
  rewrite (confirmBooking_bus firstRow id details now db b sid Hb Hcat Hsid).
  eexists _, _. split; [reflexivity|]. split; [reflexivity|].
  split; [unfold setInventory, setBooking; cbn [booking];
          by rewrite lookup_insert_eq|].
  unfold setInventory. cbn [inventory].
  pose proof (Hspec (activeHoldsOfUser sid (Booking.userId b) (inventory db))) as Hrow.
  destruct (firstRow _) as [[holdId h]|]; [|reflexivity].
  apply activeHoldsOfUser_spec in Hrow as (Hh & Hs & Hu & Hact).
  by destruct (Hnone holdId h Hh Hs Hu).
Qed.

(** X23: paying for a bus booking converts one ACTIVE hold that its user
    has on the schedule, whichever the database returns first: that hold
    becomes CONVERTED, its seats become BOOKED and their number moves from
    [heldSeats] to [bookedSeats].  The hold is found by user and schedule,
    not by booking, so it is the hold of this booking only when the user has
    no other ACTIVE hold on the schedule. *)
Theorem payment_converts_a_hold_of_the_user firstRow id details now
    (db : Database) b sid holdId0 h0 :
  findFirstSpec firstRow →
  booking db !! id = Some b →
  Booking.category (Booking.target b) = BookingCategory.BUS →
  truthyString (Booking.busScheduleId (Booking.target b)) = Some sid →
  seatHold (inventory db) !! holdId0 = Some h0 →
  SeatHold.scheduleId h0 = sid →
  SeatHold.heldBy h0 = Booking.userId b →
  SeatHold.status h0 = HoldStatus.ACTIVE →
  ∃ r db' holdId h,
    confirmBooking firstRow id details now db = (inr r, db')
    ∧ rs_status r = BookingStatus.CONFIRMED
    ∧ seatHold (inventory db) !! holdId = Some h
    ∧ SeatHold.scheduleId h = sid
    ∧ SeatHold.heldBy h = Booking.userId b
    ∧ SeatHold.status h = HoldStatus.ACTIVE
    ∧ inventory db' = convertedStore holdId now h (inventory db)
    ∧ seatHold (inventory db') !! holdId
      = Some (closeHold HoldStatus.CONVERTED now h)
    ∧ (∀ s, busSchedule (inventory db) !! sid = Some s →
            ∃ s', busSchedule (inventory db') !! sid = Some s'
              ∧ (∀ seat, seat ∈ SeatHold.seatNumbers h →
                         BusSchedule.seatStatus s' !! seat = Some BOOKED)
              ∧ BusSchedule.heldSeats s'
                = BusSchedule.heldSeats s - len (SeatHold.seatNumbers h)
              ∧ BusSchedule.bookedSeats s'
                = BusSchedule.bookedSeats s + len (SeatHold.seatNumbers h)
              ∧ BusSchedule.availableSeats s' = BusSchedule.availableSeats s)
    ∧ ((∀ other ho, seatHold (inventory db) !! other = Some ho →
                    SeatHold.scheduleId ho = sid →
                    SeatHold.heldBy ho = Booking.userId b →
                    SeatHold.status ho = HoldStatus.ACTIVE → other = holdId0) →
       holdId = holdId0).
Proof.
  intros Hspec Hb Hcat Hsid Hh0 Hs0 Hu0 Hact0.
  rewrite (confirmBooking_bus firstRow id details now db b sid Hb Hcat Hsid).
  pose proof (Hspec (activeHoldsOfUser sid (Booking.userId b) (inventory db))) as Hrow.
  destruct (firstRow _) as [[holdId h]|].
  2:{ assert (Hin : (holdId0, h0)
                    ∈ activeHoldsOfUser sid (Booking.userId b) (inventory db))
        by by apply activeHoldsOfUser_spec.
      rewrite Hrow in Hin. by apply elem_of_nil in Hin. }
  apply activeHoldsOfUser_spec in Hrow as (Hh & Hs & Hu & Hact).
  cbn [fst]. rewrite (convertHoldToBooking_active holdId id now _ h Hh Hact).
  cbn [snd]. eexists _, _, holdId, h.
  split; [reflexivity|]. split; [reflexivity|].
  split; [done|]. split; [done|]. split; [done|]. split; [done|].
  unfold setInventory. cbn [inventory].
  split; [reflexivity|].
  split; [unfold convertedStore; cbn [seatHold]; apply lookup_insert_eq|].
  split.
  - intros s Hsched. exists (convertedSchedule h s).
    unfold convertedStore. rewrite Hs, Hsched. cbn [busSchedule].
    split; [apply lookup_insert_eq|].
    split.
    { intros seat Hin. unfold convertedSchedule, convertMove.
      cbn [BusSchedule.seatStatus]. rewrite markSeats_lookup.
      by rewrite bool_decide_eq_true_2. }
    done.
  - intros Honly. by apply (Honly holdId h).
Qed.

(** ** Cancellation *)

Ltac cancel_unfold :=
  unfold cancelBooking, transactionB, cancelBookingTx, bindB, booking_findUnique,
    readPassengers, throwB, refundGlobally, booking_update,
    cancellationRequest_create, onInventory, busSchedule_findUnique,
    busSchedule_update, flightSchedule_increment, roomInventory_update, retB,
    setInventory.

Ltac db_fields :=
  cbn [inventory busBaseFare flightExtra roomInventory booking bookingPassenger
       cancellationRequest busSchedule flightSchedule seatHold fst snd].

Lemma calculateCancellationRefund_found id now db b :
  booking db !! id = Some b →
  ∃ refund, calculateCancellationRefund id now db = inr refund.
Proof.
  intros Hb. unfold calculateCancellationRefund. rewrite Hb. eauto.
Qed.

(** What a successful [cancelBooking] did. *)
Lemma cancelBooking_succeeded id userId reason now db out db' :
  cancelBooking id userId reason now db = (inr out, db') →
  ∃ b refund,
    booking db !! id = Some b
    ∧ Booking.userId b = userId
    ∧ Booking.status b ≠ BookingStatus.CANCELLED
    ∧ Booking.status b ≠ BookingStatus.COMPLETED
    ∧ calculateCancellationRefund id now db = inr refund
    ∧ out = (responseOf id (cancelRow userId reason refund now b), refund)
    ∧ booking db' = <[id := cancelRow userId reason refund now b]> (booking db)
    ∧ bookingPassenger db' = bookingPassenger db
    ∧ length (cancellationRequest db') = S (length (cancellationRequest db)).
Proof.
  cancel_unfold.
  destruct (booking db !! id) as [b|] eqn:Hb; [|discriminate].
  destruct (String.eqb_spec (Booking.userId b) userId) as [Hu|Hu];
    cbn [negb]; [|discriminate].
  case_bool_decide as Hc; [discriminate|].
  case_bool_decide as Hd; [discriminate|].
  destruct (calculateCancellationRefund id now db) as [e|refund] eqn:Href;
    [discriminate|].
  rewrite Hb. db_fields.
  intros Hrun. exists b, refund.
  repeat (split; [done|]).
  revert Hrun.
  repeat (db_fields;
          match goal with
          | |- context [match Booking.category ?x with _ => _ end] =>
              destruct (Booking.category x)
          | |- context [match truthyString ?x with _ => _ end] =>
              destruct (truthyString x)
          | |- context [match busSchedule (inventory db) !! ?x with _ => _ end] =>
              destruct (busSchedule (inventory db) !! x)
          | |- context [match bookedColumnNamed ?x with _ => _ end] =>
              destruct (bookedColumnNamed x)
          | |- context [match flightSchedule (inventory db) !! ?x with _ => _ end] =>
              destruct (flightSchedule (inventory db) !! x)
          | |- context [match roomInventory db !! ?x with _ => _ end] =>
              destruct (roomInventory db !! x)
          end);
    db_fields; intros [= <- <-]; db_fields;
    rewrite ?length_app; cbn [length]; (split; [done|]); (split; [done|]);
    (split; [done|]); lia.
Qed.

(** X24: a successful [cancelBooking] marks the booking CANCELLED and
    records the refund on it, leaves its payment status as it was, and files
    one cancellation request; after it, every further [cancelBooking] of that
    booking throws (already cancelled for its user, unauthorized for anybody
    else) and changes nothing. *)
Theorem cancelled_booking_stays_cancelled id userId reason now
    (db : Database) out db' :
  cancelBooking id userId reason now db = (inr out, db') →
  rs_status out.1 = BookingStatus.CANCELLED
  ∧ (∃ b b', booking db !! id = Some b ∧ booking db' !! id = Some b'
       ∧ Booking.status b' = BookingStatus.CANCELLED
       ∧ Booking.paymentStatus b' = Booking.paymentStatus b
       ∧ Booking.refundAmount (Booking.cancellation b')
         = Some (finalRefundAmount out.2))
  ∧ length (cancellationRequest db') = S (length (cancellationRequest db))
  ∧ (∀ user' reason' later,
       cancelBooking id user' reason' later db'
       = (inl (if String.eqb user' userId
               then "Booking is already cancelled"
               else "Unauthorized to cancel this booking"), db')).
Proof.
  intros Hrun.
  apply cancelBooking_succeeded in Hrun
    as (b & refund & Hb & Hu & _ & _ & _ & -> & Hbook & _ & Hreq).
  split; [reflexivity|].
  assert (Hb' : booking db' !! id = Some (cancelRow userId reason refund now b))
    by (rewrite Hbook; apply lookup_insert_eq).
  split; [exists b, (cancelRow userId reason refund now b); done|].
  split; [exact Hreq|].
  intros user' reason' later. cancel_unfold. rewrite Hb'.
  cbn [cancelRow Booking.userId Booking.status]. rewrite Hu.
  rewrite String.eqb_sym.
  destruct (String.eqb user' userId); cbn [negb]; [|reflexivity].
  rewrite bool_decide_eq_true_2 by done. reflexivity.
Qed.

Lemma cancelBooking_bus id userId reason now db b sid :
  booking db !! id = Some b →
  Booking.userId b = userId →
  Booking.status b ≠ BookingStatus.CANCELLED →
  Booking.status b ≠ BookingStatus.COMPLETED →
  Booking.category (Booking.target b) = BookingCategory.BUS →
  truthyString (Booking.busScheduleId (Booking.target b)) = Some sid →
  ∃ out db',
    cancelBooking id userId reason now db = (inr out, db')
    ∧ inventory db' = seatsCancelled sid (passengersOf id db) (inventory db).
Proof.
  intros Hb Hu Hc Hd Hcat Hsid.
  destruct (calculateCancellationRefund_found id now db b Hb) as [refund Href].
  cancel_unfold. rewrite Hb, Hu, String.eqb_refl. cbn [negb].
  rewrite !bool_decide_eq_false_2 by done.
  rewrite Href, Hb. db_fields. rewrite Hcat, Hsid. unfold seatsCancelled.
  destruct (busSchedule (inventory db) !! sid) as [s|] eqn:Hs; db_fields.
  - repeat (rewrite Hs; db_fields). eexists _, _. split; [reflexivity|]. reflexivity.
  - repeat (rewrite Hs; db_fields). eexists _, _. split; [reflexivity|].
    by destruct (inventory db).
Qed.

Lemma truthyString_Some o s : truthyString o = Some s → truthyString (Some s) = Some s.
Proof.
  destruct o as [x|]; [|discriminate]. cbn [truthyString].
  destruct (String.eqb x "") eqn:Hx; [discriminate|]. intros [= <-].
  by rewrite Hx.
Qed.

Lemma requestedSeatsOf_busPassengerRow id passengers :
  requestedSeatsOf (BookingPassenger.data <$> (busPassengerRow id <$> passengers))
  = requestedSeatsOf passengers.
Proof.
  unfold requestedSeatsOf.
  induction passengers as [|p ps IH]; [reflexivity|].
  cbn [fmap list_fmap omap list_omap busPassengerRow BookingPassenger.data seatNumber].
  destruct (truthyString (seatNumber p)); [f_equal|]; exact IH.
Qed.

Lemma passengersOf_withBooking db id row rows st :
  passengersHaveBooking db →
  id ∉ dom (booking db) →
  (∀ p, p ∈ rows → BookingPassenger.bookingId p = id) →
  passengersOf id (withBooking id row rows st db) = rows.
Proof.
  intros Hfk Hnew Hrows. unfold passengersOf, withBooking. cbn [bookingPassenger].
  rewrite filter_app.
  assert (Hold : filter (λ p, BookingPassenger.bookingId p = id) (bookingPassenger db)
                 = []).
  { specialize (λ p Hin, Hfk p Hin).
    induction (bookingPassenger db) as [|p ps IH]; [reflexivity|].
    rewrite filter_cons_False.
    - apply IH. intros q Hq. apply Hfk. by right.
    - intros Heq. apply Hnew. rewrite <- Heq. apply Hfk. by left. }
  rewrite Hold. cbn [app].
  induction rows as [|p ps IH]; [reflexivity|].
  rewrite filter_cons_True by (apply Hrows; by left).
  f_equal. apply IH. intros q Hq. apply Hrows. by right.
Qed.

(** X25: cancelling a bus booking that was never paid strands its hold.
    [cancelBooking] frees the seats of the passengers and moves their number
    from [bookedSeats] to [availableSeats], but does not release the hold
    that [createBusBooking] made.  After booking seats and cancelling, at any
    time and before any payment, the hold is still ACTIVE while its seats are
    AVAILABLE again on the seat map, [heldSeats] still counts them, and
    [bookedSeats] is lower than before the booking by the number of
    passengers although nothing was ever booked. *)
Theorem cancelling_unpaid_bus_booking_strands_the_hold userId data env reason later
    (db : Database) r db1 :
  passengersHaveBooking db →
  createBusBooking userId data env db = (inr r, db1) →
  requestedSeatsOf (rq_passengers data) ≠ [] →
  let seats := requestedSeatsOf (rq_passengers data) in
  let n := Z.of_nat (length (rq_passengers data)) in
  ∃ out db2 sid s s2 holdId h,
    cancelBooking (rs_id r) userId reason later db1 = (inr out, db2)
    ∧ busSchedule (inventory db) !! sid = Some s
    ∧ busSchedule (inventory db2) !! sid = Some s2
    ∧ seatHold (inventory db2) !! holdId = Some h
    ∧ SeatHold.status h = HoldStatus.ACTIVE
    ∧ SeatHold.scheduleId h = sid
    ∧ SeatHold.seatNumbers h = seats
    ∧ (∀ seat, seat ∈ seats → BusSchedule.seatStatus s2 !! seat = Some AVAILABLE)
    ∧ BusSchedule.heldSeats s2 = BusSchedule.heldSeats s + len seats
    ∧ BusSchedule.availableSeats s2 = BusSchedule.availableSeats s - len seats + n
    ∧ BusSchedule.bookedSeats s2 = BusSchedule.bookedSeats s - n
    ∧ ¬ holdsExclusive (inventory db2).
Proof.
  intros Hfk Hrun Hseats seats n.
  apply createBusBooking_cases in Hrun as [(e & [=] & _) | Hok].
  destruct Hok as (sid & s & first & rest & st' & Hok). cbv zeta in Hok.
  destruct Hok as (Hsid & Hs & Hact & Hav & Hfu & Hps & [= ->] & -> & Hinv).
  destruct Hinv as [[Hnil _] | (_ & hr & Hhold & Hyes)]; [done|].
  apply holdSeats_cases in Hhold as [(Hno & _) | (_ & _ & s1 & Hs1 & _ & _ & Hst)];
    [congruence|].
  cbn [bookingHold p_scheduleId p_seatNumbers p_holdExpiryMinutes default] in Hs1, Hst.
  cbv zeta in Hst. destruct Hst as [_ ->].
  rewrite Hs in Hs1. injection Hs1 as <-.
  set (id := fresh (dom (booking db))).
  set (row := busBookingRow userId data env db sid first).
  set (rows := busPassengerRow id <$> rq_passengers data).
  set (params := bookingHold userId sid data).
  set (st1 := heldStore params (addMinutes (env_now env) 10) s (inventory db)).
  set (db1 := withBooking id row rows st1 db).
  assert (Hrow : booking db1 !! id = Some row) by apply lookup_insert_eq.
  assert (Hpass : passengersOf id db1 = rows).
  { apply passengersOf_withBooking; [done|apply is_fresh|].
    intros p (q & -> & _)%list_elem_of_fmap. reflexivity. }
  destruct (cancelBooking_bus id userId reason later db1 row sid Hrow)
    as (out & db2 & Hcancel & Hinv2); try done.
  { cbn. by eapply truthyString_Some. }
  rewrite Hpass in Hinv2.
  assert (Hs1 : busSchedule (inventory db1) !! sid = Some (heldSchedule params s))
    by apply lookup_insert_eq.
  unfold seatsCancelled in Hinv2. rewrite Hs1 in Hinv2.
  exists out, db2, sid, s, (cancelSeats rows (heldSchedule params s)),
         (fresh (dom (seatHold (inventory db)))),
         (newHold params (addMinutes (env_now env) 10)).
  cbn [rs_id responseOf]. fold id.
  assert (Hs2 : busSchedule (inventory db2) !! sid
                = Some (cancelSeats rows (heldSchedule params s)))
    by (rewrite Hinv2; apply lookup_insert_eq).
  assert (Hh2 : seatHold (inventory db2) !! fresh (dom (seatHold (inventory db)))
                = Some (newHold params (addMinutes (env_now env) 10)))
    by (rewrite Hinv2; apply lookup_insert_eq).
  assert (Hfree : ∀ seat, seat ∈ seats →
            BusSchedule.seatStatus (cancelSeats rows (heldSchedule params s)) !! seat
            = Some AVAILABLE).
  { intros seat Hin. unfold cancelSeats. cbn [BusSchedule.seatStatus].
    rewrite markSeats_lookup. subst rows.
    rewrite requestedSeatsOf_busPassengerRow. by rewrite bool_decide_eq_true_2. }
  split; [exact Hcancel|]. split; [exact Hs|]. split; [exact Hs2|].
  split; [exact Hh2|]. split; [reflexivity|]. split; [reflexivity|].
  split; [reflexivity|]. split; [exact Hfree|].
  assert (Hlen : Z.of_nat (length rows) = n)
    by (subst rows n; by rewrite length_fmap).
  unfold cancelSeats, heldSchedule, holdAdd.
  cbn [BusSchedule.heldSeats BusSchedule.availableSeats BusSchedule.bookedSeats].
  rewrite Hlen.
  split; [reflexivity|]. split; [reflexivity|]. split; [reflexivity|].
  intros [Hheld _].
  destruct seats as [|seat0 more] eqn:Hsome; [done|].
  assert (Hin : seat0 ∈ seat0 :: more) by left.
  specialize (Hheld _ _ _ Hh2 eq_refl Hs2 seat0).
  cbn [newHold SeatHold.seatNumbers params bookingHold p_seatNumbers] in Hheld.
  fold seats in Hheld. rewrite Hsome in Hheld. specialize (Hheld Hin).
  rewrite (Hfree seat0 Hin) in Hheld. discriminate.
Qed.

Lemma markSeats_back seats (m : gmap string string) :
  (∀ seat, seat ∈ seats → m !! seat = Some AVAILABLE) →
  markSeats AVAILABLE seats (markSeats BOOKED seats (markSeats HELD seats m)) = m.
Proof.
  intros Hfree. apply map_eq. intros k. rewrite !markSeats_lookup.
  case_bool_decide as Hin; [|reflexivity]. symmetry. by apply Hfree.
Qed.

(** X26: booking, paying and cancelling is a round trip for the schedule
    when every passenger names a seat.  For a user without another ACTIVE
    hold, the payment converts the hold of the booking (its seats become
    BOOKED), and the cancellation that follows puts the schedule row back
    exactly as it was before the booking: every seat AVAILABLE again and the
    three counters at their old values.  The amount to refund is the amount
    that was paid. *)
Theorem book_pay_cancel_restores_schedule firstRow userId data env details paidAt
    reason later (db : Database) r db1 :
  findFirstSpec firstRow →
  passengersHaveBooking db →
  (∀ holdId h, seatHold (inventory db) !! holdId = Some h →
               SeatHold.heldBy h = userId →
               SeatHold.status h ≠ HoldStatus.ACTIVE) →
  createBusBooking userId data env db = (inr r, db1) →
  length (requestedSeatsOf (rq_passengers data)) = length (rq_passengers data) →
  ∃ r2 db2 out db3 sid s2,
    confirmBooking firstRow (rs_id r) details paidAt db1 = (inr r2, db2)
    ∧ truthyString (rq_busScheduleId data) = Some sid
    ∧ busSchedule (inventory db2) !! sid = Some s2
    ∧ (∀ seat, seat ∈ requestedSeatsOf (rq_passengers data) →
               BusSchedule.seatStatus s2 !! seat = Some BOOKED)
    ∧ cancelBooking (rs_id r) userId reason later db2 = (inr out, db3)
    ∧ busSchedule (inventory db3) = busSchedule (inventory db)
    ∧ eligibleRefundAmount out.2 = pd_paidAmount details
    ∧ rs_status out.1 = BookingStatus.CANCELLED.
Proof.
  intros Hspec Hfk Hnohold Hrun Hall.
  apply createBusBooking_cases in Hrun as [(e & [=] & _) | Hok].
  destruct Hok as (sid & s & first & rest & st' & Hok). cbv zeta in Hok.
  destruct Hok as (Hsid & Hs & Hact & Hav & Hfu & Hps & [= ->] & -> & Hinv).
  assert (Hseats : requestedSeatsOf (rq_passengers data) ≠ []).
  { intros Hnil. rewrite Hnil, Hps in Hall. discriminate. }
  destruct Hinv as [[Hnil _] | (_ & hr & Hhold & Hyes)]; [done|].
  apply holdSeats_cases in Hhold as [(Hno & _) | (_ & _ & s1 & Hs1 & _ & _ & Hst)];
    [congruence|].
  cbn [bookingHold p_scheduleId p_seatNumbers p_holdExpiryMinutes default] in Hs1, Hst.
  cbv zeta in Hst. destruct Hst as [_ ->].
  rewrite Hs in Hs1. injection Hs1 as <-.
  set (seats := requestedSeatsOf (rq_passengers data)) in *.
  set (id := fresh (dom (booking db))).
  set (row := busBookingRow userId data env db sid first).
  set (rows := busPassengerRow id <$> rq_passengers data).
  set (params := bookingHold userId sid data).
  set (expiry := addMinutes (env_now env) 10).
  set (st1 := heldStore params expiry s (inventory db)).
  set (db1 := withBooking id row rows st1 db).
  set (hid := fresh (dom (seatHold (inventory db)))).
  cbn [rs_id responseOf].
  assert (Hrow : booking db1 !! id = Some row) by apply lookup_insert_eq.
  assert (Htruthy : truthyString (Some sid) = Some sid)
    by by eapply truthyString_Some.
  (* the payment *)
  assert (Hnew : seatHold st1 !! hid = Some (newHold params expiry))
    by apply lookup_insert_eq.
  assert (Hfirst : firstRow (activeHoldsOfUser sid (Booking.userId row) (inventory db1))
                   = Some (hid, newHold params expiry)).
  { pose proof (Hspec (activeHoldsOfUser sid (Booking.userId row) (inventory db1)))
      as Hpick.
    destruct (firstRow _) as [[hid' h']|].
    - apply activeHoldsOfUser_spec in Hpick as (Hh' & _ & Hu' & Hact').
      change (inventory db1) with st1 in Hh'.
      destruct (decide (hid' = hid)) as [->|Hne].
      + rewrite Hnew in Hh'. by injection Hh' as <-.
      + unfold st1, heldStore in Hh'. cbn [seatHold] in Hh'.
        rewrite lookup_insert_ne in Hh' by done.
        by destruct (Hnohold hid' h' Hh' Hu').
    - assert (Hin : (hid, newHold params expiry)
                    ∈ activeHoldsOfUser sid (Booking.userId row) (inventory db1))
        by by apply activeHoldsOfUser_spec.
      rewrite Hpick in Hin. by apply elem_of_nil in Hin. }
  set (st2 := convertedStore hid paidAt (newHold params expiry) st1).
  set (row2 := confirmRow details paidAt row).
  set (db2 := setInventory st2 (setBooking id row2 db1)).
  assert (Hconfirm : confirmBooking firstRow id details paidAt db1
                     = (inr (responseOf id row2), db2)).
  { rewrite (confirmBooking_bus firstRow id details paidAt db1 row sid
               Hrow eq_refl Htruthy).
    rewrite Hfirst. cbn [fst]. change (inventory db1) with st1.
    by rewrite (convertHoldToBooking_active hid id paidAt st1 _ Hnew eq_refl). }
  assert (Hs1 : busSchedule st1 !! sid = Some (heldSchedule params s))
    by apply lookup_insert_eq.
  set (s2 := convertedSchedule (newHold params expiry) (heldSchedule params s)).
  assert (Hs2 : busSchedule st2 !! sid = Some s2).
  { unfold st2, convertedStore. cbn [newHold SeatHold.scheduleId params bookingHold
                                      p_scheduleId].
    rewrite Hs1. cbn [busSchedule]. apply lookup_insert_eq. }
  (* the cancellation *)
  assert (Hrow2 : booking db2 !! id = Some row2) by apply lookup_insert_eq.
  assert (Hpass : passengersOf id db2 = rows).
  { change (passengersOf id db2) with (passengersOf id db1).
    apply passengersOf_withBooking; [done|apply is_fresh|].
    intros p (q & -> & _)%list_elem_of_fmap. reflexivity. }
  destruct (cancelBooking_bus id userId reason later db2 row2 sid Hrow2)
    as (out & db3 & Hcancel & Hinv3); try done.
  rewrite Hpass in Hinv3. change (inventory db2) with st2 in Hinv3.
  unfold seatsCancelled in Hinv3. rewrite Hs2 in Hinv3.
  pose proof Hcancel as Hdone.
  apply cancelBooking_succeeded in Hdone
    as (b & refund & Hb & _ & _ & _ & Href & -> & _).
  rewrite Hrow2 in Hb. injection Hb as <-.
  exists (responseOf id row2), db2, (responseOf id (cancelRow userId reason refund later row2), refund),
         db3, sid, s2.
  split; [exact Hconfirm|]. split; [done|]. split; [exact Hs2|].
  split.
  { intros seat Hin. unfold s2, convertedSchedule, convertMove.
    cbn [BusSchedule.seatStatus newHold SeatHold.seatNumbers params bookingHold
         p_seatNumbers].
    rewrite markSeats_lookup. by rewrite bool_decide_eq_true_2. }
  split; [exact Hcancel|].
  split.
  { rewrite Hinv3. cbn [busSchedule].
    assert (Hback : cancelSeats rows s2 = s).
    { unfold cancelSeats, s2, convertedSchedule, convertMove, heldSchedule, holdAdd.
      cbn [BusSchedule.route BusSchedule.status BusSchedule.seatStatus
           BusSchedule.availableSeats BusSchedule.heldSeats BusSchedule.bookedSeats
           newHold SeatHold.seatNumbers params bookingHold p_seatNumbers].
      subst rows. rewrite requestedSeatsOf_busPassengerRow, length_fmap.
      fold seats. rewrite markSeats_back by by apply firstUnavailable_None.
      unfold len. rewrite Hall. destruct s. cbn. f_equal; lia. }
    rewrite Hback.
    unfold st2, convertedStore.
    cbn [newHold SeatHold.scheduleId params bookingHold p_scheduleId].
    rewrite Hs1. cbn [busSchedule]. unfold st1, heldStore.
    cbn [busSchedule params bookingHold p_scheduleId].
    rewrite !insert_insert_eq. by apply insert_id. }
  split; [|reflexivity].
  cbn [snd]. unfold calculateCancellationRefund in Href. rewrite Hrow2 in Href.
  cbv zeta in Href. injection Href as <-. reflexivity.
Qed.

(** ** Hotel rooms *)

Ltac hotel_unfold :=
  unfold createHotelBooking, transactionB, createHotelBookingTx, bindB,
    roomInventory_findUnique, throwB, booking_create, bookingPassenger_createMany,
    roomInventory_update, retB.

(** What a successful [createHotelBooking] did. *)
Lemma createHotelBooking_succeeded userId data env db r db1 :
  createHotelBooking userId data env db = (inr r, db1) →
  ∃ rid room row rows,
    truthyString (rq_roomInventoryId data) = Some rid
    ∧ roomInventory db !! rid = Some room
    ∧ RoomInventory.isAvailable room = true
    ∧ 1 ≤ RoomInventory.availableRooms room
    ∧ Booking.userId row = userId
    ∧ Booking.status row = BookingStatus.PENDING
    ∧ Booking.category (Booking.target row) = BookingCategory.HOTEL
    ∧ Booking.roomInventoryId (Booking.target row) = Some rid
    ∧ r = responseOf (fresh (dom (booking db))) row
    ∧ db1 = mkDb (inventory db) (busBaseFare db) (flightExtra db)
                 (<[rid := holdRoom room]> (roomInventory db))
                 (<[fresh (dom (booking db)) := row]> (booking db))
                 (bookingPassenger db ++ rows) (cancellationRequest db).
Proof.
  hotel_unfold.
  destruct (truthyString (rq_roomInventoryId data)) as [rid|] eqn:Hrid;
    [|discriminate].
  destruct (rq_checkInDate data) as [checkIn|]; [|discriminate].
  destruct (rq_checkOutDate data) as [checkOut|]; [|discriminate].
  destruct (truthyNumber (rq_nights data)) as [nights|]; [|discriminate].
  destruct (roomInventory db !! rid) as [room|] eqn:Hroom; [|discriminate].
  destruct (RoomInventory.isAvailable room) eqn:Hav; cbn [negb orb]; [|discriminate].
  destruct (RoomInventory.availableRooms room <? 1) eqn:Hone; [discriminate|].
  apply Z.ltb_ge in Hone.
  destruct (rq_passengers data) as [|first rest]; [discriminate|].
  db_fields. rewrite Hroom. intros [= <- <-].
  eexists rid, room,
    (newBooking userId env
       (Booking.mkTarget BookingCategory.HOTEL None None None (Some rid) _ _ _)
       first _ _), _.
  repeat (split; [done|]). split; reflexivity.
Qed.

Lemma cancelBooking_hotel id userId reason now db b rid room :
  booking db !! id = Some b →
  Booking.userId b = userId →
  Booking.status b ≠ BookingStatus.CANCELLED →
  Booking.status b ≠ BookingStatus.COMPLETED →
  Booking.category (Booking.target b) = BookingCategory.HOTEL →
  truthyString (Booking.roomInventoryId (Booking.target b)) = Some rid →
  roomInventory db !! rid = Some room →
  ∃ out db',
    cancelBooking id userId reason now db = (inr out, db')
    ∧ roomInventory db' = <[rid := freeRoom room]> (roomInventory db).
Proof.
  intros Hb Hu Hc Hd Hcat Hrid Hroom.
  destruct (calculateCancellationRefund_found id now db b Hb) as [refund Href].
  cancel_unfold. rewrite Hb, Hu, String.eqb_refl. cbn [negb].
  rewrite !bool_decide_eq_false_2 by done.
  rewrite Href, Hb. db_fields. rewrite Hcat, Hrid. db_fields. rewrite Hroom.
  eexists _, _. split; reflexivity.
Qed.

(** X27: rooms are only moved between the three counters.  Creating a
    hotel booking, confirming a payment and cancelling a booking, whether
    they return or throw, leave the sum of [availableRooms], [heldRooms] and
    [bookedRooms] of every room row as it was. *)
Theorem hotel_rooms_conserved firstRow (db db' : Database) rid room :
  roomInventory db !! rid = Some room →
  (∃ userId data env, db' = (createHotelBooking userId data env db).2)
  ∨ (∃ id details now, db' = (confirmBooking firstRow id details now db).2)
  ∨ (∃ id userId reason now, db' = (cancelBooking id userId reason now db).2) →
  ∃ room', roomInventory db' !! rid = Some room' ∧ roomsOf room' = roomsOf room.
Proof.
  intros Hroom Hop.
  assert (Hupd : roomInventory db' = roomInventory db
                 ∨ ∃ rid0 room0 f, roomInventory db !! rid0 = Some room0
                     ∧ roomsOf (f room0) = roomsOf room0
                     ∧ roomInventory db' = <[rid0 := f room0]> (roomInventory db)).
  { destruct Hop as [(userId & data & env & ->)
                    | [(id & details & now & ->) | (id & userId & reason & now & ->)]].
    - destruct (createHotelBooking userId data env db) as [[e|r] db1] eqn:Hrun.
      + left. revert Hrun. hotel_unfold.
        repeat match goal with
               | |- context [match ?x with _ => _ end] =>
                   lazymatch x with
                   | context [match _ with _ => _ end] => fail
                   | _ => destruct x
                   end
               end; intros [= _ <-]; reflexivity.
      + apply createHotelBooking_succeeded in Hrun
          as (rid0 & room0 & row & rows & _ & Hr0 & _ & _ & _ & _ & _ & _ & _ & ->).
        right. exists rid0, room0, holdRoom. split; [done|].
        split; [unfold roomsOf, holdRoom; cbn; lia | reflexivity].
    - confirm_unfold.
      destruct (booking db !! id) as [b|]; [|by left].
      repeat (db_fields;
              match goal with
              | |- context [match Booking.category ?x with _ => _ end] =>
                  destruct (Booking.category x)
              | |- context [match truthyString ?x with _ => _ end] =>
                  destruct (truthyString x)
              | |- context [match firstRow ?x with _ => _ end] =>
                  destruct (firstRow x)
              | |- context [convertHoldToBooking ?a ?b ?c ?d] =>
                  destruct (convertHoldToBooking a b c d)
              | |- context [match roomInventory db !! ?x with _ => _ end] =>
                  destruct (roomInventory db !! x) eqn:?
              end); db_fields; try (by left);
        right; eexists _, _, bookRoom; (split; [eassumption|]);
        (split; [unfold roomsOf, bookRoom; cbn; lia | reflexivity]).
    - destruct (cancelBooking id userId reason now db) as [[e|out] db2] eqn:Hrun.
      + left. unfold cancelBooking, transactionB in Hrun.
        destruct (cancelBookingTx _ _ _ _ db) as [[?|?] ?];
          first [discriminate | by injection Hrun as _ <-].
      + revert Hrun. cancel_unfold.
        destruct (booking db !! id) as [b|] eqn:Hb; [|discriminate].
        destruct (negb _); [discriminate|].
        do 2 (case_bool_decide; [discriminate|]).
        destruct (calculateCancellationRefund id now db); [discriminate|].
        rewrite Hb.
        repeat (db_fields;
          match goal with
          | |- context [match Booking.category ?x with _ => _ end] =>
              destruct (Booking.category x)
          | |- context [match truthyString ?x with _ => _ end] =>
              destruct (truthyString x)
          | |- context [match busSchedule (inventory db) !! ?x with _ => _ end] =>
              destruct (busSchedule (inventory db) !! x)
          | |- context [match bookedColumnNamed ?x with _ => _ end] =>
              destruct (bookedColumnNamed x)
          | |- context [match flightSchedule (inventory db) !! ?x with _ => _ end] =>
              destruct (flightSchedule (inventory db) !! x)
          | |- context [match roomInventory db !! ?x with _ => _ end] =>
              destruct (roomInventory db !! x) eqn:?
          end); db_fields; intros [= _ <-]; db_fields; try (by left);
        right; eexists _, _, freeRoom; (split; [eassumption|]);
        (split; [unfold roomsOf, freeRoom; cbn; lia | reflexivity]). }
  destruct Hupd as [-> | (rid0 & room0 & f & Hr0 & Hsum & ->)]; [by exists room|].
  destruct (decide (rid0 = rid)) as [->|Hne].
  - rewrite lookup_insert_eq. exists (f room0). split; [done|]. congruence.
  - rewrite lookup_insert_ne by done. by exists room.
Qed.

Lemma confirmBooking_hotel firstRow id details now db b rid room :
  booking db !! id = Some b →
  Booking.category (Booking.target b) = BookingCategory.HOTEL →
  truthyString (Booking.roomInventoryId (Booking.target b)) = Some rid →
  roomInventory db !! rid = Some room →
  confirmBooking firstRow id details now db
  = (inr (responseOf id (confirmRow details now b)),
     mkDb (inventory db) (busBaseFare db) (flightExtra db)
          (<[rid := bookRoom room]> (roomInventory db))
          (<[id := confirmRow details now b]> (booking db))
          (bookingPassenger db) (cancellationRequest db)).
Proof.
  intros Hb Hcat Hrid Hroom. confirm_unfold. rewrite Hb. db_fields.
  cbn [confirmRow Booking.target]. rewrite Hcat, Hrid.
  destruct (truthyString (Booking.busScheduleId (Booking.target b)));
    db_fields; rewrite Hroom; reflexivity.
Qed.

(** X28: cancelling a hotel booking puts the room back only if the
    booking was paid.  [createHotelBooking] moves one room from available to
    held and the payment moves it on to booked; [cancelBooking] always moves
    one room from booked to available.  Cancelled after the payment, the room
    row is exactly as before the booking.  Cancelled before any payment, the
    room stays held for good and [bookedRooms] is one lower than before the
    booking. *)
Theorem hotel_cancel_restores_room_only_after_payment firstRow userId data env
    details paidAt reason later (db : Database) r db1 :
  createHotelBooking userId data env db = (inr r, db1) →
  ∃ rid room,
    truthyString (rq_roomInventoryId data) = Some rid
    ∧ roomInventory db !! rid = Some room
    ∧ roomInventory db1 !! rid = Some (holdRoom room)
    ∧ (∃ out db2 room2,
         cancelBooking (rs_id r) userId reason later db1 = (inr out, db2)
         ∧ roomInventory db2 !! rid = Some room2
         ∧ RoomInventory.availableRooms room2 = RoomInventory.availableRooms room
         ∧ RoomInventory.heldRooms room2 = RoomInventory.heldRooms room + 1
         ∧ RoomInventory.bookedRooms room2 = RoomInventory.bookedRooms room - 1)
    ∧ (∃ r2 db2 out db3,
         confirmBooking firstRow (rs_id r) details paidAt db1 = (inr r2, db2)
         ∧ roomInventory db2 !! rid = Some (bookRoom (holdRoom room))
         ∧ cancelBooking (rs_id r) userId reason later db2 = (inr out, db3)
         ∧ roomInventory db3 = roomInventory db).
Proof.
  intros Hrun.
  apply createHotelBooking_succeeded in Hrun
    as (rid & room & row & rows & Hrid & Hroom & _ & _ & Hu & Hst & Hcat & Htarget
        & -> & ->).
  set (id := fresh (dom (booking db))).
  set (db1 := mkDb _ _ _ _ _ _ _).
  assert (Hrow : booking db1 !! id = Some row) by apply lookup_insert_eq.
  assert (Hroom1 : roomInventory db1 !! rid = Some (holdRoom room))
    by apply lookup_insert_eq.
  assert (Htruthy : truthyString (Booking.roomInventoryId (Booking.target row))
                    = Some rid)
    by (rewrite Htarget; by eapply truthyString_Some).
  exists rid, room. split; [done|]. split; [done|]. split; [done|].
  cbn [rs_id responseOf]. split.
  - destruct (cancelBooking_hotel id userId reason later db1 row rid (holdRoom room))
      as (out & db2 & Hcancel & Hrooms); try done; try (rewrite Hst; done).
    exists out, db2, (freeRoom (holdRoom room)).
    split; [exact Hcancel|]. split; [rewrite Hrooms; apply lookup_insert_eq|].
    unfold freeRoom, holdRoom. cbn. lia.
  - pose proof (confirmBooking_hotel firstRow id details paidAt db1 row rid
                  (holdRoom room) Hrow Hcat Htruthy Hroom1) as Hconfirm.
    set (db2 := mkDb _ _ _ _ _ _ _) in Hconfirm.
    assert (Hrow2 : booking db2 !! id = Some (confirmRow details paidAt row))
      by apply lookup_insert_eq.
    assert (Hroom2 : roomInventory db2 !! rid = Some (bookRoom (holdRoom room)))
      by apply lookup_insert_eq.
    destruct (cancelBooking_hotel id userId reason later db2
                (confirmRow details paidAt row) rid (bookRoom (holdRoom room)))
      as (out & db3 & Hcancel & Hrooms); try done.
    eexists _, db2, out, db3.
    split; [exact Hconfirm|]. split; [exact Hroom2|]. split; [exact Hcancel|].
    rewrite Hrooms. unfold db2, db1. cbn [roomInventory].
    rewrite !insert_insert_eq.
    assert (Hback : freeRoom (bookRoom (holdRoom room)) = room).
    { unfold freeRoom, bookRoom, holdRoom. destruct room. cbn. f_equal; lia. }
    rewrite Hback. by apply insert_id.
Qed.

(** ** Flights *)

Ltac flight_unfold :=
  unfold createFlightBooking, transactionB, createFlightBookingTx, bindB,
    readFlightSchedule, throwB, booking_create, bookingPassenger_createMany,
    flightSchedule_increment, retB.

(** X29: a flight booking never oversells a cabin.  When
    [createFlightBooking] returns, the free seats of the requested cabin
    (ECONOMY when none is given) went down by the number of passengers and
    are not negative.  The counter to raise is named after the lower-cased
    cabin class, which for PREMIUM_ECONOMY is not the [premiumBooked] column
    that the availability test reads; the database client rejects the
    unknown column, so such a request always throws, after the checks, and
    leaves the database as it was. *)
Theorem flight_booking_never_oversells userId data env (db : Database) :
  let n := Z.of_nat (length (rq_passengers data)) in
  let cabin := rq_cabinClass data in
  (∀ r db',
     createFlightBooking userId data env db = (inr r, db') →
     ∃ fid s s',
       truthyString (rq_flightScheduleId data) = Some fid
       ∧ flightSchedule (inventory db) !! fid = Some s
       ∧ flightSchedule (inventory db') !! fid = Some s'
       ∧ cabin ≠ Some CabinClass.PREMIUM_ECONOMY
       ∧ 1 ≤ n
       ∧ (fareAndSeats cabin s' (flightExtra db' fid)).2
         = (fareAndSeats cabin s (flightExtra db fid)).2 - n
       ∧ 0 ≤ (fareAndSeats cabin s' (flightExtra db' fid)).2
       ∧ rs_status r = BookingStatus.PENDING)
  ∧ (cabin = Some CabinClass.PREMIUM_ECONOMY →
     ∃ e, createFlightBooking userId data env db = (inl e, db)).
Proof.
  cbv zeta. split.
  - intros r db'. flight_unfold.
    destruct (truthyString (rq_flightScheduleId data)) as [fid|] eqn:Hfid;
      [|discriminate].
    destruct (flightSchedule (inventory db) !! fid) as [s|] eqn:Hs;
      cbn [fmap option_fmap option_map]; [|discriminate].
    destruct (negb _); [discriminate|].
    destruct (fareAndSeats (rq_cabinClass data) s (flightExtra db fid))
      as [baseFare free] eqn:Hfare.
    destruct (Qeq_bool baseFare 0); cbn [orb]; [discriminate|].
    destruct (free <? Z.of_nat (length (rq_passengers data))) eqn:Hfree;
      [discriminate|].
    apply Z.ltb_ge in Hfree.
    destruct (rq_passengers data) as [|first rest] eqn:Hps; [discriminate|].
    db_fields.
    destruct (bookedColumnNamed (cabinClassField (rq_cabinClass data)))
      as [column|] eqn:Hcol; [|discriminate].
    rewrite Hs. intros [= <- <-]. db_fields.
    set (m := Z.of_nat (length (first :: rest))) in *.
    change (Z.of_nat (S (length rest))) with m.
    exists fid, s, (addBookedEconomy column m s).
    split; [done|]. split; [done|]. split; [apply lookup_insert_eq|].
    rewrite bool_decide_eq_true_2 by done.
    split; [by intros Hp; rewrite Hp in Hcol|].
    split; [subst m; cbn [length]; lia|].
    assert (Hfree' : (fareAndSeats (rq_cabinClass data)
                        (addBookedEconomy column m s)
                        (addBookedExtra column m (flightExtra db fid))).2
                     = free - m).
    { replace free
        with ((fareAndSeats (rq_cabinClass data) s (flightExtra db fid)).2)
        by by rewrite Hfare.
      clear Hfare Hfree. clearbody m.
      destruct (rq_cabinClass data) as [[]|]; vm_compute in Hcol;
        first [discriminate
              | injection Hcol as <-;
                unfold fareAndSeats, addBookedEconomy, addBookedExtra; cbn; lia]. }
    rewrite Hfree', Hfare. cbn [snd]. split; [reflexivity|]. split; [lia|reflexivity].
  - intros Hcabin. flight_unfold.
    destruct (truthyString (rq_flightScheduleId data)) as [fid|]; [|eauto].
    destruct (flightSchedule (inventory db) !! fid) as [s|];
      cbn [fmap option_fmap option_map]; [|eauto].
    destruct (negb _); [eauto|].
    destruct (fareAndSeats _ _ _) as [baseFare free].
    destruct (_ || _); [eauto|].
    destruct (rq_passengers data) as [|first rest]; [eauto|].
    db_fields. rewrite Hcabin.
    change (bookedColumnNamed (cabinClassField (Some CabinClass.PREMIUM_ECONOMY)))
      with (@None BookedColumn).
    eauto.
Qed.

(** ** Paying late *)


End HoldQuotaService.

(** ** The statements on the sample databases

    The configuration is the one of an environment that sets neither
    variable: 30 minutes and 25 percent. *)


Lemma counts_invariant_preserved_witness :
  countsInvariant emptyDb
  ∧ countsInvariant (holdSeats 30 25 wantSeat1 1000 emptyDb).2.
Proof.
  assert (Hinv : countsInvariant emptyDb).
  { intros id s Hs. unfold emptyDb in Hs. cbn [busSchedule] in Hs.
    apply lookup_singleton_Some in Hs as [<- <-]. reflexivity. }
  split; [exact Hinv|].
  apply (counts_invariant_preserved 30 25 emptyDb Hinv).
  apply rtc_once. eapply step_holdSeats. apply surjective_pairing.
Defined.

Lemma quota_exceeded_exactly_when_witness :
  holdSeats 30 25 wantSeat2 1000 heldDb
  = (mkResult false None ["2"] 1000
       "Hold quota exceeded. Max allowed: 1, Currently held: 1", heldDb).
Proof.
  assert (Hview : quotaView (p_category wantSeat2) (p_scheduleId wantSeat2) heldDb
                  = Some (partnerOn, 4, 1)) by reflexivity.
  assert (Hon : Partner.holdQuotaEnabled partnerOn = true) by reflexivity.
  apply (proj1 (quota_exceeded_exactly_when 30 25 wantSeat2 1000 heldDb
                  partnerOn 4 1 Hview Hon)).
  vm_compute. reflexivity.
Defined.


Lemma disabled_partner_refused_before_mutation_witness :
  holdSeats 30 25 wantSeat1 1000 disabledDb
  = (mkResult false None ["1"] 1000
       "Hold quota exceeded. Max allowed: 0, Currently held: 0", disabledDb).
Proof.
  assert (Hview : quotaView (p_category wantSeat1) (p_scheduleId wantSeat1) disabledDb
                  = Some (partnerOff, 4, 0)) by reflexivity.
  assert (Hoff : Partner.holdQuotaEnabled partnerOff = false) by reflexivity.
  exact (proj1 (disabled_partner_refused_before_mutation 30 25 wantSeat1 1000
                  disabledDb partnerOff 4 0 Hview Hoff)).
Defined.

Lemma releaseHold_active_once_witness :
  ∃ st', releaseHold "h1" USER_CANCELLED 5000 heldDb = (true, st')
         ∧ SeatHold.status <$> seatHold st' !! "h1" = Some HoldStatus.RELEASED
         ∧ releaseHold "h1" USER_CANCELLED 6000 st' = (false, st').
Proof.
  assert (Hh : seatHold heldDb !! "h1" = Some (holdOnSeat1 HoldStatus.ACTIVE))
    by reflexivity.
  assert (Hact : SeatHold.status (holdOnSeat1 HoldStatus.ACTIVE) = HoldStatus.ACTIVE)
    by reflexivity.
  destruct (proj1 (releaseHold_active_once "h1" heldDb) _ USER_CANCELLED 5000 Hh Hact)
    as (st' & Hrun & Hclosed & _ & _ & _ & Hagain).
  exists st'. split; [exact Hrun|]. split; [|apply Hagain].
  rewrite Hclosed. reflexivity.
Defined.

Lemma convertHoldToBooking_moves_once_witness :
  ∃ st' s', convertHoldToBooking "h1" "b1" 5000 heldDb = (true, st')
            ∧ busSchedule st' !! "s1" = Some s'
            ∧ BusSchedule.heldSeats s' = 0 ∧ BusSchedule.bookedSeats s' = 1
            ∧ convertHoldToBooking "h1" "b1" 6000 st' = (false, st').
Proof.
  assert (Hh : seatHold heldDb !! "h1" = Some (holdOnSeat1 HoldStatus.ACTIVE))
    by reflexivity.
  assert (Hact : SeatHold.status (holdOnSeat1 HoldStatus.ACTIVE) = HoldStatus.ACTIVE)
    by reflexivity.
  assert (Hs : busSchedule heldDb !! SeatHold.scheduleId (holdOnSeat1 HoldStatus.ACTIVE)
               = Some (scheduleOf 4 partnerOn HELD 3 1 0)) by reflexivity.
  destruct (convertHoldToBooking_moves_once "h1" "b1" 5000 heldDb _ _ Hh Hact Hs)
    as (st' & s' & Hrun & _ & Hs' & _ & _ & Hheld & Hbooked & _ & _ & _ & Hagain).
  exists st', s'. split; [exact Hrun|]. split; [exact Hs'|].
  split; [exact Hheld|]. split; [exact Hbooked|]. apply Hagain.
Defined.

Lemma releaseExpiredHolds_sweeps_witness :
  (releaseExpiredHolds 700000 heldDb).1 = 1
  ∧ seatHold (releaseExpiredHolds 700000 heldDb).2 !! "h1"
    = Some (SeatHold.mk "s1" ["1"] "u1" 601000 HoldStatus.RELEASED (Some 700000)).
Proof.
  destruct (releaseExpiredHolds_sweeps 700000 heldDb) as (_ & Hn & Hholds & _).
  split; [exact Hn|].
  exact (Hholds "h1" (holdOnSeat1 HoldStatus.ACTIVE) eq_refl).
Defined.

Lemma failures_returned_and_rolled_back_witness :
  success (holdSeats 30 25 wantSeat1 1000 driftedDb).1 = false
  ∧ (holdSeats 30 25 wantSeat1 1000 driftedDb).2 = driftedDb.
Proof.
  assert (Hc : p_category wantSeat1 = BUS) by reflexivity.
  assert (Hs : busSchedule driftedDb !! p_scheduleId wantSeat1
               = Some (scheduleOf 4 partnerOn BOOKED 3 0 1)) by reflexivity.
  assert (Hin : "1" ∈ p_seatNumbers wantSeat1) by (left).
  assert (Hseat : BusSchedule.seatStatus (scheduleOf 4 partnerOn BOOKED 3 0 1) !! "1"
                  ≠ Some AVAILABLE) by (vm_compute; discriminate).
  destruct (failures_returned_and_rolled_back 30 25)
    as (_ & _ & _ & _ & _ & _ & Hseats & _).
  exact (Hseats wantSeat1 1000 driftedDb _ "1" Hc Hs Hin Hseat).
Defined.

(** *** Where the claims as written fail *)


(** C6 as written: the outcome for a partner without holds is not distinct
    from a quota refusal.  The call against the disabled partner and the call
    against an enabled partner whose quota of 0 seats is exceeded return the
    same result. *)
Lemma disabled_outcome_is_quota_outcome :
  quotaView BUS "s1" disabledDb = Some (partnerOff, 4, 0)
  ∧ Partner.holdQuotaEnabled partnerOff = false
  ∧ quotaView BUS "s1" threeSeatDb = Some (partnerOn, 3, 0)
  ∧ Partner.holdQuotaEnabled partnerOn = true
  ∧ 0 + len (p_seatNumbers wantSeat1)
    > calculateMaxHolds 25 3 (Some (quotaPercentageOf 25 partnerOn))
  ∧ (holdSeats 30 25 wantSeat1 1000 disabledDb).1
    = (holdSeats 30 25 wantSeat1 1000 threeSeatDb).1.
Proof. repeat split; vm_compute; reflexivity. Qed.

(** C7 as written: released with the reason CONVERTED, the ACTIVE hold "h1"
    ends CONVERTED, not RELEASED; and a covered seat that is BOOKED rather
    than HELD stays BOOKED when the hold is released. *)
Lemma release_not_always_released_available :
  seatHold heldDb !! "h1" = Some (holdOnSeat1 HoldStatus.ACTIVE)
  ∧ (releaseHold "h1" REASON_CONVERTED 5000 heldDb).1 = true
  ∧ SeatHold.status
      <$> seatHold (releaseHold "h1" REASON_CONVERTED 5000 heldDb).2 !! "h1"
    = Some HoldStatus.CONVERTED
  ∧ SeatHold.status
      <$> seatHold (releaseHold "h1" REASON_CONVERTED 5000 heldDb).2 !! "h1"
    ≠ Some HoldStatus.RELEASED
  ∧ seatHold driftedDb !! "h1" = Some (holdOnSeat1 HoldStatus.ACTIVE)
  ∧ (releaseHold "h1" USER_CANCELLED 5000 driftedDb).1 = true
  ∧ (s ← busSchedule (releaseHold "h1" USER_CANCELLED 5000 driftedDb).2 !! "s1";
     BusSchedule.seatStatus s !! "1") = Some BOOKED
  ∧ (s ← busSchedule (releaseHold "h1" USER_CANCELLED 5000 driftedDb).2 !! "s1";
     BusSchedule.seatStatus s !! "1") ≠ Some AVAILABLE.
Proof.
  repeat split; try (vm_compute; reflexivity); vm_compute; discriminate.
Qed.

(** C9 as written: a hold whose expiry is exactly the current time is at
    or before it, yet the sweep does not find it. *)
Lemma hold_expiring_now_not_swept :
  seatHold heldDb !! "h1" = Some (holdOnSeat1 HoldStatus.ACTIVE)
  ∧ SeatHold.holdExpiry (holdOnSeat1 HoldStatus.ACTIVE) ≤ 601000
  ∧ releaseExpiredHolds 601000 heldDb = (0, heldDb)
  ∧ SeatHold.status <$> seatHold (releaseExpiredHolds 601000 heldDb).2 !! "h1"
    ≠ Some HoldStatus.RELEASED.
Proof.
  split; [reflexivity|]. split; [vm_compute; discriminate|].
  split; [vm_compute; reflexivity | vm_compute; discriminate].
Qed.

(** *** Two calls in flight *)

(** Run one after the other, two requests for one seat each against a quota
    of one seat give one hold and one quota refusal. *)
Lemma sequential_holds_respect_quota :
  let run := runTasks 30 25 [0; 0; 1; 1]%nat
               [Pending wantSeat1 1000; Pending wantSeat2 1000] emptyDb in
  successes run.1 = 1%nat
  ∧ run.1 !! 1%nat
    = Some (Done (mkResult false None ["2"] 1000
                    "Hold quota exceeded. Max allowed: 1, Currently held: 1"))
  ∧ BusSchedule.heldSeats <$> busSchedule run.2 !! "s1" = Some 1.
Proof. repeat split; vm_compute; reflexivity. Qed.

(** C2 on the code: the quota check of [holdSeats] runs before, and outside
    of, the transaction.  With a quota of K = 1 seat and N = 2 requests for
    one seat each, the order check, check, commit, commit lets both requests
    succeed and leaves two seats held. *)
Theorem interleaved_holds_exceed_quota :
  let K := calculateMaxHolds 25 4 (Some (quotaPercentageOf 25 partnerOn)) in
  let run := runTasks 30 25 [0; 1; 0; 1]%nat
               [Pending wantSeat1 1000; Pending wantSeat2 1000] emptyDb in
  K = 1
  ∧ successes run.1 = 2%nat
  ∧ BusSchedule.heldSeats <$> busSchedule run.2 !! "s1" = Some 2
  ∧ length (map_to_list (seatHold run.2)) = 2%nat.
Proof. repeat split; vm_compute; reflexivity. Qed.

(** ** More statements on the sample databases *)

Lemma head_findFirstSpec : findFirstSpec head.
Proof. intros [|row rows]; [reflexivity | left]. Qed.

Lemma seats_never_held_twice_witness :
  holdsExclusive heldDb
  ∧ holdsExclusive (releaseHold "h1" USER_CANCELLED 5000 heldDb).2.
Proof.
  assert (Hinv : holdsExclusive heldDb).
  { split.
    - intros id h s Hh Hact Hs seat Hin. unfold heldDb in Hh, Hs.
      cbn [seatHold busSchedule] in Hh, Hs.
      apply lookup_singleton_Some in Hh as [<- <-].
      apply lookup_singleton_Some in Hs as [_ <-].
      apply list_elem_of_singleton in Hin as ->. reflexivity.
    - intros id1 id2 h1 h2 Hne Hh1 Hh2. unfold heldDb in Hh1, Hh2.
      cbn [seatHold] in Hh1, Hh2.
      apply lookup_singleton_Some in Hh1 as [<- _].
      apply lookup_singleton_Some in Hh2 as [<- _]. done. }
  split; [exact Hinv|].
  apply (seats_never_held_twice 30 25 heldDb _ Hinv).
  apply rtc_once. eapply step_releaseHold. apply surjective_pairing.
Defined.

Lemma heldSeats_counts_active_holds_witness :
  heldAccounted heldDb
  ∧ heldAccounted (releaseHold "h1" USER_CANCELLED 5000 heldDb).2.
Proof.
  assert (Hinv : heldAccounted heldDb).
  { intros sid s Hs. unfold heldDb in Hs. cbn [busSchedule] in Hs.
    apply lookup_singleton_Some in Hs as [<- <-]. vm_compute. reflexivity. }
  split; [exact Hinv|].
  apply (heldSeats_counts_active_holds 30 25 heldDb _ Hinv).
  apply rtc_once. eapply step_releaseHold. apply surjective_pairing.
Defined.


Lemma flight_holds_never_granted_witness :
  success (holdSeats 30 25 (mkParams "f1" ["1A"] "u1" FLIGHT None) 1000
                     (inventory (databaseOf emptyDb))).1 = false
  ∧ (holdSeats 30 25 (mkParams "f1" ["1A"] "u1" FLIGHT None) 1000
               (inventory (databaseOf emptyDb))).2
    = inventory (databaseOf emptyDb).
Proof.
  destruct (flight_holds_never_granted 30 25 (mkParams "f1" ["1A"] "u1" FLIGHT None)
              1000 (inventory (databaseOf emptyDb)) eq_refl) as (Hno & Hsame & _).
  split; [exact Hno | exact Hsame].
Defined.

Lemma first_unavailable_seat_reported_witness :
  holdSeats 30 25 (mkParams "s1" ["2"; "1"] "u1" BUS None) 1000 bookedSeatDb
  = (mkResult false None ["2"; "1"] 1000 "Seat 1 is not available", bookedSeatDb).
Proof.
  assert (Hq : BusSchedule.heldSeats (scheduleOf 4 partnerHalf BOOKED 3 0 1)
               + len (p_seatNumbers (mkParams "s1" ["2"; "1"] "u1" BUS None))
               ≤ calculateMaxHolds 25
                   (BusRoute.totalSeats
                      (BusSchedule.route (scheduleOf 4 partnerHalf BOOKED 3 0 1)))
                   (Some (quotaPercentageOf 25
                            (BusRoute.partner
                               (BusSchedule.route
                                  (scheduleOf 4 partnerHalf BOOKED 3 0 1))))))
    by (vm_compute; discriminate).
  assert (Hbefore : ∀ x, x ∈ ["2"] →
            BusSchedule.seatStatus (scheduleOf 4 partnerHalf BOOKED 3 0 1) !! x
            = Some AVAILABLE)
    by (intros x ->%list_elem_of_singleton; reflexivity).
  assert (Hseat : BusSchedule.seatStatus (scheduleOf 4 partnerHalf BOOKED 3 0 1) !! "1"
                  ≠ Some AVAILABLE) by (vm_compute; discriminate).
  exact (first_unavailable_seat_reported 30 25
           (mkParams "s1" ["2"; "1"] "u1" BUS None) 1000 bookedSeatDb
           (scheduleOf 4 partnerHalf BOOKED 3 0 1) ["2"] "1" []
           eq_refl eq_refl eq_refl eq_refl Hq eq_refl Hbefore Hseat).
Defined.

Lemma empty_request_creates_empty_hold_witness :
  ∃ r st' id,
    holdSeats 30 25 (mkParams "s1" [] "u1" BUS None) 1000 heldDb = (r, st')
    ∧ success r = true ∧ holdId r = Some id
    ∧ busSchedule st' = busSchedule heldDb.
Proof.
  assert (Hq : BusSchedule.heldSeats (scheduleOf 4 partnerOn HELD 3 1 0)
               ≤ calculateMaxHolds 25
                   (BusRoute.totalSeats
                      (BusSchedule.route (scheduleOf 4 partnerOn HELD 3 1 0)))
                   (Some (quotaPercentageOf 25
                            (BusRoute.partner
                               (BusSchedule.route
                                  (scheduleOf 4 partnerOn HELD 3 1 0))))))
    by (vm_compute; discriminate).
  destruct (empty_request_creates_empty_hold 30 25
              (mkParams "s1" [] "u1" BUS None) 1000 heldDb
              (scheduleOf 4 partnerOn HELD 3 1 0)
              eq_refl eq_refl eq_refl eq_refl eq_refl Hq)
    as (r & st' & id & Hrun & Hok & Hid & _ & _ & Hbus).
  exists r, st', id. split; [exact Hrun|]. split; [exact Hok|].
  split; [exact Hid | exact Hbus].
Defined.

Lemma repeated_seats_counted_twice_witness :
  ∃ s',
    busSchedule (holdSeats 30 25 (mkParams "s1" ["2"; "2"] "u1" BUS None) 1000
                           roomyDb).2 !! "s1" = Some s'
    ∧ BusSchedule.heldSeats s' - Z.of_nat (heldOnMap (BusSchedule.seatStatus s')) > 0.
Proof.
  assert (Hok : success (holdSeats 30 25 (mkParams "s1" ["2"; "2"] "u1" BUS None)
                                   1000 roomyDb).1 = true)
    by (vm_compute; reflexivity).
  assert (Hdup : ¬ NoDup (p_seatNumbers (mkParams "s1" ["2"; "2"] "u1" BUS None))).
  { intros Hnd. apply NoDup_cons in Hnd as [Hnin _]. apply Hnin. left. }
  destruct (repeated_seats_counted_twice 30 25
              (mkParams "s1" ["2"; "2"] "u1" BUS None) 1000 roomyDb _ _
              (surjective_pairing _) Hok)
    as (s & s' & Hs & Hs' & _ & _ & _ & Hgap).
  exists s'. split; [exact Hs'|].
  specialize (Hgap Hdup).
  unfold roomyDb in Hs. cbn [busSchedule p_scheduleId] in Hs.
  apply lookup_singleton_Some in Hs as [_ <-].
  vm_compute in Hgap. vm_compute. exact Hgap.
Defined.

Lemma hold_then_release_restores_witness :
  ∃ st2,
    releaseHold "0" USER_CANCELLED 5000 (holdSeats 30 25 wantSeat1 1000 emptyDb).2
    = (true, st2)
    ∧ busSchedule st2 = busSchedule emptyDb.
Proof.
  assert (Hok : success (holdSeats 30 25 wantSeat1 1000 emptyDb).1 = true)
    by (vm_compute; reflexivity).
  assert (Hid : holdId (holdSeats 30 25 wantSeat1 1000 emptyDb).1 = Some "0")
    by (vm_compute; reflexivity).
  destruct (hold_then_release_restores 30 25 wantSeat1 1000 emptyDb _ _ "0"
              USER_CANCELLED 5000 (surjective_pairing _) Hok Hid)
    as (st2 & Hrun & Hbus & _).
  exists st2. split; [exact Hrun | exact Hbus].
Defined.

Lemma closed_hold_never_changes_witness :
  seatHold (holdSeats 30 25 wantSeat2 7000
              (releaseHold "h1" USER_CANCELLED 5000 heldDb).2).2 !! "h1"
  = Some (SeatHold.mk "s1" ["1"] "u1" 601000 HoldStatus.RELEASED (Some 5000)).
Proof.
  assert (Hh : seatHold (releaseHold "h1" USER_CANCELLED 5000 heldDb).2 !! "h1"
               = Some (SeatHold.mk "s1" ["1"] "u1" 601000 HoldStatus.RELEASED
                                   (Some 5000)))
    by (vm_compute; reflexivity).
  assert (Hclosed : SeatHold.status
                      (SeatHold.mk "s1" ["1"] "u1" 601000 HoldStatus.RELEASED
                                   (Some 5000)) ≠ HoldStatus.ACTIVE)
    by discriminate.
  apply (closed_hold_never_changes 30 25 _ _ "h1" _ Hh Hclosed).
  apply rtc_once. eapply step_holdSeats. apply surjective_pairing.
Defined.

Lemma sweep_twice_is_sweep_once_witness :
  releaseExpiredHolds 650000 (releaseExpiredHolds 700000 heldDb).2
  = (0, (releaseExpiredHolds 700000 heldDb).2).
Proof.
  assert (Hle : 650000 ≤ 700000) by lia.
  exact (proj1 (sweep_twice_is_sweep_once 700000 650000 heldDb Hle)).
Defined.

Lemma status_agrees_with_check_witness :
  ∃ qs q,
    getHoldQuotaStatus 30 25 "s1" BUS heldDb = inr qs
    ∧ isHoldQuotaAvailable 25 "s1" 1 BUS heldDb = inr q
    ∧ qs_availableHolds qs = 0
    ∧ available q = false.
Proof.
  destruct (status_agrees_with_check 30 25 heldDb "s1"
              (scheduleOf 4 partnerOn HELD 3 1 0) 1 eq_refl eq_refl)
    as (qs & q & Hqs & Hq & _ & _ & _ & Hiff).
  exists qs, q. split; [exact Hqs|]. split; [exact Hq|].
  assert (Hone : 1 ≤ 1) by lia. specialize (Hiff Hone).
  assert (Hav : qs_availableHolds qs = 0).
  { vm_compute in Hqs. injection Hqs as <-. reflexivity. }
  split; [exact Hav|].
  destruct (available q); [|reflexivity].
  apply proj1 in Hiff. specialize (Hiff eq_refl). lia.
Defined.

Lemma status_ignores_disabled_partner_witness :
  (∃ qs, getHoldQuotaStatus 30 25 "s1" BUS disabledDb = inr qs
         ∧ qs_holdQuotaEnabled qs = false
         ∧ qs_maxHoldsAllowed qs = 1
         ∧ qs_availableHolds qs = 1)
  ∧ success (holdSeats 30 25 wantSeat1 1000 disabledDb).1 = false.
Proof.
  destruct (status_ignores_disabled_partner 30 25 disabledDb "s1"
              (scheduleOf 4 partnerOff AVAILABLE 4 0 0) eq_refl eq_refl)
    as ((qs & Hqs & Hoff & Hmax & Hleft) & _ & Hhold).
  split.
  - exists qs. split; [exact Hqs|]. split; [exact Hoff|].
    split; [rewrite Hmax | rewrite Hleft]; vm_compute; reflexivity.
  - exact (proj1 (Hhold wantSeat1 1000 eq_refl eq_refl)).
Defined.

Lemma calculateMaxHolds_endpoints_monotone_witness :
  calculateMaxHolds 25 40 (Some 10%Q) ≤ calculateMaxHolds 25 40 (Some 25%Q)
  ∧ calculateMaxHolds 25 40 (Some 100%Q) = 40.
Proof.
  destruct (calculateMaxHolds_endpoints_monotone 25)
    as (_ & Hall & Hpct & _ & _).
  assert (H0 : 0 ≤ 40) by lia.
  assert (Hle : (10 <= 25)%Q) by (vm_compute; discriminate).
  split; [exact (Hpct 40 10%Q 25%Q H0 Hle) | exact (Hall 40)].
Defined.


Lemma refund_is_bounded_witness :
  ∃ r, calculateCancellationRefund "b7" 9000000 paidFlightDb = inr r
       ∧ (0 <= finalRefundAmount r)%Q
       ∧ (finalRefundAmount r <= eligibleRefundAmount r)%Q.
Proof.
  assert (Hb : booking paidFlightDb !! "b7"
               = Some (confirmRow (cardPayment 4084) 2000
                         (newBooking "u1" (clockAt 1000)
                            (Booking.mkTarget BookingCategory.AIRLINE None (Some "f1")
                               (Some CabinClass.ECONOMY) None None None None)
                            (passengerOn None)
                            (calculatePricing 4000 1 [] None) None)))
    by reflexivity.
  destruct (refund_is_bounded "b7" 9000000 paidFlightDb _ Hb)
    as (r & Hrun & Hpaid & H0 & _ & _ & Hbound).
  exists r. split; [exact Hrun|]. split; [exact H0|].
  apply Hbound.
  - rewrite Hpaid. vm_compute. discriminate.
  - vm_compute. discriminate.
Defined.

Lemma bus_and_hotel_refunds_are_full_witness :
  ∃ r, calculateCancellationRefund "b9" 900000000 orphanHotelDb = inr r
       ∧ cancellationCharges r = 0%Q
       ∧ (finalRefundAmount r == 0)%Q
       ∧ refundProcessingDays r = 7.
Proof.
  assert (Hb : booking orphanHotelDb !! "b9"
               = Some (newBooking "u1" (clockAt 1000)
                         (Booking.mkTarget BookingCategory.HOTEL None None None
                            (Some "r9") (Some 1000) (Some 2000) (Some 1%Q))
                         (passengerOn None)
                         (calculatePricing 2500 1 [] None) None))
    by reflexivity.
  destruct (bus_and_hotel_refunds_are_full "b9" 900000000 orphanHotelDb _ Hb eq_refl)
    as (r & Hrun & _ & Hcharges & _ & Hzero & Hdays).
  exists r. split; [exact Hrun|]. split; [exact Hcharges|].
  split; [|exact Hdays]. apply Hzero. vm_compute. discriminate.
Defined.

Lemma failed_bus_booking_writes_nothing_witness :
  (createBusBooking 30 25 "u1" twoSeats (clockAt 1000) (databaseOf disabledDb)).2
  = databaseOf disabledDb.
Proof.
  assert (Hrun : createBusBooking 30 25 "u1" twoSeats (clockAt 1000)
                   (databaseOf disabledDb)
                 = (inl "Hold quota exceeded. Max allowed: 0, Currently held: 0",
                    (createBusBooking 30 25 "u1" twoSeats (clockAt 1000)
                       (databaseOf disabledDb)).2)).
  { rewrite (surjective_pairing (createBusBooking _ _ _ _ _ _)) at 1.
    f_equal; vm_compute; reflexivity. }
  exact (failed_bus_booking_writes_nothing 30 25 "u1" twoSeats (clockAt 1000)
           (databaseOf disabledDb) _ _ Hrun).
Defined.


Lemma seatless_bus_booking_reserves_nothing_witness :
  ∃ r db',
    createBusBooking 30 25 "u1" noSeats (clockAt 1000) (databaseOf disabledDb)
    = (inr r, db')
    ∧ inventory db' = inventory (databaseOf disabledDb).
Proof.
  assert (Hav : Z.of_nat (length (rq_passengers noSeats))
                ≤ BusSchedule.availableSeats (scheduleOf 4 partnerOff AVAILABLE 4 0 0))
    by (vm_compute; discriminate).
  destruct (seatless_bus_booking_reserves_nothing 30 25 "u1" noSeats (clockAt 1000)
              (clockAt 2000) (databaseOf disabledDb) "s1"
              (scheduleOf 4 partnerOff AVAILABLE 4 0 0)
              (passengerOn None) [passengerOn None]
              eq_refl eq_refl eq_refl eq_refl eq_refl Hav)
    as (r & db' & _ & _ & Hrun & Hinv & _).
  exists r, db'. split; [exact Hrun | exact Hinv].
Defined.

Lemma booking_and_payment_keep_inventory_consistent_witness :
  let db' := (createBusBooking 30 25 "u1" twoSeats (clockAt 1000)
                (databaseOf roomyDb)).2 in
  countsInvariant (inventory db')
  ∧ holdsExclusive (inventory db')
  ∧ heldAccounted (inventory db').
Proof.
  assert (Hc : countsInvariant (inventory (databaseOf roomyDb))).
  { intros id s Hs. cbn in Hs.
    apply lookup_singleton_Some in Hs as [<- <-]. reflexivity. }
  assert (He : holdsExclusive (inventory (databaseOf roomyDb))).
  { split.
    - intros id h s Hh. cbn in Hh. by rewrite lookup_empty in Hh.
    - intros id1 id2 h1 h2 _ Hh. cbn in Hh. by rewrite lookup_empty in Hh. }
  assert (Ha : heldAccounted (inventory (databaseOf roomyDb))).
  { intros sid s Hs. cbn in Hs.
    apply lookup_singleton_Some in Hs as [<- <-]. vm_compute. reflexivity. }
  apply (booking_and_payment_keep_inventory_consistent 30 25 head
           (databaseOf roomyDb) _ Hc He Ha).
  left. exists "u1", twoSeats, (clockAt 1000). reflexivity.
Defined.

Lemma payment_confirms_any_booking_witness :
  (confirmBooking head "b9" (cardPayment 1) 5000 orphanHotelDb).1
  = inl "Record to update not found."
  ∧ Booking.status
      <$> booking (confirmBooking head "b9" (cardPayment 1) 5000 orphanHotelDb).2
          !! "b9"
    = Some BookingStatus.CONFIRMED.
Proof.
  destruct (payment_confirms_any_booking head "b9" (cardPayment 1) 5000 orphanHotelDb)
    as [Hfound _].
  destruct (Hfound _ eq_refl) as (b' & Hb' & Hst & _ & _ & Hroom & _).
  split.
  - apply (Hroom "r9"); reflexivity.
  - rewrite Hb'. cbn. by rewrite Hst.
Defined.

Lemma payment_without_hold_books_no_seat_witness :
  ∃ r db',
    confirmBooking head "0" (cardPayment 1021) 5000
      (createBusBooking 30 25 "u1" noSeats (clockAt 1000) (databaseOf roomyDb)).2
    = (inr r, db')
    ∧ rs_status r = BookingStatus.CONFIRMED
    ∧ inventory db' = inventory (databaseOf roomyDb).
Proof.
  assert (Hnone : ∀ holdId h,
            seatHold (inventory (createBusBooking 30 25 "u1" noSeats (clockAt 1000)
                                   (databaseOf roomyDb)).2) !! holdId = Some h →
            SeatHold.scheduleId h = "s1" →
            SeatHold.heldBy h
            = Booking.userId (busBookingRow "u1" noSeats (clockAt 1000)
                                (databaseOf roomyDb) "s1" (passengerOn None)) →
            SeatHold.status h ≠ HoldStatus.ACTIVE).
  { intros holdId h Hh. vm_compute in Hh. discriminate. }
  destruct (payment_without_hold_books_no_seat head "0" (cardPayment 1021) 5000
              (createBusBooking 30 25 "u1" noSeats (clockAt 1000) (databaseOf roomyDb)).2
              (busBookingRow "u1" noSeats (clockAt 1000) (databaseOf roomyDb) "s1"
                 (passengerOn None))
              "s1" head_findFirstSpec eq_refl eq_refl eq_refl Hnone)
    as (r & db' & Hrun & Hst & _ & Hinv).
  exists r, db'. split; [exact Hrun|]. split; [exact Hst|]. exact Hinv.
Defined.

Lemma payment_converts_a_hold_of_the_user_witness :
  ∃ r db',
    confirmBooking head "0" (cardPayment 1021) 5000
      (createBusBooking 30 25 "u1" twoSeats (clockAt 1000) (databaseOf roomyDb)).2
    = (inr r, db')
    ∧ seatHold (inventory db') !! "0"
      = Some (SeatHold.mk "s1" ["2"; "3"] "u1" 601000 HoldStatus.CONVERTED (Some 5000)).
Proof.
  destruct (payment_converts_a_hold_of_the_user head "0" (cardPayment 1021) 5000
              (createBusBooking 30 25 "u1" twoSeats (clockAt 1000) (databaseOf roomyDb)).2
              (busBookingRow "u1" twoSeats (clockAt 1000) (databaseOf roomyDb) "s1"
                 (passengerOn (Some "2")))
              "s1" "0"
              (SeatHold.mk "s1" ["2"; "3"] "u1" 601000 HoldStatus.ACTIVE None)
              head_findFirstSpec eq_refl eq_refl eq_refl eq_refl eq_refl eq_refl eq_refl)
    as (r & db' & holdId & h & Hrun & _ & Hh & _ & _ & _ & _ & Hconv & _ & Honly).
  assert (Hid : holdId = "0").
  { apply Honly. intros other ho Hother _ _ _.
    assert (Hholds : seatHold (inventory (createBusBooking 30 25 "u1" twoSeats
                                 (clockAt 1000) (databaseOf roomyDb)).2)
                     = {[ "0" := SeatHold.mk "s1" ["2"; "3"] "u1" 601000
                                             HoldStatus.ACTIVE None ]})
      by (vm_compute; reflexivity).
    rewrite Hholds in Hother.
    by apply lookup_singleton_Some in Hother as [<- _]. }
  subst holdId. exists r, db'. split; [exact Hrun|].
  rewrite Hconv. vm_compute in Hh. injection Hh as <-. reflexivity.
Defined.

Lemma cancelled_booking_stays_cancelled_witness :
  ∃ out db',
    cancelBooking "b7" "u1" "change of plans" 9000000 paidFlightDb = (inr out, db')
    ∧ cancelBooking "b7" "u1" "again" 9500000 db'
      = (inl "Booking is already cancelled", db').
Proof.
  assert (Hok : ∃ out, (cancelBooking "b7" "u1" "change of plans" 9000000
                          paidFlightDb).1 = inr out)
    by (vm_compute; eauto).
  destruct Hok as [out Hout].
  assert (Hrun : cancelBooking "b7" "u1" "change of plans" 9000000 paidFlightDb
                 = (inr out, (cancelBooking "b7" "u1" "change of plans" 9000000
                                paidFlightDb).2))
    by (rewrite <- Hout; apply surjective_pairing).
  destruct (cancelled_booking_stays_cancelled "b7" "u1" "change of plans" 9000000
              paidFlightDb out _ Hrun) as (_ & _ & _ & Hagain).
  eexists _, _. split; [exact Hrun|]. exact (Hagain "u1" "again" 9500000).
Defined.

Lemma cancelling_unpaid_bus_booking_strands_the_hold_witness :
  ∃ out db2,
    cancelBooking "0" "u1" "changed my mind" 5000
      (createBusBooking 30 25 "u1" twoSeats (clockAt 1000) (databaseOf roomyDb)).2
    = (inr out, db2)
    ∧ ¬ holdsExclusive (inventory db2).
Proof.
  assert (Hfk : passengersHaveBooking (databaseOf roomyDb)).
  { intros p Hp. cbn in Hp. by apply elem_of_nil in Hp. }
  assert (Hok : ∃ r, (createBusBooking 30 25 "u1" twoSeats (clockAt 1000)
                        (databaseOf roomyDb)).1 = inr r ∧ rs_id r = "0")
    by (vm_compute; eauto).
  destruct Hok as (r & Hr & Hid).
  assert (Hrun : createBusBooking 30 25 "u1" twoSeats (clockAt 1000)
                   (databaseOf roomyDb)
                 = (inr r, (createBusBooking 30 25 "u1" twoSeats (clockAt 1000)
                              (databaseOf roomyDb)).2))
    by (rewrite <- Hr; apply surjective_pairing).
  assert (Hseats : requestedSeatsOf (rq_passengers twoSeats) ≠ []) by discriminate.
  destruct (cancelling_unpaid_bus_booking_strands_the_hold 30 25 "u1" twoSeats
              (clockAt 1000) "changed my mind" 5000 (databaseOf roomyDb) r _
              Hfk Hrun Hseats)
    as (out & db2 & sid & s & s2 & holdId & h & Hcancel & _ & _ & _ & _ & _ & _ & _
        & _ & _ & _ & Hbroken).
  rewrite Hid in Hcancel.
  exists out, db2. split; [exact Hcancel | exact Hbroken].
Defined.

Lemma book_pay_cancel_restores_schedule_witness :
  ∃ r2 db2 out db3,
    confirmBooking head "0" (cardPayment 1021) 5000
      (createBusBooking 30 25 "u1" twoSeats (clockAt 1000) (databaseOf roomyDb)).2
    = (inr r2, db2)
    ∧ cancelBooking "0" "u1" "changed my mind" 9000 db2 = (inr out, db3)
    ∧ busSchedule (inventory db3) = busSchedule roomyDb.
Proof.
  assert (Hfk : passengersHaveBooking (databaseOf roomyDb)).
  { intros p Hp. cbn in Hp. by apply elem_of_nil in Hp. }
  assert (Hnohold : ∀ holdId h,
            seatHold (inventory (databaseOf roomyDb)) !! holdId = Some h →
            SeatHold.heldBy h = "u1" → SeatHold.status h ≠ HoldStatus.ACTIVE).
  { intros holdId h Hh. cbn in Hh. by rewrite lookup_empty in Hh. }
  assert (Hok : ∃ r, (createBusBooking 30 25 "u1" twoSeats (clockAt 1000)
                        (databaseOf roomyDb)).1 = inr r ∧ rs_id r = "0")
    by (vm_compute; eauto).
  destruct Hok as (r & Hr & Hid).
  assert (Hrun : createBusBooking 30 25 "u1" twoSeats (clockAt 1000)
                   (databaseOf roomyDb)
                 = (inr r, (createBusBooking 30 25 "u1" twoSeats (clockAt 1000)
                              (databaseOf roomyDb)).2))
    by (rewrite <- Hr; apply surjective_pairing).
  destruct (book_pay_cancel_restores_schedule 30 25 head "u1" twoSeats (clockAt 1000)
              (cardPayment 1021) 5000 "changed my mind" 9000 (databaseOf roomyDb) r _
              head_findFirstSpec Hfk Hnohold Hrun eq_refl)
    as (r2 & db2 & out & db3 & sid & s2 & Hconfirm & _ & _ & _ & Hcancel & Hback & _).
  rewrite Hid in Hconfirm, Hcancel.
  exists r2, db2, out, db3. split; [exact Hconfirm|]. split; [exact Hcancel|].
  exact Hback.
Defined.

Lemma hotel_rooms_conserved_witness :
  ∃ room',
    roomInventory (createHotelBooking "u1" hotelRequest (clockAt 1000)
                     (databaseOf emptyDb)).2 !! "r1" = Some room'
    ∧ roomsOf room' = 3.
Proof.
  destruct (hotel_rooms_conserved head (databaseOf emptyDb)
              (createHotelBooking "u1" hotelRequest (clockAt 1000)
                 (databaseOf emptyDb)).2 "r1" sampleRoom eq_refl)
    as (room' & Hroom & Hsum).
  { left. exists "u1", hotelRequest, (clockAt 1000). reflexivity. }
  exists room'. split; [exact Hroom|]. rewrite Hsum. reflexivity.
Defined.

Lemma hotel_cancel_restores_room_only_after_payment_witness :
  ∃ out db2 room2,
    cancelBooking "0" "u1" "changed my mind" 5000
      (createHotelBooking "u1" hotelRequest (clockAt 1000) (databaseOf emptyDb)).2
    = (inr out, db2)
    ∧ roomInventory db2 !! "r1" = Some room2
    ∧ RoomInventory.heldRooms room2 = 1
    ∧ RoomInventory.bookedRooms room2 = 0.
Proof.
  assert (Hok : ∃ r, (createHotelBooking "u1" hotelRequest (clockAt 1000)
                        (databaseOf emptyDb)).1 = inr r ∧ rs_id r = "0")
    by (vm_compute; eauto).
  destruct Hok as (r & Hr & Hid).
  assert (Hrun : createHotelBooking "u1" hotelRequest (clockAt 1000)
                   (databaseOf emptyDb)
                 = (inr r, (createHotelBooking "u1" hotelRequest (clockAt 1000)
                              (databaseOf emptyDb)).2))
    by (rewrite <- Hr; apply surjective_pairing).
  destruct (hotel_cancel_restores_room_only_after_payment head "u1" hotelRequest
              (clockAt 1000) (cardPayment 2553) 3000 "changed my mind" 5000
              (databaseOf emptyDb) r _ Hrun)
    as (rid & room & Hrid & Hroom & _ & (out & db2 & room2 & Hcancel & Hroom2 & _
        & Hheld & Hbooked) & _).
  injection Hrid as <-. vm_compute in Hroom. injection Hroom as <-.
  rewrite Hid in Hcancel.
  exists out, db2, room2. split; [exact Hcancel|]. split; [exact Hroom2|].
  split; [rewrite Hheld | rewrite Hbooked]; reflexivity.
Defined.

Lemma flight_booking_never_oversells_witness :
  (∃ e, createFlightBooking "u1" (flightRequest (Some CabinClass.PREMIUM_ECONOMY) 1)
          (clockAt 1000) (databaseOf emptyDb) = (inl e, databaseOf emptyDb))
  ∧ (∃ s', flightSchedule
             (inventory (createFlightBooking "u1"
                           (flightRequest (Some CabinClass.ECONOMY) 2)
                           (clockAt 1000) (databaseOf emptyDb)).2) !! "f1" = Some s'
           ∧ FlightSchedule.economySeats s' - FlightSchedule.economyBooked s' = 0).
Proof.
  split.
  - exact (proj2 (flight_booking_never_oversells "u1"
                    (flightRequest (Some CabinClass.PREMIUM_ECONOMY) 1)
                    (clockAt 1000) (databaseOf emptyDb)) eq_refl).
  - assert (Hok : ∃ r, (createFlightBooking "u1"
                          (flightRequest (Some CabinClass.ECONOMY) 2)
                          (clockAt 1000) (databaseOf emptyDb)).1 = inr r)
      by (vm_compute; eauto).
    destruct Hok as [r Hr].
    assert (Hrun : createFlightBooking "u1" (flightRequest (Some CabinClass.ECONOMY) 2)
                     (clockAt 1000) (databaseOf emptyDb)
                   = (inr r, (createFlightBooking "u1"
                                (flightRequest (Some CabinClass.ECONOMY) 2)
                                (clockAt 1000) (databaseOf emptyDb)).2))
      by (rewrite <- Hr; apply surjective_pairing).
    destruct (proj1 (flight_booking_never_oversells "u1"
                       (flightRequest (Some CabinClass.ECONOMY) 2)
                       (clockAt 1000) (databaseOf emptyDb)) r _ Hrun)
      as (fid & s & s' & Hfid & Hs & Hs' & _ & _ & Hfree & _).
    injection Hfid as <-. vm_compute in Hs. injection Hs as <-.
    exists s'. split; [exact Hs'|].
    refine (eq_trans Hfree _). vm_compute. reflexivity.
Defined.

